(** * Bike-share data curation: a shallow embedding of the curation pipeline

  The development follows the Python sources of the repository:

  - [SourceCode/DataCuration/data_acquisition.py]
    (module [Acquisition]: the reverse-geocoding retry loop);
  - [SourceCode/DataCuration/data_cleaning_homogenization.py]
    (modules [Frame], [Bikes], [Stations], [Trips], [Demographics],
    [Weather]);
  - [SourceCode/DataCuration/feature_engineering.py]
    (modules [Float64], [Calendar], [Features]).

  Data frames are lists of records, one record per row, in row order.
  A missing cell (NaN, NaT, None) is [None].  Exact decimal columns of the
  cleaning stage (coordinates, census indicators) are canonical rationals
  [Qc]; the columns of the feature stage that go through division, square
  roots and comparisons with NaN and infinities are IEEE-754 binary64
  values ([spec_float] at precision 53).  Timestamps are integer counts of
  nanoseconds since the Unix epoch, the representation of datetime64[ns]. *)

From Stdlib Require Import ZArith List String Ascii Bool Lia.
From Stdlib Require Import QArith Qcanon Qcabs.
From Stdlib Require Import Floats.SpecFloat.
From stdpp Require Import base decidable option list numbers sorting strings pretty gmap.

Local Open Scope Z_scope.

(** * Exceptions *)

Module Py.

(** The exceptions the modelled code can raise, and the result of a call
    that either returns a value or raises. *)
Inductive exn :=
  | RecursionError (i : nat)
  | UnboundLocalError
  | KeyError
  | ValueError
  | TypeError.

Inductive result (A : Type) :=
  | Ok (a : A)
  | Raise (e : exn).
Arguments Ok {A} a.
Arguments Raise {A} e.

Definition bind {A B} (r : result A) (f : A -> result B) : result B :=
  match r with
  | Ok a => f a
  | Raise e => Raise e
  end.

Definition map_result {A B} (f : A -> B) (r : result A) : result B :=
  bind r (fun a => Ok (f a)).

End Py.

(** * data_acquisition.py *)

Module Acquisition.
Import Py.

(** What [get_zip_code] hands back when it does not raise: a ZIP code string,
    or the float NaN when [uszipcode] finds nothing near the coordinates. *)
Inductive zip_code :=
  | Zip (z : string)
  | ZipNaN.

Section get_zip_code_by_coordenates.
Context {Coord : Type}.

(** [get_zip_code lat lon] is an external lookup that may raise.  The
    outcome of the attempt number [retry_i] made for row [i] is
    [get_zip_code i retry_i lat lon]; [None] stands for a raised
    exception, which the [try]/[except] of the loop swallows. *)
Variable get_zip_code : nat -> Z -> Coord -> Coord -> option zip_code.

(** [for retry_i in range(retries)]: the list of values [retry_i] takes. *)
Definition range (retries : Z) : list Z :=
  map Z.of_nat (seq 0 (Z.to_nat retries)).

(** The inner loop for row [i].  The state is the Python local [retry_i]
    ([None] while it is still unbound) and [zip_dict].  A successful
    lookup stores the result and leaves the loop with [break]. *)
Fixpoint retry_loop (i : nat) (lat lon : Coord) (attempts : list Z)
    (retry_i : option Z) (zip_dict : gmap nat zip_code)
    : option Z * gmap nat zip_code :=
  match attempts with
  | [] => (retry_i, zip_dict)
  | k :: attempts' =>
      match get_zip_code i k lat lon with
      | Some z => (Some k, <[i := z]> zip_dict)
      | None => retry_loop i lat lon attempts' (Some k) zip_dict
      end
  end.

(** The outer loop over [enumerate(df_stations.values)].  After the inner
    loop the code tests [(retry_i - 1) == retries]; reading [retry_i]
    while it is unbound raises [UnboundLocalError]. *)
Fixpoint station_loop (retries : Z) (rows : list (nat * (Coord * Coord)))
    (retry_i : option Z) (zip_dict : gmap nat zip_code)
    : result (gmap nat zip_code) :=
  match rows with
  | [] => Ok zip_dict
  | (i, (lat, lon)) :: rows' =>
      let '(retry_i', zip_dict') :=
        retry_loop i lat lon (range retries) retry_i zip_dict in
      match retry_i' with
      | None => Raise UnboundLocalError
      | Some k =>
          if k - 1 =? retries then Raise (RecursionError i)
          else station_loop retries rows' retry_i' zip_dict'
      end
  end.

Definition enumerate {A} (l : list A) : list (nat * A) :=
  combine (seq 0 (length l)) l.

Definition get_zip_code_by_coordenates
    (df_stations : list (Coord * Coord)) (retries : Z)
    : result (gmap nat zip_code) :=
  station_loop retries (enumerate df_stations) None ∅.

(** [retries:int=5] *)
Definition default_retries : Z := 5.
End get_zip_code_by_coordenates.

End Acquisition.

(** * data_cleaning_homogenization.py: data-frame operations *)

(** The pandas operations the cleaning stage is written with, on one column
    (a list of cells) or on a list of rows. *)
Module Frame.

Section column.
Context {A : Type} `{EqDecision A}.

(** [DataFrame.drop_duplicates()] with the default [keep='first']: the first
    occurrence of every row stays, in its position. *)
Definition drop_duplicates (l : list A) : list A :=
  reverse (remove_dups (reverse l)).

(** [Series.isin(values)]. *)
Definition isin (x : A) (values : list A) : bool := bool_decide (x ∈ values).

(** How often [x] occurs in [l] ([Series.value_counts()[x]]). *)
Definition value_count (x : A) (l : list A) : nat :=
  length (filter (x =.) l).

(** [dropna] on one column. *)
Definition dropna (series : list (option A)) : list A := omap id series.

(** The [first] aggregation of a group: its first cell that is not null. *)
Definition first (series : list (option A)) : option A := head (dropna series).

Variable le : relation A.
Context `{!RelDecision le}.

(** The keys [groupby] iterates over: the distinct non-null keys, sorted. *)
Definition group_keys (keys : list (option A)) : list A :=
  merge_sort le (drop_duplicates (dropna keys)).

(** [Series.mode()]: the values that occur most often, sorted ascending.
    Null cells are not counted. *)
Definition mode (series : list (option A)) : list A :=
  let values := dropna series in
  let distinct := drop_duplicates values in
  let top := max_list (map (fun x => value_count x values) distinct) in
  merge_sort le (filter (fun x => value_count x values = top) distinct).

(** [safe_mode]: [np.nan] when the mode is empty, [mode_result.iloc[0]]
    otherwise. *)
Definition safe_mode (series : list (option A)) : option A :=
  match mode series with
  | [] => None
  | x :: _ => Some x
  end.
End column.

Section sort_values.
Context {A : Type} (le : relation A) `{!RelDecision le}.

(** [sort_values] on several columns is a stable sort: rows come out in
    ascending order of their keys, and rows with equal keys in the order
    they had.  [insert_row] puts a row before the first row that is not
    below it. *)
Fixpoint insert_row (x : A) (l : list A) : list A :=
  match l with
  | [] => [x]
  | y :: l' => if decide (le x y) then x :: y :: l' else y :: insert_row x l'
  end.

Definition sort_values (l : list A) : list A := foldr insert_row [] l.
End sort_values.

(** The group of key [k]: the rows whose key is [k], in frame order. *)
Definition group {R K : Type} `{EqDecision K}
    (key : R -> option K) (k : K) (rows : list R) : list R :=
  filter (fun r => key r = Some k) rows.

(** [Series.str.count(r'\d')] on an ASCII string. *)
Definition is_digit (c : ascii) : bool :=
  (48 <=? nat_of_ascii c)%nat && (nat_of_ascii c <=? 57)%nat.

Fixpoint count_digits (s : string) : nat :=
  match s with
  | EmptyString => 0%nat
  | String c s' => ((if is_digit c then 1 else 0) + count_digits s')%nat
  end.

(** The order of Python strings (by code point), as a relation. *)
Definition string_le (s1 s2 : string) : Prop := String.leb s1 s2 = true.

#[export] Instance string_le_dec : RelDecision string_le.
Proof. intros s1 s2. unfold string_le. apply _. Defined.

(** [Series.astype(str)] on a column of identifiers: a null cell becomes the
    three-letter string [nan]. *)
Definition astype_str (x : option string) : string := default "nan"%string x.

(** [random.seed(seed)] followed by [n] calls of [random.getrandbits(128)],
    each wrapped in [uuid.UUID(int=...)].  The generator is the Mersenne
    Twister of the Python runtime, taken as the function [getrandbits] from
    a seed and a draw number to the 128-bit integer drawn; identifiers are
    kept as these integers. *)
Definition uuids (getrandbits : Z -> nat -> Z) (seed : Z) (n : nat) : list Z :=
  map (getrandbits seed) (seq 0 n).

End Frame.

(** * data_cleaning_homogenization.py: homogenization *)

Module Raw.

(** One row of a homogenized trip table ([df_metro] or [df_capital]), after
    the renaming to the common column names.  Station identifiers are
    integers, bike identifiers and categories are strings; the two time
    columns hold the instant their text parses to, in nanoseconds. *)
Record trip := {
  trip_id : option string;
  duration : option Qc;
  start_time : option Z;
  end_time : option Z;
  start_station_id : option Z;
  start_lat : option Qc;
  start_lon : option Qc;
  start_station_name : option string;
  end_station_id : option Z;
  end_lat : option Qc;
  end_lon : option Qc;
  end_station_name : option string;
  bike_id : option string;
  bike_type : option string;
  member_type : option string;
  plan_duration : option Qc;
  trip_route_category : option string
}.

#[export] Instance trip_eq_dec : EqDecision trip.
Proof. solve_decision. Defined.

Definition set_bike_id (v : option string) (t : trip) : trip :=
  {| trip_id := trip_id t; duration := duration t;
     start_time := start_time t; end_time := end_time t;
     start_station_id := start_station_id t;
     start_lat := start_lat t; start_lon := start_lon t;
     start_station_name := start_station_name t;
     end_station_id := end_station_id t;
     end_lat := end_lat t; end_lon := end_lon t;
     end_station_name := end_station_name t;
     bike_id := v; bike_type := bike_type t;
     member_type := member_type t; plan_duration := plan_duration t;
     trip_route_category := trip_route_category t |}.

(** [df.loc[df["bike_id"].isna() & (df["bike_type"] == kind), "bike_id"] = v] *)
Definition fill_bike_id_row (kind v : string) (t : trip) : trip :=
  if bool_decide (bike_id t = None) && bool_decide (bike_type t = Some kind)
  then set_bike_id (Some v) t else t.

Definition fill_bike_id (kind v : string) (df : list trip) : list trip :=
  map (fill_bike_id_row kind v) df.

(** The last step of [homogenize_capital_dataset]: "add bike IDs for missing
    bike IDs", applied to the consolidated Capital table. *)
Definition add_missing_bike_ids (df_capital : list trip) : list trip :=
  let df := fill_bike_id "classic_bike" "0000_classic" df_capital in
  let df := fill_bike_id "electric_bike" "0000_electric" df in
  fill_bike_id "docked_bike" "0000_docked" df.

End Raw.

(** * data_cleaning_homogenization.py: bikes *)

Module Bikes.
Import Frame.

Record bike := {
  bike_uuid : Z;
  original_bike_id : string;
  bike_type : option string
}.

#[export] Instance bike_eq_dec : EqDecision bike.
Proof. solve_decision. Defined.

(** [df[["bike_id", "bike_type"]].drop_duplicates()], the conversion of
    [bike_id] to text, and [groupby(by=["bike_id"]).agg(safe_mode)] followed
    by [reset_index()]: one row per bike identifier, in sorted order, with
    the mode of the bike types seen with it. *)
Definition bike_groups (df : list Raw.trip) : list (string * option string) :=
  let df_bikes := drop_duplicates (map (fun t => (Raw.bike_id t, Raw.bike_type t)) df) in
  let df_bikes := map (fun r => (astype_str r.1, r.2)) df_bikes in
  map (fun k => (k, safe_mode string_le (map snd (group (fun r => Some r.1) k df_bikes))))
      (group_keys string_le (map (fun r => Some r.1) df_bikes)).

(** "remove the IDs that looks as testing IDs" *)
Definition valid_ids (df_bikes : list (string * option string))
    : list (string * option string) :=
  filter (fun r => (4 <= count_digits r.1)%nat) df_bikes.

(** [df_bikes.insert(0, 'bike_uuid', uuids)] *)
Definition insert_uuids (uuids : list Z) (df_bikes : list (string * option string))
    : list bike :=
  zip_with (fun u r => {| bike_uuid := u; original_bike_id := r.1; bike_type := r.2 |})
           uuids df_bikes.

(** [df.loc[df["bike_type"] == old, "bike_type"] = new] *)
Definition replace_type (old new : string) (df : list (string * option string))
    : list (string * option string) :=
  map (fun r => if bool_decide (r.2 = Some old) then (r.1, Some new) else r) df.

(** [df.loc[df["bike_type"].isna(), "bike_type"] = "classic_bike"] *)
Definition fill_type (new : string) (df : list (string * option string))
    : list (string * option string) :=
  map (fun r => if bool_decide (r.2 = None) then (r.1, Some new) else r) df.

Section registry.
Variable getrandbits : Z -> nat -> Z.

Definition generate_metro_bikes_dataframe (df_metro : list Raw.trip) : list bike :=
  let df_bikes := valid_ids (bike_groups df_metro) in
  insert_uuids (uuids getrandbits 2 (length df_bikes)) df_bikes.

Definition generate_capital_bikes_dataframe (df_capital : list Raw.trip) : list bike :=
  let df_bikes := valid_ids (bike_groups df_capital) in
  let df_bikes := fill_type "classic_bike" df_bikes in
  let df_bikes := replace_type "classic_bike" "standard" df_bikes in
  let df_bikes := replace_type "docked_bike" "standard" df_bikes in
  let df_bikes := replace_type "electric_bike" "electric" df_bikes in
  insert_uuids (uuids getrandbits 3 (length df_bikes)) df_bikes.

(** [generate_bikes_dataframe]: the two registries, one after the other. *)
Definition generate_bikes_dataframe (df_metro df_capital : list Raw.trip) : list bike :=
  generate_metro_bikes_dataframe df_metro ++ generate_capital_bikes_dataframe df_capital.
End registry.

End Bikes.

(** * data_cleaning_homogenization.py: stations *)

Module Stations.
Import Py Frame.
Local Open Scope Qc_scope.

(** A station as one trip end names it: the columns [station_id], [lat],
    [lon], [station_name] once the [start_] or [end_] prefix is removed. *)
Record mention := {
  station_id : option Z;
  lat : option Qc;
  lon : option Qc;
  station_name : option string
}.

#[export] Instance mention_eq_dec : EqDecision mention.
Proof. solve_decision. Defined.

Definition start_mention (t : Raw.trip) : mention :=
  {| station_id := Raw.start_station_id t; lat := Raw.start_lat t;
     lon := Raw.start_lon t; station_name := Raw.start_station_name t |}.

Definition end_mention (t : Raw.trip) : mention :=
  {| station_id := Raw.end_station_id t; lat := Raw.end_lat t;
     lon := Raw.end_lon t; station_name := Raw.end_station_name t |}.

(** The order [sort_values(by=["station_id"])] puts rows in: by identifier,
    rows without one last. *)
Definition station_id_le (a b : mention) : Prop :=
  match station_id a, station_id b with
  | Some x, Some y => (x <= y)%Z
  | _, None => True
  | None, Some _ => False
  end.

#[export] Instance station_id_le_dec : RelDecision station_id_le.
Proof.
  intros a b. unfold station_id_le.
  destruct (station_id a), (station_id b); apply _.
Defined.

(** [groupby(by=["station_id"]).agg(lat=('lat', safe_mode),
    lon=('lon', safe_mode), station_name=('station_name', 'first'))]
    and [reset_index()]. *)
Definition aggregate (df : list mention) : list mention :=
  map (fun k =>
         let g := group station_id k df in
         {| station_id := Some k;
            lat := safe_mode Qcle (map lat g);
            lon := safe_mode Qcle (map lon g);
            station_name := first (map station_name g) |})
      (group_keys Z.le (map station_id df)).

(** [sort_values(by=["station_id"])] is the default quicksort of pandas,
    which fixes no order among the rows of one station; the model takes the
    order of [merge_sort].  Of the aggregates only [station_name], the first
    name of the group, depends on that order. *)
Definition get_metro_unique_stations (df_stations_terminal : list mention)
    : list mention :=
  let df := drop_duplicates df_stations_terminal in
  let df := merge_sort station_id_le df in
  aggregate df.

(** [np.sign] *)
Definition sign (x : Qc) : Qc :=
  if decide (x < 0) then -1 else if decide (0 < x) then 1 else 0.

(** One coordinate column of [rectify_coordinates]: a value whose magnitude
    is within [tolerance] of the city's and whose sign differs is negated.
    A null cell fails the comparison and stays. *)
Definition rectify (city tolerance : Qc) (x : option Qc) : option Qc :=
  match x with
  | None => None
  | Some v =>
      let inside_tolerance := bool_decide (Qcabs (Qcabs v - Qcabs city) <= tolerance) in
      let different_sign := bool_decide (sign v <> sign city) in
      if inside_tolerance && different_sign then Some (v * -1) else Some v
  end.

Definition rectify_coordinates (df_stations : list mention)
    (city_latitude city_longitude tolerance : Qc) : list mention :=
  map (fun m => {| station_id := station_id m;
                   lat := rectify city_latitude tolerance (lat m);
                   lon := rectify city_longitude tolerance (lon m);
                   station_name := station_name m |}) df_stations.

(** A row of the station registry. *)
Record station := {
  station_uuid : Z;
  original_station_id : option Z;
  latitude : option Qc;
  longitude : option Qc;
  name : option string;
  zip_code : option string;
  city : string
}.

#[export] Instance station_eq_dec : EqDecision station.
Proof. solve_decision. Defined.

(** [df_stations["zip_code"] = zip_dict]: row [i] receives the entry of key
    [i]; a missing entry and the NaN of [get_zip_code] both leave a null. *)
Definition zip_cell (zip_dict : gmap nat Acquisition.zip_code) (i : nat)
    : option string :=
  match zip_dict !! i with
  | Some (Acquisition.Zip z) => Some z
  | _ => None
  end.

Section registry.
Variable get_zip_code : nat -> Z -> option Qc -> option Qc -> option Acquisition.zip_code.
Variable getrandbits : Z -> nat -> Z.

(** The rows of the Metro station table before the ZIP codes are looked
    up: both trip ends resolved on their own, then joined and resolved
    again, then the sign correction around Los Angeles. *)
Definition metro_station_rows (df_metro : list Raw.trip) : list mention :=
  let df_stations :=
    drop_duplicates (map (fun t => (start_mention t, end_mention t)) df_metro) in
  let df_stations_start := get_metro_unique_stations (map fst df_stations) in
  let df_stations_end := get_metro_unique_stations (map snd df_stations) in
  let df_stations := df_stations_start ++ df_stations_end in
  let df_stations := drop_duplicates df_stations in
  let df_stations :=
    filter (fun m => is_Some (lat m) /\ is_Some (lon m)) df_stations in
  let df_stations := aggregate df_stations in
  rectify_coordinates df_stations
    (Q2Qc (34059753 # 1000000)) (Q2Qc (- (1182375 # 10000))) (Q2Qc 3).

Definition generate_metro_stations_dataframe (df_metro : list Raw.trip)
    : result (list station) :=
  let df_stations := metro_station_rows df_metro in
  bind (Acquisition.get_zip_code_by_coordenates get_zip_code
          (map (fun m => (lat m, lon m)) df_stations)
          Acquisition.default_retries)
    (fun zip_dict =>
       let uuids := uuids getrandbits 0 (length df_stations) in
       Ok (zip_with
             (fun u im =>
                {| station_uuid := u;
                   original_station_id := station_id im.2;
                   latitude := lat im.2;
                   longitude := lon im.2;
                   name := station_name im.2;
                   zip_code := zip_cell zip_dict im.1;
                   city := "Los Angeles" |})
             uuids (Acquisition.enumerate df_stations))).
(** [groupby(by=["lat", "lon"])] visits its keys in this order. *)
Definition coordinates_le (a b : Qc * Qc) : Prop :=
  a.1 < b.1 \/ (a.1 = b.1 /\ a.2 <= b.2).

#[export] Instance coordinates_le_dec : RelDecision coordinates_le.
Proof. intros a b. unfold coordinates_le. apply _. Defined.

Definition coordinates (m : mention) : option (Qc * Qc) :=
  la ← lat m; lo ← lon m; Some (la, lo).

(** [groupby(by=["lat", "lon"]).first()] and [reset_index()]: one row per
    pair of coordinates, with the first identifier and the first name
    that are not null among the rows at these coordinates, in row order. *)
Definition first_by_coordinates (df : list mention) : list mention :=
  map (fun c =>
         let g := group coordinates c df in
         {| station_id := first (map station_id g);
            lat := Some c.1; lon := Some c.2;
            station_name := first (map station_name g) |})
      (group_keys coordinates_le (map coordinates df)).

(** [astype(str)] on a float cell, given the text of a float. *)
Definition float_cell_str (float_str : Qc -> string) (x : option Qc) : string :=
  match x with
  | Some v => float_str v
  | None => "nan"
  end.

Section capital.
(** The text [astype(str)] gives for a float. *)
Variable float_str : Qc -> string.

(** [get_capital_unique_stations]: rows whose coordinates print with more
    than six digits, one station identifier per pair of coordinates, then
    the aggregation by identifier.  [astype(int)] raises on a null
    identifier. *)
Definition get_capital_unique_stations (df_stations_terminal : list mention)
    : result (list mention) :=
  let df :=
    filter (fun m => (6 < count_digits (float_cell_str float_str (lat m)))%nat
                     /\ (6 < count_digits (float_cell_str float_str (lon m)))%nat)
           df_stations_terminal in
  let df := first_by_coordinates df in
  if forallb (fun m => bool_decide (is_Some (station_id m))) df
  then Ok (aggregate df) else Raise ValueError.

Definition capital_station_rows (df_capital : list Raw.trip)
    : result (list mention) :=
  let df_stations :=
    drop_duplicates (map (fun t => (start_mention t, end_mention t)) df_capital) in
  bind (get_capital_unique_stations (map fst df_stations))
    (fun df_stations_start =>
  bind (get_capital_unique_stations (map snd df_stations))
    (fun df_stations_end =>
       let df_stations := df_stations_start ++ df_stations_end in
       let df_stations := drop_duplicates df_stations in
       let df_stations :=
         filter (fun m => is_Some (lat m) /\ is_Some (lon m)) df_stations in
       let df_stations := aggregate df_stations in
       Ok (rectify_coordinates df_stations
             (Q2Qc (38910366 # 1000000)) (Q2Qc (- (7707251 # 100000))) (Q2Qc 3)))).

Definition generate_capital_stations_dataframe (df_capital : list Raw.trip)
    : result (list station) :=
  bind (capital_station_rows df_capital)
    (fun df_stations =>
  bind (Acquisition.get_zip_code_by_coordenates get_zip_code
          (map (fun m => (lat m, lon m)) df_stations)
          Acquisition.default_retries)
    (fun zip_dict =>
       let uuids := uuids getrandbits 1 (length df_stations) in
       Ok (zip_with
             (fun u im =>
                {| station_uuid := u;
                   original_station_id := station_id im.2;
                   latitude := lat im.2;
                   longitude := lon im.2;
                   name := station_name im.2;
                   zip_code := zip_cell zip_dict im.1;
                   city := "Washington D.C." |})
             uuids (Acquisition.enumerate df_stations)))).

(** [generate_stations_dataframe]: the two registries, one after the other. *)
Definition generate_stations_dataframe (df_metro df_capital : list Raw.trip)
    : result (list station) :=
  bind (generate_metro_stations_dataframe df_metro)
    (fun df_stations_metro =>
  bind (generate_capital_stations_dataframe df_capital)
    (fun df_stations_capital => Ok (df_stations_metro ++ df_stations_capital))).
End capital.
End registry.

End Stations.

(** * Timestamps *)

(** The fields pandas reads off a datetime64[ns] value, for an instant given
    as nanoseconds since 1970-01-01T00:00:00 (proleptic Gregorian calendar,
    no time zone). *)
Module Calendar.

Definition ns_per_second : Z := 1000000000.
Definition ns_per_hour : Z := 3600 * ns_per_second.
Definition ns_per_day : Z := 24 * ns_per_hour.

(** Days since the epoch, rounding toward minus infinity. *)
Definition days (t : Z) : Z := t / ns_per_day.

(** A day count is located in its 400-year era ([doe], the day of the era),
    then in its year counted from 1 March ([yoe], [doy]). *)
Definition year_of_era (doe : Z) : Z :=
  (doe - doe / 1460 + doe / 36524 - doe / 146096) / 365.

Definition day_of_year (doe : Z) : Z :=
  let yoe := year_of_era doe in
  doe - (365 * yoe + yoe / 4 - yoe / 100).

(** Year, month and day of the month of a day count. *)
Definition civil_from_days (d : Z) : Z * Z * Z :=
  let z := d + 719468 in
  let era := z / 146097 in
  let doe := z - era * 146097 in
  let yoe := year_of_era doe in
  let doy := day_of_year doe in
  let mp := (5 * doy + 2) / 153 in
  let day := doy - (153 * mp + 2) / 5 + 1 in
  let m := if mp <? 10 then mp + 3 else mp - 9 in
  let y := yoe + era * 400 + (if m <=? 2 then 1 else 0) in
  (y, m, day).

(** [Series.dt.year], [.dt.month], [.dt.hour], [.dt.dayofweek] (Monday is
    0; the epoch was a Thursday). *)
Definition year (t : Z) : Z := (civil_from_days (days t)).1.1.
Definition month (t : Z) : Z := (civil_from_days (days t)).1.2.
Definition hour (t : Z) : Z := (t mod ns_per_day) / ns_per_hour.
Definition dayofweek (t : Z) : Z := (days t + 3) mod 7.

(** Writing an instant with [strftime('%Y-%m-%dT%H:%M:%S.%f')] and parsing
    the text again: the digits below the microsecond are not written. *)
Definition strftime_us (t : Z) : Z := t / 1000 * 1000.

(** [f] holds of the [fuel] integers from [z] on. *)
Fixpoint all_from (fuel : nat) (z : Z) (f : Z -> bool) : bool :=
  match fuel with
  | O => true
  | S fuel' => f z && all_from fuel' (z + 1) f
  end.

(** The day of the year is one of 366 days. *)
Definition day_of_year_ok (doe : Z) : bool :=
  (0 <=? day_of_year doe) && (day_of_year doe <=? 365).

End Calendar.

(** * data_cleaning_homogenization.py: trips *)

Module Trips.
Import Py Frame.
Local Open Scope Qc_scope.

(** A row of [df_trips_metro] or [df_trips_capital]: the columns of
    [trip_columns].  The Capital table has no [plan_duration] and no
    [trip_route_category]; they are null once the two tables are joined. *)
Record trip := {
  trip_id : option string;
  start_time : option Z;
  end_time : option Z;
  start_station_id : option Z;
  end_station_id : option Z;
  bike_id : string;
  member_type : option string;
  duration : option Qc;
  plan_duration : option Qc;
  trip_route_category : option string
}.

#[export] Instance trip_eq_dec : EqDecision trip.
Proof. solve_decision. Defined.

(** "only trackable trips": both stations and the bike are in the
    registries.  [bike_id] is compared after [astype(str)]. *)
Definition trackable (df_stations : list Stations.station)
    (df_bikes : list Bikes.bike) (t : Raw.trip) : bool :=
  let valid_start_stations_mask :=
    isin (Raw.start_station_id t) (map Stations.original_station_id df_stations) in
  let valid_end_stations_mask :=
    isin (Raw.end_station_id t) (map Stations.original_station_id df_stations) in
  let valid_bikes_mask :=
    isin (astype_str (Raw.bike_id t)) (map Bikes.original_bike_id df_bikes) in
  valid_start_stations_mask && valid_end_stations_mask && valid_bikes_mask.

Definition metro_columns (t : Raw.trip) : trip :=
  {| trip_id := Raw.trip_id t;
     start_time := Raw.start_time t; end_time := Raw.end_time t;
     start_station_id := Raw.start_station_id t;
     end_station_id := Raw.end_station_id t;
     bike_id := astype_str (Raw.bike_id t);
     member_type := Raw.member_type t;
     duration := Raw.duration t;
     plan_duration := Raw.plan_duration t;
     trip_route_category := Raw.trip_route_category t |}.

Definition capital_columns (t : Raw.trip) : trip :=
  {| trip_id := Raw.trip_id t;
     start_time := Raw.start_time t; end_time := Raw.end_time t;
     start_station_id := Raw.start_station_id t;
     end_station_id := Raw.end_station_id t;
     bike_id := astype_str (Raw.bike_id t);
     member_type := Raw.member_type t;
     duration := Raw.duration t;
     plan_duration := None;
     trip_route_category := None |}.

(** "change duration to seconds" *)
Definition minutes_to_seconds (t : trip) : trip :=
  {| trip_id := trip_id t;
     start_time := start_time t; end_time := end_time t;
     start_station_id := start_station_id t;
     end_station_id := end_station_id t;
     bike_id := bike_id t;
     member_type := member_type t;
     duration := (fun d => d * Q2Qc 60) <$> duration t;
     plan_duration := (fun d => d * Q2Qc 60) <$> plan_duration t;
     trip_route_category := trip_route_category t |}.

(** [df["start_time"] < df["end_time"]]: false as soon as one side is NaT. *)
Definition start_quality_condition (start_time end_time : option Z) : bool :=
  match start_time, end_time with
  | Some s, Some e => (s <? e)%Z
  | _, _ => false
  end.

Definition generate_metro_trips_dataframe (df_metro : list Raw.trip)
    (df_stations_metro : list Stations.station)
    (df_bikes_metro : list Bikes.bike) : list trip :=
  let df := filter (fun t => trackable df_stations_metro df_bikes_metro t) df_metro in
  let df_trips_metro := drop_duplicates (map metro_columns df) in
  let df_trips_metro := map minutes_to_seconds df_trips_metro in
  filter (fun t => start_quality_condition (start_time t) (end_time t)) df_trips_metro.

(** [astype(int)] on the two station columns raises on a null cell. *)
Definition astype_int (df : list trip) : result (list trip) :=
  if forallb (fun t => bool_decide (is_Some (start_station_id t))
                       && bool_decide (is_Some (end_station_id t))) df
  then Ok df else Raise ValueError.

Definition generate_capital_trips_dataframe (df_capital : list Raw.trip)
    (df_stations_capital : list Stations.station)
    (df_bikes_capital : list Bikes.bike) : result (list trip) :=
  let df := filter (fun t => trackable df_stations_capital df_bikes_capital t) df_capital in
  let df_trips_capital := drop_duplicates (map capital_columns df) in
  let df_trips_capital :=
    filter (fun t => start_quality_condition (start_time t) (end_time t)) df_trips_capital in
  astype_int df_trips_capital.

(** "change to only member and casual" *)
Definition replace_member_type (old new : string) (t : trip) : trip :=
  if bool_decide (member_type t = Some old) then
    {| trip_id := trip_id t;
       start_time := start_time t; end_time := end_time t;
       start_station_id := start_station_id t;
       end_station_id := end_station_id t;
       bike_id := bike_id t;
       member_type := Some new;
       duration := duration t;
       plan_duration := plan_duration t;
       trip_route_category := trip_route_category t |}
  else t.

Definition homogenize_member_type (t : trip) : trip :=
  let t := replace_member_type "Member" "member" t in
  let t := replace_member_type "Flex Pass" "member" t in
  let t := replace_member_type "Annual Pass" "member" t in
  let t := replace_member_type "Monthly Pass" "member" t in
  let t := replace_member_type "One Day Pass" "member" t in
  let t := replace_member_type "Casual" "casual" t in
  let t := replace_member_type "Walk-up" "casual" t in
  replace_member_type "Testing" "casual" t.

(** The order of [sort_values(by=["start_time", "end_time"])], on rows
    paired with their identifier: by start, then by end, NaT last. *)
Definition time_le (a b : option Z) : Prop :=
  match a, b with
  | Some x, Some y => (x <= y)%Z
  | _, None => True
  | None, Some _ => False
  end.

Definition start_end_le (a b : Z * trip) : Prop :=
  time_le (start_time a.2) (start_time b.2)
  /\ (start_time a.2 = start_time b.2 -> time_le (end_time a.2) (end_time b.2)).

#[export] Instance time_le_dec : RelDecision time_le.
Proof. intros [a|] [b|]; unfold time_le; apply _. Defined.

#[export] Instance start_end_le_dec : RelDecision start_end_le.
Proof. intros a b. unfold start_end_le. apply _. Defined.

Section registry.
Variable getrandbits : Z -> nat -> Z.

(** [generate_trips_dataframe], with the four registries passed in: rows
    are pairs of the [trip_uuid] and the trip columns ([trip_id] is the
    column renamed to [original_trip_id]). *)
Definition generate_trips_dataframe (df_metro df_capital : list Raw.trip)
    (df_stations_metro : list Stations.station) (df_bikes_metro : list Bikes.bike)
    (df_stations_capital : list Stations.station) (df_bikes_capital : list Bikes.bike)
    : result (list (Z * trip)) :=
  let df_trips_metro :=
    generate_metro_trips_dataframe df_metro df_stations_metro df_bikes_metro in
  bind (generate_capital_trips_dataframe df_capital df_stations_capital df_bikes_capital)
    (fun df_trips_capital =>
       let df_trips := df_trips_metro ++ df_trips_capital in
       let df_trips := map homogenize_member_type df_trips in
       let uuids := uuids getrandbits 4 (length df_trips) in
       Ok (sort_values start_end_le (zip uuids df_trips))).
End registry.

(** A trip whose station and bike columns hold registry identifiers. *)
Record mapped := {
  trip_uuid : Z;
  original_trip_id : option string;
  m_start_time : option Z;
  m_end_time : option Z;
  m_member_type : option string;
  m_duration : option Qc;
  m_plan_duration : option Qc;
  m_trip_route_category : option string;
  start_station_uuid : option Z;
  end_station_uuid : option Z;
  bike_uuid : option Z
}.

(** [df.set_index(key)[value].to_dict()]: of two rows with one key the
    later one stays. *)
Definition to_dict {K V} `{Countable K} (rows : list (K * V)) : gmap K V :=
  list_to_map (reverse rows).

Definition map_trips_foreign_keys_to_uuids (df_trips : list (Z * trip))
    (df_stations : list Stations.station) (df_bikes : list Bikes.bike)
    : list mapped :=
  let station_map : gmap Z Z :=
    to_dict (omap (fun s => k ← Stations.original_station_id s;
                            Some (k, Stations.station_uuid s)) df_stations) in
  let bike_map : gmap string Z :=
    to_dict (map (fun b => (Bikes.original_bike_id b, Bikes.bike_uuid b)) df_bikes) in
  map (fun ut =>
         let t := ut.2 in
         {| trip_uuid := ut.1;
            original_trip_id := trip_id t;
            m_start_time := start_time t;
            m_end_time := end_time t;
            m_member_type := member_type t;
            m_duration := duration t;
            m_plan_duration := plan_duration t;
            m_trip_route_category := trip_route_category t;
            start_station_uuid := k ← start_station_id t; station_map !! k;
            end_station_uuid := k ← end_station_id t; station_map !! k;
            bike_uuid := bike_map !! bike_id t |}) df_trips.

(** A row of a curated monthly file [trips_{year}_{month:02d}.csv], as the
    feature stage reads it back: the two instants are those their
    microsecond text denotes. *)
Record curated := {
  c_trip_uuid : Z;
  c_start_time : Z;
  c_end_time : Z;
  c_member_type : option string;
  c_duration : option Qc;
  c_start_station_uuid : option Z;
  c_end_station_uuid : option Z;
  c_bike_uuid : option Z
}.

(** [dropna(subset=["start_time", "end_time"])] and the two [strftime]. *)
Definition to_curated (t : mapped) : option curated :=
  s ← m_start_time t; e ← m_end_time t;
  Some {| c_trip_uuid := trip_uuid t;
          c_start_time := Calendar.strftime_us s;
          c_end_time := Calendar.strftime_us e;
          c_member_type := m_member_type t;
          c_duration := m_duration t;
          c_start_station_uuid := start_station_uuid t;
          c_end_station_uuid := end_station_uuid t;
          c_bike_uuid := bike_uuid t |}.

(** The year and month a row is filed under: those of its start time
    before it is written. *)
Definition year_month (t : mapped) : option (Z * Z) :=
  s ← m_start_time t; Some (Calendar.year s, Calendar.month s).

(** The order [groupby([years, months])] visits its keys in. *)
Definition year_month_le (a b : Z * Z) : Prop :=
  (a.1 < b.1 \/ (a.1 = b.1 /\ a.2 <= b.2))%Z.

#[export] Instance year_month_le_dec : RelDecision year_month_le.
Proof. intros a b. unfold year_month_le. apply _. Defined.

(** The monthly files [main] writes: for every year and month with a trip,
    the rows that start in it. *)
Definition monthly_files (df_trips_mapped : list mapped)
    : list ((Z * Z) * list curated) :=
  let df_trips_valid :=
    filter (fun t => is_Some (m_start_time t) /\ is_Some (m_end_time t))
           df_trips_mapped in
  map (fun ym => (ym, omap to_curated (group year_month ym df_trips_valid)))
      (merge_sort year_month_le (drop_duplicates (omap year_month df_trips_valid))).

End Trips.

(** * data_cleaning_homogenization.py: demographics *)

Module Demographics.
Import Py Frame.
Local Open Scope Qc_scope.

(** A cell of the [zip_code] column: a number once [pd.to_numeric] has run
    on the census answer, the text of the station table for an area the
    census did not answer for. *)
Inductive zip :=
  | ZipNumber (n : Qc)
  | ZipText (s : string).

#[export] Instance zip_eq_dec : EqDecision zip.
Proof. solve_decision. Defined.

(** A row of the demographics table: the postal area and its indicators,
    in the order of [variables_dict]. *)
Record row := {
  zip_code : option zip;
  indicators : list (option Qc)
}.

(** [variables_dict] has 44 entries. *)
Definition n_variables : nat := 44.

(** The cell of indicator column [j]; null where the row has none. *)
Definition cell (r : row) (j : nat) : option Qc := mjoin (indicators r !! j).

Definition column (j : nat) (df : list row) : list (option Qc) :=
  map (fun r => cell r j) df.

(** The median of a sorted column without nulls: its middle value, or the
    mean of its two middle values; null when the column is empty. *)
Definition median_of_sorted (values : list Qc) : option Qc :=
  let n := length values in
  if Nat.even n then
    a ← values !! (n / 2 - 1)%nat; b ← values !! (n / 2)%nat;
    Some ((a + b) / Q2Qc 2)
  else values !! (n / 2)%nat.

(** [Series.median()]: null cells are skipped. *)
Definition median (series : list (option Qc)) : option Qc :=
  median_of_sorted (merge_sort Qcle (dropna series)).

(** [df_demographics.median().to_frame().T] with [zip_code] overwritten. *)
Definition median_row (zip_code : option zip) (df : list row) : row :=
  {| zip_code := zip_code;
     indicators := map (fun j => median (column j df)) (seq 0 n_variables) |}.

Section census.
(** [request_census_data]: the answer of the census service for one postal
    area, already numeric, or [None] for "no data". *)
Variable request_census_data : option string -> option row.

(** [df_demographics.median()] reduces every column of the table, [zip_code]
    included.  The indicator columns hold numbers and have a median.  The
    [zip_code] column holds the numbers of the census and, once a row is
    inserted for an area without answer, the text or the NaN of the station
    table: on such a column pandas either converts the cells to floats or
    raises [TypeError], depending on the cells and on the types the column
    went through.  [median_raises] is that behaviour of pandas, from the
    cells of the column in row order; the value itself is overwritten on the
    next line. *)
Variable median_raises : list (option zip) -> bool.

(** "insert mean values for zip codes with no information": one row per
    failed area, each computed on the table as it stands. *)
Fixpoint insert_failed (failed_zip_codes : list (option zip)) (df : list row)
    : result (list row) :=
  match failed_zip_codes with
  | [] => Ok df
  | z :: rest =>
      if median_raises (map zip_code df) then Raise TypeError
      else insert_failed rest (df ++ [median_row z df])
  end.

(** The query loop: answered areas in [df_demographics], the others in
    [failed_zip_codes], both in station order. *)
Fixpoint query (zip_codes : list (option string))
    : list row * list (option zip) :=
  match zip_codes with
  | [] => ([], [])
  | z :: rest =>
      let '(df, failed) := query rest in
      match request_census_data z with
      | None => (df, (ZipText <$> z) :: failed)
      | Some r => (r :: df, failed)
      end
  end.

(** The table [generate_demographics_dataframe] has built when it reaches
    "add unique identifier".  With no answered area the column selection
    [df_demographics[variable]] raises [KeyError]. *)
Definition demographics_before_imputation (station_zip_codes : list (option string))
    : result (list row) :=
  let zip_codes := drop_duplicates station_zip_codes in
  let '(df_demographics, failed_zip_codes) := query zip_codes in
  match df_demographics with
  | [] => Raise KeyError
  | _ => insert_failed failed_zip_codes df_demographics
  end.
End census.

(** A row once [zip_code_uuid] is inserted. *)
Record urow := {
  zip_code_uuid : Z;
  u_zip_code : option zip;
  u_indicators : list (option Qc)
}.

Definition ucell (r : urow) (j : nat) : option Qc := mjoin (u_indicators r !! j).

(** The number of indicator columns of a table. *)
Definition width (df : list urow) : nat :=
  max_list (map (fun r => length (u_indicators r)) df).

Definition is_negative (c : option Qc) : bool :=
  match c with
  | Some v => bool_decide (v < 0)
  | None => false
  end.

(** [df.columns[2:][(df.iloc[:, 2:] < 0).sum(axis=0) > 0]] *)
Definition hidden_values_columns (df : list urow) : list nat :=
  filter (fun j => existsb (fun r => is_negative (ucell r j)) df = true)
         (seq 0 (width df)).

(** [df.loc[df[column] < 0, column] = np.nan] *)
Definition hide_column (df : list urow) (j : nat) : list urow :=
  map (fun r =>
         {| zip_code_uuid := zip_code_uuid r;
            u_zip_code := u_zip_code r;
            u_indicators :=
              alter (fun c => if is_negative c then None else c) j (u_indicators r) |})
      df.

Definition hide_negative_values (df : list urow) : list urow :=
  fold_left hide_column (hidden_values_columns df) df.

(** [df.iloc[:, 2:].sum(axis=1)]: null cells are skipped. *)
Definition row_sum (r : urow) : Qc :=
  foldr Qcplus 0 (dropna (u_indicators r)).

(** "no persons living in these zip codes": [fillna(0)] on the rows whose
    indicators sum to zero; the null of a [zip_code] cell is filled too. *)
Definition fill_zero_rows (df : list urow) : list urow :=
  map (fun r =>
         if bool_decide (row_sum r = 0) then
           {| zip_code_uuid := zip_code_uuid r;
              u_zip_code := Some (default (ZipNumber 0) (u_zip_code r));
              u_indicators := map (fun c => Some (default 0 c)) (u_indicators r) |}
         else r) df.

(** The table handed to the imputer. *)
Definition prepare (df : list urow) : list urow :=
  fill_zero_rows (hide_negative_values df).

Section imputer.
(** [IterativeImputer(estimator=BayesianRidge(), max_iter=100,
    random_state=19).fit_transform]: the estimator of scikit-learn, from
    the matrix of indicator cells to the completed matrix. *)
Variable fit_transform : list (list (option Qc)) -> list (list Qc).

(** [df.iloc[:, 2:] = ...] needs a matrix of the shape of the table. *)
Definition impute_hidden_values (df_demographics : list urow)
    : result (list urow) :=
  let df := prepare df_demographics in
  let X := map u_indicators df in
  let Xt := fit_transform X in
  if bool_decide (map length Xt = map length X) then
    Ok (zip_with (fun r xs =>
                    {| zip_code_uuid := zip_code_uuid r;
                       u_zip_code := u_zip_code r;
                       u_indicators := map Some xs |}) df Xt)
  else Raise ValueError.

Variable request_census_data : option string -> option row.
Variable median_raises : list (option zip) -> bool.
Variable getrandbits : Z -> nat -> Z.

Definition generate_demographics_dataframe (station_zip_codes : list (option string))
    : result (list urow) :=
  bind (demographics_before_imputation request_census_data median_raises
          station_zip_codes)
    (fun df =>
       let uuids := uuids getrandbits 5 (length df) in
       impute_hidden_values
         (zip_with (fun u r => {| zip_code_uuid := u;
                                  u_zip_code := zip_code r;
                                  u_indicators := indicators r |}) uuids df)).
End imputer.

End Demographics.

(** * feature_engineering.py: float64 arithmetic *)

(** The float64 columns of the feature stage: IEEE-754 binary64 values and
    the correctly rounded operations numpy applies to them. *)
Module Float64.

Definition float : Type := spec_float.

Definition prec : Z := 53.
Definition emax : Z := 1024.

Definition mul : float -> float -> float := SFmul prec emax.
Definition div : float -> float -> float := SFdiv prec emax.
Definition add : float -> float -> float := SFadd prec emax.
Definition sub : float -> float -> float := SFsub prec emax.
Definition sqrt : float -> float := SFsqrt prec emax.

(** Comparisons; each is false when a side is NaN. *)
Definition leb : float -> float -> bool := SFleb.
Definition ltb : float -> float -> bool := SFltb.
Definition eqb : float -> float -> bool := SFeqb.
Definition geb (x y : float) : bool := SFleb y x.

(** The float64 nearest to an integer. *)
Definition of_Z (n : Z) : float := binary_normalize prec emax n 0 false.

Definition nan : float := S754_nan.

End Float64.

(** * feature_engineering.py *)

Module Features.
Import Float64.

(** A row of a monthly trip file restricted to [trip_used_columns], with
    the two time columns as [pd.to_datetime] parses them (NaT is [None]). *)
Record trip := {
  trip_uuid : Z;
  start_time : option Z;
  end_time : option Z;
  member_type : option string;
  start_station_uuid : option Z;
  end_station_uuid : option Z;
  bike_uuid : option Z
}.

(** The columns of [stations.csv] the feature stage uses. *)
Record station := {
  station_uuid : Z;
  latitude : float;
  longitude : float
}.

(** A trip joined with the stations at both ends. *)
Record merged := {
  m_trip : trip;
  station_start : station;
  station_end : station
}.

(** [pd.merge(left, df_stations, left_on=key, right_on="station_uuid")]:
    an inner join, every left row with every station of that identifier. *)
Definition merge_stations {L R : Type} (key : L -> option Z)
    (pair : L -> station -> R) (left : list L) (df_stations : list station)
    : list R :=
  flat_map (fun l =>
              map (pair l)
                  (filter (fun s => key l = Some (station_uuid s)) df_stations))
           left.

Definition add_coordinates (df_trip_month : list trip) (df_stations : list station)
    : list merged :=
  let with_start :=
    merge_stations start_station_uuid (fun t s => (t, s)) df_trip_month df_stations in
  merge_stations (fun ts => end_station_uuid ts.1)
    (fun ts s => {| m_trip := ts.1; station_start := ts.2; station_end := s |})
    with_start df_stations.

(** [(end_time - start_time).dt.total_seconds()]: the difference in
    nanoseconds divided by the nanoseconds of a second, NaN for NaT. *)
Definition total_seconds (start_time end_time : option Z) : float :=
  match start_time, end_time with
  | Some s, Some e => div (of_Z (e - s)) (of_Z Calendar.ns_per_second)
  | _, _ => nan
  end.

Definition trip_duration_category (duration : float) : Z :=
  let c := 0 in
  let c := if geb duration (of_Z 300) && ltb duration (of_Z 600) then 1 else c in
  if geb duration (of_Z 600) then 2 else c.

Definition trip_distance_category (distance : float) : Z :=
  let c := 0 in
  let c := if geb distance (of_Z 2) && ltb distance (of_Z 4) then 1 else c in
  if geb distance (of_Z 4) then 2 else c.

(** "Create a dictionary to map month numbers to seasons" *)
Definition month_to_season : gmap Z string :=
  list_to_map
    [(1, "Winter"); (2, "Winter"); (3, "Spring"); (4, "Spring");
     (5, "Spring"); (6, "Summer"); (7, "Summer"); (8, "Summer");
     (9, "Autumn"); (10, "Autumn"); (11, "Autumn"); (12, "Winter")]%string.

Section haversine.
(** [np.radians], [np.sin], [np.cos] and [np.arcsin] on float64. *)
Variables (radians sin cos arcsin : float -> float).

(** [haversine_vectorized], on one row. *)
Definition haversine (r : merged) : float :=
  let R := of_Z 6371 in
  let lat_start_rad := radians (latitude (station_start r)) in
  let lon_start_rad := radians (longitude (station_start r)) in
  let lat_end_rad := radians (latitude (station_end r)) in
  let lon_end_rad := radians (longitude (station_end r)) in
  let dlat := sub lat_end_rad lat_start_rad in
  let dlon := sub lon_end_rad lon_start_rad in
  let sin_dlat := sin (div dlat (of_Z 2)) in
  let sin_dlon := sin (div dlon (of_Z 2)) in
  let a := add (mul sin_dlat sin_dlat)
               (mul (mul (cos lat_start_rad) (cos lat_end_rad))
                    (mul sin_dlon sin_dlon)) in
  let c := mul (of_Z 2) (arcsin (sqrt a)) in
  mul R c.

(** A row of the feature table. *)
Record feature := {
  f_row : merged;
  duration : float;
  duration_category : Z;
  hour_of_day : option Z;
  trip_hour_category : option Z;
  day_of_week : option Z;
  is_weekend : bool;
  month : option Z;
  season : option string;
  distance_km : float;
  average_speed_kmh : float;
  distance_category : Z
}.

(** The columns added to one joined row. *)
Definition add_features (r : merged) : feature :=
  let t := m_trip r in
  let duration := total_seconds (start_time t) (end_time t) in
  let hour_of_day := Calendar.hour <$> start_time t in
  let day_of_week := Calendar.dayofweek <$> start_time t in
  let month := Calendar.month <$> start_time t in
  let distance := haversine r in
  {| f_row := r;
     duration := duration;
     duration_category := trip_duration_category duration;
     hour_of_day := hour_of_day;
     trip_hour_category := (fun h => h / 4) <$> hour_of_day;
     day_of_week := day_of_week;
     is_weekend := match day_of_week with Some d => 5 <=? d | None => false end;
     month := month;
     season := m ← month; month_to_season !! m;
     distance_km := distance;
     average_speed_kmh := mul (div distance duration) (of_Z 3600);
     distance_category := trip_distance_category distance |}.

(** "bikes cannot go more than 50 km/h" *)
Definition speed_limit_condition (f : feature) : bool :=
  leb (average_speed_kmh f) (of_Z 50).

Definition generate_trips_feature_engineering (df_trip_month : list trip)
    (df_stations : list station) : list feature :=
  let df_trip_month_feat_eng :=
    map add_features (add_coordinates df_trip_month df_stations) in
  filter (fun f => speed_limit_condition f = true) df_trip_month_feat_eng.
End haversine.

(** [pd.read_csv] of a curated monthly file and the selection of
    [trip_used_columns]. *)
Definition read_trip (c : Trips.curated) : trip :=
  {| trip_uuid := Trips.c_trip_uuid c;
     start_time := Some (Trips.c_start_time c);
     end_time := Some (Trips.c_end_time c);
     member_type := Trips.c_member_type c;
     start_station_uuid := Trips.c_start_station_uuid c;
     end_station_uuid := Trips.c_end_station_uuid c;
     bike_uuid := Trips.c_bike_uuid c |}.

End Features.

(** * Sample collaborators *)

Module Samples.

(** A lookup service that is down: every call raises. *)
Definition lookup_down {Coord : Type}
    : nat -> Z -> Coord -> Coord -> option Acquisition.zip_code :=
  fun _ _ _ _ => None.

(** A lookup service that answers every call with the same ZIP code. *)
Definition lookup_90012 {Coord : Type}
    : nat -> Z -> Coord -> Coord -> option Acquisition.zip_code :=
  fun _ _ _ _ => Some (Acquisition.Zip "90012").

(** The text of a float whose value is a short decimal: sign, integer
    part, point, and the fewest fractional digits (at least one) that give
    the value exactly, as Python prints it. *)
Fixpoint decimal_places (fuel k : nat) (d : Z) : nat :=
  match fuel with
  | O => k
  | S fuel' => if 10 ^ Z.of_nat k mod d =? 0 then k else decimal_places fuel' (S k) d
  end.

Fixpoint zero_pad (k : nat) (s : string) : string :=
  match k with
  | O => s
  | S k' => if (String.length s <? k)%nat then zero_pad k' ("0" ++ s) else s
  end.

Definition decimal_str (q : Qc) : string :=
  let n := Qnum q in
  let d := Zpos (Qden q) in
  let k := decimal_places 17 1 d in
  let scaled := Z.abs n * 10 ^ Z.of_nat k / d in
  let sign : string := if n <? 0 then "-" else "" in
  let whole : string := pretty (scaled / 10 ^ Z.of_nat k) in
  let fraction : string := zero_pad k (pretty (scaled mod 10 ^ Z.of_nat k)) in
  (sign ++ whole ++ "." ++ fraction)%string.

(** A stand-in for the generator: the draws of a seed count up from it. *)
Definition counting_bits (seed : Z) (i : nat) : Z := seed * 1000 + Z.of_nat i.

End Samples.

(** * Vocabulary of the properties *)

Module Props.
Import Frame.

(** [x] is a value of [l] that no value of [l] occurs more often than. *)
Definition most_frequent {A} `{EqDecision A} (x : A) (l : list A) : Prop :=
  x ∈ l /\ forall y, (value_count y l <= value_count x l)%nat.

(** [x] is the least of the most frequent values of [l]. *)
Definition least_most_frequent {A} `{EqDecision A} (le : relation A)
    (x : A) (l : list A) : Prop :=
  most_frequent x l /\ forall y, most_frequent y l -> le x y.

End Props.

Module BikeProps.

(** The placeholder identifier of a Capital bike kind. *)
Definition placeholder_of (kind : string) : option string :=
  if bool_decide (kind = "classic_bike") then Some "0000_classic"
  else if bool_decide (kind = "electric_bike") then Some "0000_electric"
  else if bool_decide (kind = "docked_bike") then Some "0000_docked"
  else None.

(** The three assignments of [add_missing_bike_ids] at once: a row without
    identifier receives the placeholder of its kind, if its kind has one;
    every other row stays as it is. *)
Definition fill_row (t : Raw.trip) : Raw.trip :=
  match Raw.bike_id t, Raw.bike_type t with
  | None, Some kind =>
      match placeholder_of kind with
      | Some p => Raw.set_bike_id (Some p) t
      | None => t
      end
  | _, _ => t
  end.

(** The row carries one of the three placeholder identifiers. *)
Definition has_placeholder (t : Raw.trip) : Prop :=
  Raw.bike_id t ∈ [Some "0000_classic"; Some "0000_electric"; Some "0000_docked"].

(** A Capital row with neither a bike identifier nor a bike type. *)
Definition untyped_trip : Raw.trip :=
  {| Raw.trip_id := Some "A1"; Raw.duration := None;
     Raw.start_time := Some 0; Raw.end_time := Some 60000000000;
     Raw.start_station_id := Some 31000; Raw.start_lat := None;
     Raw.start_lon := None; Raw.start_station_name := None;
     Raw.end_station_id := Some 31001; Raw.end_lat := None;
     Raw.end_lon := None; Raw.end_station_name := None;
     Raw.bike_id := None; Raw.bike_type := None;
     Raw.member_type := Some "member"; Raw.plan_duration := None;
     Raw.trip_route_category := None |}.

(** The same ride on a classic bike. *)
Definition classic_trip : Raw.trip :=
  {| Raw.trip_id := Some "A2"; Raw.duration := None;
     Raw.start_time := Some 0; Raw.end_time := Some 60000000000;
     Raw.start_station_id := Some 31000; Raw.start_lat := None;
     Raw.start_lon := None; Raw.start_station_name := None;
     Raw.end_station_id := Some 31001; Raw.end_lat := None;
     Raw.end_lon := None; Raw.end_station_name := None;
     Raw.bike_id := None; Raw.bike_type := Some "classic_bike";
     Raw.member_type := Some "member"; Raw.plan_duration := None;
     Raw.trip_route_category := None |}.

End BikeProps.

Module StationProps.
Import Frame Stations.

(** What a resolved coordinate is with respect to the column it was
    resolved from: null for a column of nulls, otherwise the least of the
    most frequent values. *)
Definition resolved (x : option Qc) (series : list (option Qc)) : Prop :=
  match x with
  | None => dropna series = []
  | Some v => Props.least_most_frequent Qcle v (dropna series)
  end.

(** The columns of a station row that do not depend on row order. *)
Definition place (m : mention) : option Z * option Qc * option Qc :=
  (station_id m, lat m, lon m).

(** The natural and the surrogate identifier of a registry row. *)
Definition keys (s : station) : option Z * Z :=
  (original_station_id s, station_uuid s).

(** Station [id] seen at integer coordinates. *)
Definition seen (id la lo : Z) : mention :=
  {| station_id := Some id;
     lat := Some (Q2Qc (inject_Z la)); lon := Some (Q2Qc (inject_Z lo));
     station_name := Some "Main St"%string |}.

(** Coordinates (1,1) seen twice and (2,2) once, and the other way round. *)
Definition twice_11_once_22 : list mention := [seen 7 1 1; seen 7 1 1; seen 7 2 2].
Definition twice_22_once_11 : list mention := [seen 7 2 2; seen 7 2 2; seen 7 1 1].

(** A Metro trip of a quarter of an hour between two station mentions. *)
Definition ride (id : string) (a b : mention) : Raw.trip :=
  {| Raw.trip_id := Some id; Raw.duration := None;
     Raw.start_time := Some 0; Raw.end_time := Some 900000000000;
     Raw.start_station_id := station_id a; Raw.start_lat := lat a;
     Raw.start_lon := lon a; Raw.start_station_name := station_name a;
     Raw.end_station_id := station_id b; Raw.end_lat := lat b;
     Raw.end_lon := lon b; Raw.end_station_name := station_name b;
     Raw.bike_id := Some "12345"%string; Raw.bike_type := Some "standard"%string;
     Raw.member_type := Some "Walk-up"%string; Raw.plan_duration := None;
     Raw.trip_route_category := None |}.

(** Three rides out of station 7, two of them recorded at (2,2). *)
Definition rides_from_7 : list Raw.trip :=
  [ride "1" (seen 7 2 2) (seen 8 5 5);
   ride "2" (seen 7 2 2) (seen 9 6 6);
   ride "3" (seen 7 1 1) (seen 8 5 5)].

(** A Capital dock with its coordinates in decimal degrees. *)
Definition dock (id : Z) (c : Q * Q) : mention :=
  {| station_id := Some id;
     lat := Some (Q2Qc c.1); lon := Some (Q2Qc c.2);
     station_name := Some "Dock"%string |}.

Definition place_P : Q * Q := (38897274 # 1000000, - (7702298 # 100000))%Q.
Definition place_Q : Q * Q := (38912345 # 1000000, - (77031234 # 1000000))%Q.
Definition place_R : Q * Q := (38888888 # 1000000, - (77011111 # 1000000))%Q.

(** Three Capital rides to dock 9.  Two leave from dock 2, recorded at two
    places; one leaves from dock 1, recorded at the first of these places.
    The second table has the two rides of dock 2 in the other order. *)
Definition capital_rides : list Raw.trip :=
  [ride "1" (dock 2 place_P) (dock 9 place_R);
   ride "2" (dock 1 place_P) (dock 9 place_R);
   ride "3" (dock 2 place_Q) (dock 9 place_R)].

Definition capital_rides_swapped : list Raw.trip :=
  [ride "3" (dock 2 place_Q) (dock 9 place_R);
   ride "2" (dock 1 place_P) (dock 9 place_R);
   ride "1" (dock 2 place_P) (dock 9 place_R)].

End StationProps.

Module FeatureProps.
Import Float64 Features.

(** The season of a month in the words of the specification: December to
    February winter, March to May spring, June to August summer,
    September to November autumn. *)
Definition season_of_month (m : Z) : string :=
  if (m =? 12) || (m =? 1) || (m =? 2) then "Winter"
  else if (3 <=? m) && (m <=? 5) then "Spring"
  else if (6 <=? m) && (m <=? 8) then "Summer"
  else "Autumn".

(** [x] is not below zero: a NaN, a zero of either sign, or positive. *)
Definition not_negative (x : float) : Prop := ltb x (of_Z 0) = false.

(** Stand-ins for the four numpy functions, enough to run the feature
    stage on sample rows: every pair of stations is [6371 * 2 / 2048]
    kilometres apart (6.2216796875 km). *)
Definition flat_radians (x : float) : float := x.
Definition flat_sin (x : float) : float := x.
Definition flat_cos (_ : float) : float := of_Z 1.
Definition flat_arcsin (_ : float) : float := div (of_Z 1) (of_Z 2048).

Definition station_a : station :=
  {| station_uuid := 1; latitude := of_Z 34; longitude := of_Z (-118) |}.
Definition station_b : station :=
  {| station_uuid := 2; latitude := of_Z 35; longitude := of_Z (-118) |}.

(** 2020-12-15T00:00:00, in nanoseconds. *)
Definition mid_december : Z := 1607990400 * 1000000000.

Definition sample_trip (uuid : Z) (start_time end_time : option Z) : trip :=
  {| trip_uuid := uuid; start_time := start_time; end_time := end_time;
     member_type := Some "member"%string;
     start_station_uuid := Some 1; end_station_uuid := Some 2;
     bike_uuid := Some 7 |}.

(** Four trips from [station_a] to [station_b]: one that takes
    447.9609375 s, which is 50 km/h exactly; one a nanosecond shorter; one
    of a quarter of an hour; one without start time. *)
Definition trip_at_50 : trip :=
  sample_trip 10 (Some mid_december) (Some (mid_december + 447960937500)).
Definition trip_above_50 : trip :=
  sample_trip 11 (Some mid_december) (Some (mid_december + 447960937499)).
Definition trip_slow : trip :=
  sample_trip 12 (Some mid_december) (Some (mid_december + 900000000000)).
Definition trip_no_start : trip :=
  sample_trip 13 None (Some (mid_december + 900000000000)).

Definition sample_month : list trip :=
  [trip_at_50; trip_above_50; trip_slow; trip_no_start].

Definition sample_row (t : trip) : merged :=
  {| m_trip := t; station_start := station_a; station_end := station_b |}.

End FeatureProps.

Module TripProps.

(** Both instants are known and the first is strictly before the second. *)
Definition ordered (start_time end_time : option Z) : Prop :=
  exists s e, start_time = Some s /\ end_time = Some e /\ s < e.

(** Registries for the three rides of [StationProps.rides_from_7]. *)
Definition registered_station (uuid id : Z) : Stations.station :=
  {| Stations.station_uuid := uuid;
     Stations.original_station_id := Some id;
     Stations.latitude := None; Stations.longitude := None;
     Stations.name := None; Stations.zip_code := None;
     Stations.city := "Los Angeles" |}.

Definition sample_stations : list Stations.station :=
  [registered_station 101 7; registered_station 102 8; registered_station 103 9].

Definition sample_bikes : list Bikes.bike :=
  [{| Bikes.bike_uuid := 201; Bikes.original_bike_id := "12345";
      Bikes.bike_type := Some "standard"%string |}].

Definition located_station (uuid lat : Z) : Features.station :=
  {| Features.station_uuid := uuid;
     Features.latitude := Float64.of_Z lat;
     Features.longitude := Float64.of_Z (-118) |}.

Definition sample_located_stations : list Features.station :=
  [located_station 101 34; located_station 102 35; located_station 103 36].

End TripProps.

Module DemoProps.
Import Frame Demographics.
Local Open Scope Qc_scope.

(** The cell of row [i] and column [j] of a matrix, if there is one. *)
Definition at_ {A} (X : list (list A)) (i j : nat) : option A :=
  X !! i ≫= fun row => row !! j.

(** What the code relies on from the imputer, on the matrix [X] it is given:
    the answer [Xt] has the shape of [X], and the cells of [X] that are not
    missing are in [Xt] as they are. *)
Definition same_shape {A B} (X : list (list A)) (Xt : list (list B)) : Prop :=
  map length Xt = map length X.

Definition observed_kept (X : list (list (option Qc))) (Xt : list (list Qc)) : Prop :=
  forall i j v, at_ X i j = Some (Some v) -> at_ Xt i j = Some v.

(** The median, stated without sorting.  [x] has rank [k] among [values],
    counting from 0 in ascending order, when at most [k] of the values are
    below [x] and more than [k] are at most [x]. *)
Definition below (x : Qc) (values : list Qc) : nat :=
  length (filter (fun v => v < x) values).

Definition up_to (x : Qc) (values : list Qc) : nat :=
  length (filter (fun v => v <= x) values).

Definition has_rank (values : list Qc) (k : nat) (x : Qc) : Prop :=
  x ∈ values /\ (below x values <= k < up_to x values)%nat.

(** [m] is the median of [values]: the value in the middle, or halfway
    between the two values in the middle when their number is even. *)
Definition is_median (values : list Qc) (m : Qc) : Prop :=
  exists lo hi,
    has_rank values ((length values - 1) / 2) lo
    /\ has_rank values (length values / 2) hi
    /\ m = (lo + hi) / Q2Qc 2.


(** The rows the census answered with, for the distinct ZIP code cells of
    the station table in their order, and the cells it had no answer for. *)
Definition answered (request_census_data : option string -> option row)
    (station_zip_codes : list (option string)) : list row :=
  omap request_census_data (drop_duplicates station_zip_codes).

Definition unanswered (request_census_data : option string -> option row)
    (station_zip_codes : list (option string)) : list (option zip) :=
  map (fmap ZipText)
      (filter (fun z => request_census_data z = None)
              (drop_duplicates station_zip_codes)).

(** The [zip_code] columns the successive [median()] calls of the insertion
    loop reduce: the cells of the answered rows, followed by those of the
    areas inserted so far. *)
Definition zip_code_columns (answered : list row) (failed : list (option zip))
    : list (list (option zip)) :=
  map (fun k => map zip_code answered ++ take k failed) (seq 0 (length failed)).

(** The table once [zip_code_uuid] is inserted, and the matrix of its
    indicators that [impute_hidden_values] hands to the imputer. *)
Definition numbered (uuids : list Z) (df : list row) : list urow :=
  zip_with (fun u r => {| zip_code_uuid := u;
                          u_zip_code := zip_code r;
                          u_indicators := indicators r |}) uuids df.

Definition imputer_matrix (df : list urow) : list (list (option Qc)) :=
  map u_indicators (prepare df).

(** A stand-in for the behaviour of pandas on the [zip_code] column: a
    column of integers turns into a column of floats when a NaN is appended,
    and the median of a column of floats and text raises. *)
Fixpoint text_after_nan (seen_nan : bool) (column : list (option zip)) : bool :=
  match column with
  | [] => false
  | None :: rest => text_after_nan true rest
  | Some (ZipNumber _) :: rest => text_after_nan seen_nan rest
  | Some (ZipText _) :: _ => seen_nan
  end.

(** A negative cell turned into a missing cell, and a row with all its
    negative cells turned into missing cells. *)
Definition mask (c : option Qc) : option Qc := if is_negative c then None else c.

(** A cell the census published: a number that is not negative. *)
Definition observed (c : option Qc) : Prop :=
  match c with
  | Some v => 0 <= v
  | None => False
  end.

Definition without_negatives (r : urow) : urow :=
  {| zip_code_uuid := zip_code_uuid r;
     u_zip_code := u_zip_code r;
     u_indicators := map mask (u_indicators r) |}.

(** A stand-in estimator: every missing cell receives the value [predict]
    gives for its row and column, every other cell stays. *)
Definition fill_with (predict : list (list (option Qc)) -> list (option Qc) -> nat -> Qc)
    (X : list (list (option Qc))) : list (list Qc) :=
  map (fun row => imap (fun j c => default (predict X row j) c) row) X.

(** The least-squares line of the second column on the first, fitted on
    the rows that have both cells. *)
Definition complete_pairs (X : list (list (option Qc))) : list (Qc * Qc) :=
  omap (fun row => a ← mjoin (row !! 0%nat); b ← mjoin (row !! 1%nat); Some (a, b)) X.

Definition total (l : list Qc) : Qc := foldr Qcplus 0 l.

Definition least_squares (X : list (list (option Qc))) (row : list (option Qc))
    (j : nat) : Qc :=
  let pairs := complete_pairs X in
  let n := Q2Qc (inject_Z (Z.of_nat (length pairs))) in
  let mean_x := total (map fst pairs) / n in
  let mean_y := total (map snd pairs) / n in
  let sxx := total (map (fun p => (p.1 - mean_x) * (p.1 - mean_x)) pairs) in
  let sxy := total (map (fun p => (p.1 - mean_x) * (p.2 - mean_y)) pairs) in
  match j, mjoin (row !! 0%nat) with
  | 1%nat, Some x => mean_y + sxy / sxx * (x - mean_x)
  | _, _ => mean_y
  end.

Definition least_squares_imputer : list (list (option Qc)) -> list (list Qc) :=
  fill_with least_squares.

(** A table with two indicators. *)
Definition area (uuid : Z) (zip : Z) (a b : Z) : urow :=
  {| zip_code_uuid := uuid;
     u_zip_code := Some (ZipNumber (Q2Qc (inject_Z zip)));
     u_indicators := [Some (Q2Qc (inject_Z a)); Some (Q2Qc (inject_Z b))] |}.

(** Seven areas.  In six of them the second indicator is the first minus
    500; in the seventh the first is 100 and the second is suppressed
    (the census writes -666666666). *)
Definition suppressed_table : list urow :=
  [area 1 90001 500 0; area 2 90002 600 100; area 3 90003 700 200;
   area 4 90004 800 300; area 5 90005 900 400; area 6 90006 1000 500;
   area 7 90007 100 (-666666666)].

(** Three areas, one of them without residents and with a suppressed cell. *)
Definition empty_area_table : list urow :=
  [area 1 90001 500 20; area 2 90002 0 (-666666666); area 3 90003 700 40].

(** A census service that knows two areas; each has 44 indicators. *)
Definition sample_answer (zip : Z) (base : Z) : row :=
  {| zip_code := Some (ZipNumber (Q2Qc (inject_Z zip)));
     indicators := map (fun j => Some (Q2Qc (inject_Z (base + Z.of_nat j))))
                       (seq 0 n_variables) |}.

Definition sample_census (z : option string) : option row :=
  if bool_decide (z = Some "90012"%string) then Some (sample_answer 90012 100)
  else if bool_decide (z = Some "90013"%string) then Some (sample_answer 90013 300)
  else None.

Definition sample_zip_codes : list (option string) :=
  [Some "90012"; Some "90014"; Some "90013"; Some "90014"; None]%string.

End DemoProps.

(** * data_cleaning_homogenization.py: weather *)

(** The rewriting of the [date] column in [generate_weather_dataframe],
    "change to local time": the UTC offset that [tz_convert] made the
    acquisition stage write behind every timestamp is deleted from the
    text before the text is parsed. *)
Module Weather.
Import Frame.

(** The character class [[+-]]. *)
Definition is_sign (c : ascii) : bool := (c =? "+")%char || (c =? "-")%char.

(** Whether the pattern [[+-]\d{2}:\d{2}] matches at the start of [s], on
    ASCII text. *)
Definition offset_at (s : string) : bool :=
  match s with
  | String c0 (String c1 (String c2 (String c3 (String c4 (String c5 _))))) =>
      is_sign c0 && is_digit c1 && is_digit c2 && (c3 =? ":")%char
      && is_digit c4 && is_digit c5
  | _ => false
  end.

(** [Series.str.replace] with the pattern [[+-]\d{2}:\d{2}], the empty
    replacement and [regex=True], on one cell: the text is scanned from the
    left, a match is dropped and the scan goes on behind it, any other
    character is kept. *)
Fixpoint remove_utc_offset (s : string) : string :=
  match s with
  | EmptyString => EmptyString
  | String c0 s1 =>
      match s1 with
      | String c1 (String c2 (String c3 (String c4 (String c5 rest)))) =>
          if is_sign c0 && is_digit c1 && is_digit c2 && (c3 =? ":")%char
             && is_digit c4 && is_digit c5
          then remove_utc_offset rest
          else String c0 (remove_utc_offset s1)
      | _ => String c0 (remove_utc_offset s1)
      end
  end.

End Weather.

(** * Vocabulary of the further properties *)

Module AcquisitionProps.
Import Acquisition.

(** The answer of the first attempt that does not raise, if there is
    one. *)
Definition first_answer {Coord : Type}
    (get_zip_code : nat -> Z -> Coord -> Coord -> option zip_code)
    (i : nat) (lat lon : Coord) (attempts : list Z) : option zip_code :=
  head (omap (fun k => get_zip_code i k lat lon) attempts).

(** The ZIP code cell of station row [i]: the answer of the first lookup
    that does not raise, null when that answer is NaN or no lookup
    answers. *)
Definition zip_of
    (get_zip_code : nat -> Z -> option Qc -> option Qc -> option zip_code)
    (i : nat) (m : Stations.mention) : option string :=
  match first_answer get_zip_code i (Stations.lat m) (Stations.lon m)
          (range default_retries) with
  | Some (Zip z) => Some z
  | _ => None
  end.

(** Two places, by their coordinates in whole degrees. *)
Definition two_places : list (Z * Z) := [(34, -118); (35, -117)].

End AcquisitionProps.

Module RegistryProps.
Import Frame.

(** The bike types seen with identifier [k]: those of the distinct rows
    (identifier, type) whose identifier prints as [k]. *)
Definition bike_types_seen (df : list Raw.trip) (k : string) : list (option string) :=
  map snd (group (fun r : string * option string => Some r.1) k
             (map (fun r : option string * option string => (astype_str r.1, r.2))
                  (drop_duplicates (map (fun t => (Raw.bike_id t, Raw.bike_type t)) df)))).

(** The type the Capital registry records for a bike whose most frequent
    type is [m]: a bike without type is taken for a classic one, classic and
    docked bikes are [standard], electric ones [electric], and any other
    label stays. *)
Definition capital_label (m : option string) : string :=
  match m with
  | None => "standard"
  | Some ty =>
      if bool_decide (ty = "classic_bike"%string) then "standard"
      else if bool_decide (ty = "docked_bike"%string) then "standard"
      else if bool_decide (ty = "electric_bike"%string) then "electric"
      else ty
  end.

(** The two sample Capital rows of [BikeProps], after the placeholders
    are filled in. *)
Definition capital_sample : list Raw.trip :=
  Raw.add_missing_bike_ids [BikeProps.classic_trip; BikeProps.untyped_trip].

Definition standard_bike (uuid : Z) (id : string) : Bikes.bike :=
  {| Bikes.bike_uuid := uuid; Bikes.original_bike_id := id;
     Bikes.bike_type := Some "standard"%string |}.

(** The centre of Los Angeles, as [generate_metro_stations_dataframe]
    passes it to [rectify_coordinates]. *)
Definition los_angeles_latitude : Qc := Q2Qc (34059753 # 1000000).
Definition los_angeles_longitude : Qc := Q2Qc (- (1182375 # 10000)).

(** A station recorded east of Greenwich: longitude 118.25 instead of
    -118.25. *)
Definition misplaced : Stations.mention :=
  {| Stations.station_id := Some 3005;
     Stations.lat := Some (Q2Qc (3405 # 100));
     Stations.lon := Some (Q2Qc (11825 # 100));
     Stations.station_name := Some "7th & Flower"%string |}.

End RegistryProps.

Module TripTableProps.
Import Py Frame Trips.

(** The eight labels [generate_trips_dataframe] replaces. *)
Definition raw_labels : list string :=
  ["Member"; "Flex Pass"; "Annual Pass"; "Monthly Pass"; "One Day Pass";
   "Casual"; "Walk-up"; "Testing"]%string.

Definition set_member_type (v : option string) (t : trip) : trip :=
  {| trip_id := trip_id t;
     start_time := start_time t; end_time := end_time t;
     start_station_id := start_station_id t;
     end_station_id := end_station_id t;
     bike_id := bike_id t;
     member_type := v;
     duration := duration t;
     plan_duration := plan_duration t;
     trip_route_category := trip_route_category t |}.

(** One replacement, on the cell, and the eight of them at once. *)
Definition relabel_step (old new : string) (m : option string) : option string :=
  if bool_decide (m = Some old) then Some new else m.

Definition relabel (l : string) : string :=
  if bool_decide (l ∈ ["Member"; "Flex Pass"; "Annual Pass"; "Monthly Pass";
                       "One Day Pass"]%string) then "member"
  else if bool_decide (l ∈ ["Casual"; "Walk-up"; "Testing"]%string) then "casual"
  else l.

(** The stations at both ends of a trip and its bike are rows of the
    registries. *)
Definition linked (st : list Stations.station) (bk : list Bikes.bike) (t : trip) : Prop :=
  (exists s, s ∈ st /\ Stations.original_station_id s = start_station_id t
             /\ is_Some (start_station_id t))
  /\ (exists s, s ∈ st /\ Stations.original_station_id s = end_station_id t
                /\ is_Some (end_station_id t))
  /\ (exists b, b ∈ bk /\ Bikes.original_bike_id b = bike_id t).

(** The pairs [set_index("original_station_id")["station_uuid"]] is made
    of: rows without identifier have no key. *)
Definition station_keys (st : list Stations.station) : list (Z * Z) :=
  omap (fun s => k ← Stations.original_station_id s; Some (k, Stations.station_uuid s)) st.

(** The rows [sort_values] receives: the rows of the two trip tables, one
    after the other, relabelled, each with the draw of its place. *)
Definition numbered_trips (rng : Z -> nat -> Z) (df_trips_metro df_trips_capital : list trip)
    : list (Z * trip) :=
  let df_trips := map homogenize_member_type (df_trips_metro ++ df_trips_capital) in
  zip (uuids rng 4 (length df_trips)) df_trips.

(** The trip table of the three Metro rides of [StationProps.rides_from_7]. *)
Definition sample_trips : list (Z * Trips.trip) := Eval vm_compute in
    match Trips.generate_trips_dataframe Samples.counting_bits
            StationProps.rides_from_7 [] TripProps.sample_stations TripProps.sample_bikes
            [] [] with
    | Ok df_trips => df_trips
    | Raise _ => []
    end.

(** A Capital station and a Capital bike that carry identifiers the Metro
    registries of [TripProps] use too. *)
Definition capital_station_7 : Stations.station :=
  {| Stations.station_uuid := 900;
     Stations.original_station_id := Some 7;
     Stations.latitude := None; Stations.longitude := None;
     Stations.name := None; Stations.zip_code := None;
     Stations.city := "Washington D.C." |}.

Definition capital_bike_12345 : Bikes.bike :=
  {| Bikes.bike_uuid := 999; Bikes.original_bike_id := "12345";
     Bikes.bike_type := Some "standard"%string |}.

End TripTableProps.

Module WeatherProps.
Import Weather.

(** No match of the pattern starts anywhere in [s]. *)
Fixpoint no_offset (s : string) : bool :=
  match s with
  | EmptyString => true
  | String c s' => negb (offset_at (String c s')) && no_offset s'
  end.

(** The text of a UTC offset: a sign, two digits, a colon, two digits. *)
Definition utc_offset (c d1 d2 d3 d4 : ascii) : string :=
  String c (String d1 (String d2 (String ":" (String d3 (String d4 EmptyString))))).

End WeatherProps.

Module SpeedProps.
Import Float64 Features FeatureProps.

(** [x] is below zero or a negative zero: its sign bit is set and it is
    not a NaN. *)
Definition sign_set (x : float) : Prop :=
  match x with
  | S754_zero true | S754_infinity true | S754_finite true _ _ => True
  | _ => False
  end.

(** A trip that ends a quarter of an hour before it starts. *)
Definition trip_backwards : trip :=
  sample_trip 14 (Some (mid_december + 900000000000)) (Some mid_december).

End SpeedProps.

Module CensusProps.
Import Demographics DemoProps.

(** A census service that answers for no area. *)
Definition census_down (_ : option string) : option row := None.

(** Two areas with every count published. *)
Definition published_table : list urow := [area 1 90001 500 20; area 3 90003 700 40].

End CensusProps.

(** * Properties of data_acquisition.py *)

Module AcquisitionFacts.
Import Py Acquisition.

Section retry.
Context {Coord : Type}.
Variable get_zip_code : nat -> Z -> Coord -> Coord -> option zip_code.

(** The value of [retry_i] after the inner loop is one of the values the
    loop variable took, or the value it had before. *)
Lemma retry_loop_index i lat lon attempts r0 d0 r d :
  retry_loop get_zip_code i lat lon attempts r0 d0 = (r, d) ->
  r = r0 \/ exists k, r = Some k /\ In k attempts.
Proof.
  revert r0 d0. induction attempts as [|k attempts IH]; cbn; intros r0 d0 H.
  - left. congruence.
  - destruct (get_zip_code i k lat lon).
    + right. exists k. split; [congruence | now left].
    + apply IH in H as [-> | (k' & -> & Hin)].
      * right. exists k. split; [reflexivity | now left].
      * right. exists k'. split; [reflexivity | now right].
Qed.

Lemma range_bound retries k : In k (range retries) -> 0 <= k < retries.
Proof.
  unfold range. rewrite in_map_iff. intros (n & <- & Hn).
  apply in_seq in Hn. lia.
Qed.

(** When every attempt for row [i] raises, the inner loop runs to the end:
    nothing is stored for [i], and [retry_i] is the last index. *)
Lemma retry_loop_all_fail i lat lon attempts r0 d0 :
  (forall k, In k attempts -> get_zip_code i k lat lon = None) ->
  retry_loop get_zip_code i lat lon attempts r0 d0
  = (from_option Some r0 (last attempts), d0).
Proof.
  revert r0. induction attempts as [|k attempts IH]; intros r0 Hfail.
  - reflexivity.
  - cbn [retry_loop]. rewrite (Hfail k) by now left.
    rewrite IH by (intros; apply Hfail; now right).
    rewrite (last_cons k). now destruct (last attempts).
Qed.

(** The guard [(retry_i - 1) == retries] is never met: the largest value
    [retry_i] can hold is [retries - 1]. *)
Lemma station_loop_never_recursion_error retries rows r0 d0 i :
  (forall k, r0 = Some k -> k < retries) ->
  station_loop get_zip_code retries rows r0 d0 <> Raise (RecursionError i).
Proof.
  revert r0 d0. induction rows as [|[j [lat lon]] rows IH]; intros r0 d0 Hr0.
  - discriminate.
  - cbn [station_loop].
    destruct (retry_loop _ j lat lon (range retries) r0 d0) as [r d] eqn:E.
    assert (Hr : forall k, r = Some k -> k < retries).
    { intros k ->. apply retry_loop_index in E as [<- | (k' & [= ->] & Hin)].
      - now apply Hr0.
      - apply range_bound in Hin. lia. }
    destruct r as [k|]; [|discriminate].
    destruct (Z.eqb_spec (k - 1) retries) as [Heq|_].
    + specialize (Hr k eq_refl). lia.
    + now apply IH.
Qed.

(** With at least one attempt per row the inner loop always binds
    [retry_i], to an index below [retries], and the call returns. *)
Lemma retry_loop_binds i lat lon attempts r0 d0 r d :
  attempts <> [] ->
  retry_loop get_zip_code i lat lon attempts r0 d0 = (r, d) ->
  exists k, r = Some k /\ In k attempts.
Proof.
  revert r0 d0. induction attempts as [|k attempts IH]; [congruence|].
  intros r0 d0 _. cbn [retry_loop].
  destruct (get_zip_code i k lat lon).
  - intros [= <- <-]. exists k. split; [reflexivity | now left].
  - destruct attempts as [|k' attempts'].
    + cbn. intros [= <- <-]. exists k. split; [reflexivity | now left].
    + intros H. apply IH in H as (k0 & -> & Hin); [|discriminate].
      exists k0. split; [reflexivity | now right].
Qed.

Lemma station_loop_returns retries rows r0 d0 :
  0 < retries ->
  exists d, station_loop get_zip_code retries rows r0 d0 = Ok d.
Proof.
  intros Hpos. revert r0 d0.
  induction rows as [|[j [lat lon]] rows IH]; intros r0 d0.
  - now exists d0.
  - cbn [station_loop].
    destruct (retry_loop _ j lat lon (range retries) r0 d0) as [r d] eqn:E.
    apply retry_loop_binds in E as (k & -> & Hin).
    + apply range_bound in Hin.
      destruct (Z.eqb_spec (k - 1) retries) as [Heq|_]; [lia|]. apply IH.
    + unfold range. destruct (Z.to_nat retries) eqn:En; [lia|discriminate].
Qed.

Lemma get_zip_code_by_coordenates_returns df :
  exists d, get_zip_code_by_coordenates get_zip_code df default_retries = Ok d.
Proof. apply station_loop_returns. reflexivity. Qed.

Lemma get_zip_code_by_coordenates_no_recursion_error df retries i :
  get_zip_code_by_coordenates get_zip_code df retries
  <> Raise (RecursionError i).
Proof. apply station_loop_never_recursion_error. discriminate. Qed.
End retry.

(** C2 (the code departs from the claim).  One station whose lookup raises
    on each of the five default attempts: the call returns normally, with
    an empty dictionary, and raises nothing. *)
Theorem get_zip_code_by_coordenates_exhausted_retries_returns :
  get_zip_code_by_coordenates Samples.lookup_down [(34, -118)] default_retries
  = Ok ∅.
Proof. reflexivity. Qed.

End AcquisitionFacts.

(** * Properties of the data-frame operations *)

Module FrameFacts.
Import Frame.

(** [sort_values] rearranges the rows. *)
Lemma insert_row_Permutation {A} (le : relation A) `{!RelDecision le} (x : A) (l : list A) :
  insert_row le x l ≡ₚ x :: l.
Proof.
  induction l as [|y l IH]; [reflexivity|]. cbn [insert_row].
  destruct (decide (le x y)); [reflexivity|]. rewrite IH. apply Permutation_swap.
Qed.

Lemma sort_values_Permutation {A} (le : relation A) `{!RelDecision le} (l : list A) :
  sort_values le l ≡ₚ l.
Proof.
  induction l as [|x l IH]; [reflexivity|]. cbn [sort_values foldr].
  fold (sort_values le l). now rewrite insert_row_Permutation, IH.
Qed.

Section sort_values.
Context {A : Type} (le : relation A) `{!RelDecision le}.

(** It leaves them in ascending order. *)
Lemma insert_row_Sorted (x : A) (l : list A) :
  (forall a b, le a b \/ le b a) -> Sorted le l -> Sorted le (insert_row le x l).
Proof.
  intros Htotal. induction 1 as [|y l Hl IH Hy]; [repeat constructor|].
  cbn [insert_row]. destruct (decide (le x y)) as [Hxy|Hxy].
  - constructor; [now constructor|now constructor].
  - constructor; [exact IH|].
    assert (Hyx : le y x) by (destruct (Htotal x y); [contradiction|assumption]).
    destruct l as [|z l]; [now constructor|].
    cbn [insert_row]. destruct (decide (le x z)); constructor; [assumption|].
    now inversion Hy.
Qed.

Lemma sort_values_Sorted (l : list A) :
  (forall a b, le a b \/ le b a) -> Sorted le (sort_values le l).
Proof.
  intros Htotal. induction l as [|x l IH]; [constructor|].
  cbn [sort_values foldr]. now apply insert_row_Sorted.
Qed.

(** The sort is stable: rows that are not above one another, like the rows
    with one key, stay in the order they had. *)
Lemma filter_insert_row (P : A -> Prop) `{!forall x, Decision (P x)} (x : A) (l : list A) :
  (forall a b, P a -> P b -> le a b) ->
  filter P (insert_row le x l) = filter P (x :: l).
Proof.
  intros Hclass. induction l as [|y l IH]; [reflexivity|].
  cbn [insert_row]. destruct (decide (le x y)) as [Hxy|Hxy]; [reflexivity|].
  rewrite (filter_cons P y), IH, !(filter_cons P x), (filter_cons P y).
  destruct (decide (P x)) as [Hx|Hx]; [|reflexivity].
  destruct (decide (P y)) as [Hy|Hy]; [|reflexivity].
  exfalso. apply Hxy. now apply Hclass.
Qed.

Lemma sort_values_stable (P : A -> Prop) `{!forall x, Decision (P x)} (l : list A) :
  (forall a b, P a -> P b -> le a b) ->
  filter P (sort_values le l) = filter P l.
Proof.
  intros Hclass. induction l as [|x l IH]; [reflexivity|].
  cbn [sort_values foldr]. fold (sort_values le l).
  rewrite filter_insert_row by exact Hclass.
  now rewrite !(filter_cons P x), IH.
Qed.
End sort_values.

Section column.
Context {A : Type} `{EqDecision A}.

Lemma elem_of_drop_duplicates (l : list A) x : x ∈ drop_duplicates l <-> x ∈ l.
Proof.
  unfold drop_duplicates.
  now rewrite reverse_Permutation, elem_of_remove_dups, reverse_Permutation.
Qed.

Lemma NoDup_drop_duplicates (l : list A) : NoDup (drop_duplicates l).
Proof.
  unfold drop_duplicates. rewrite reverse_Permutation. apply NoDup_remove_dups.
Qed.

Lemma drop_duplicates_Permutation (l l' : list A) :
  l ≡ₚ l' -> drop_duplicates l ≡ₚ drop_duplicates l'.
Proof.
  intros Hp. apply NoDup_Permutation; try apply NoDup_drop_duplicates.
  intros x. rewrite !elem_of_drop_duplicates. now rewrite Hp.
Qed.

Lemma value_count_Permutation (x : A) l l' :
  l ≡ₚ l' -> value_count x l = value_count x l'.
Proof. intros Hp. unfold value_count. now rewrite Hp. Qed.

Lemma value_count_pos (x : A) l : x ∈ l <-> (0 < value_count x l)%nat.
Proof.
  unfold value_count. induction l as [|y l IH].
  - cbn. split; [intros Hx; inversion Hx | lia].
  - rewrite elem_of_cons, filter_cons. destruct (decide (x = y)) as [->|Hne].
    + cbn. split; [lia | now left].
    + rewrite <- IH. split; [intros [?|?]; [contradiction | assumption] | now right].
Qed.

Lemma dropna_Permutation (s s' : list (option A)) :
  s ≡ₚ s' -> dropna s ≡ₚ dropna s'.
Proof. intros Hp. unfold dropna. now rewrite Hp. Qed.

Lemma elem_of_dropna (s : list (option A)) x : x ∈ dropna s <-> Some x ∈ s.
Proof.
  unfold dropna. rewrite list_elem_of_omap. split.
  - intros (o & Ho & Hx). cbn in Hx. now subst.
  - intros Hx. now exists (Some x).
Qed.

Variable le : relation A.
Context `{!RelDecision le, !PartialOrder le, !Total le}.

(** Sorting forgets the order of its input. *)
Lemma merge_sort_Permutation_eq (l l' : list A) :
  l ≡ₚ l' -> merge_sort le l = merge_sort le l'.
Proof.
  intros Hp. apply (Sorted_unique le).
  - apply Sorted_merge_sort, _.
  - apply Sorted_merge_sort, _.
  - now rewrite !merge_sort_Permutation.
Qed.

Lemma group_keys_Permutation (keys keys' : list (option A)) :
  keys ≡ₚ keys' -> group_keys le keys = group_keys le keys'.
Proof.
  intros Hp. unfold group_keys. apply merge_sort_Permutation_eq.
  now apply drop_duplicates_Permutation, dropna_Permutation.
Qed.

Lemma elem_of_group_keys (keys : list (option A)) k :
  k ∈ group_keys le keys <-> Some k ∈ keys.
Proof.
  unfold group_keys.
  now rewrite merge_sort_Permutation, elem_of_drop_duplicates, elem_of_dropna.
Qed.

Lemma NoDup_group_keys (keys : list (option A)) : NoDup (group_keys le keys).
Proof.
  unfold group_keys. rewrite merge_sort_Permutation.
  apply NoDup_drop_duplicates.
Qed.

(** The keys depend on the set of keys only. *)
Lemma group_keys_ext (keys keys' : list (option A)) :
  (forall k, Some k ∈ keys <-> Some k ∈ keys') ->
  group_keys le keys = group_keys le keys'.
Proof.
  intros Hk. unfold group_keys. apply merge_sort_Permutation_eq.
  apply NoDup_Permutation; try apply NoDup_drop_duplicates.
  intros x. now rewrite !elem_of_drop_duplicates, !elem_of_dropna.
Qed.

Lemma mode_Permutation (s s' : list (option A)) :
  s ≡ₚ s' -> mode le s = mode le s'.
Proof.
  intros Hp. unfold mode.
  assert (Hv : dropna s ≡ₚ dropna s') by now apply dropna_Permutation.
  assert (Hd : drop_duplicates (dropna s) ≡ₚ drop_duplicates (dropna s'))
    by now apply drop_duplicates_Permutation.
  assert (Htop : max_list (map (fun x => value_count x (dropna s))
                               (drop_duplicates (dropna s)))
               = max_list (map (fun x => value_count x (dropna s'))
                               (drop_duplicates (dropna s')))).
  { rewrite Hd. f_equal. apply map_ext. intros x.
    now apply value_count_Permutation. }
  rewrite Htop. apply merge_sort_Permutation_eq. rewrite Hd.
  apply NoDup_Permutation.
  - apply NoDup_filter, NoDup_drop_duplicates.
  - apply NoDup_filter, NoDup_drop_duplicates.
  - intros x. rewrite !list_elem_of_filter.
    now rewrite (value_count_Permutation x _ _ Hv).
Qed.

(** What [safe_mode] returns: nothing for a column of nulls, otherwise the
    least of the values that occur most often. *)
Lemma safe_mode_None (s : list (option A)) :
  safe_mode le s = None <-> dropna s = [].
Proof.
  unfold safe_mode, mode. split.
  - destruct (merge_sort _ _) as [|x l] eqn:E; [intros _|discriminate].
    destruct (dropna s) as [|v vs] eqn:Ev; [reflexivity|exfalso].
    assert (Hne : map (fun x => value_count x (v :: vs)) (drop_duplicates (v :: vs)) <> []).
    { intros Hnil. apply map_eq_nil in Hnil.
      assert (Hv : v ∈ drop_duplicates (v :: vs))
        by (apply elem_of_drop_duplicates; now left).
      rewrite Hnil in Hv. inversion Hv. }
    apply max_list_elem_of in Hne.
    apply list_elem_of_fmap in Hne as (x & Hx & Hin).
    assert (Hf : x ∈ merge_sort le
                  (filter (fun x => value_count x (v :: vs)
                      = max_list (map (fun x => value_count x (v :: vs))
                                      (drop_duplicates (v :: vs))))
                     (drop_duplicates (v :: vs)))).
    { rewrite merge_sort_Permutation. apply list_elem_of_filter. now split. }
    rewrite E in Hf. inversion Hf.
  - intros ->. reflexivity.
Qed.

Lemma safe_mode_Some (s : list (option A)) x :
  safe_mode le s = Some x -> Props.least_most_frequent le x (dropna s).
Proof.
  unfold safe_mode, mode.
  set (values := dropna s). set (distinct := drop_duplicates values).
  set (top := max_list (map (fun x => value_count x values) distinct)).
  destruct (merge_sort _ _) as [|x0 l] eqn:E; [discriminate|].
  intros [= ->].
  assert (Hsorted : StronglySorted le (x :: l)).
  { rewrite <- E. apply StronglySorted_merge_sort; apply _. }
  assert (Hmem : forall y, y ∈ x :: l <-> value_count y values = top /\ y ∈ values).
  { intros y. rewrite <- E, merge_sort_Permutation, list_elem_of_filter.
    unfold distinct. now rewrite elem_of_drop_duplicates. }
  assert (Htop : forall y, (value_count y values <= top)%nat).
  { intros y. destruct (decide (y ∈ values)) as [Hy|Hy].
    - apply max_list_elem_of_le. apply list_elem_of_fmap. exists y.
      split; [reflexivity|]. now apply elem_of_drop_duplicates.
    - destruct (value_count y values) eqn:Ec; [lia|].
      exfalso. apply Hy. apply value_count_pos. lia. }
  destruct (proj1 (Hmem x) ltac:(now left)) as [Hx Hxin].
  split; [split|].
  - exact Hxin.
  - intros y. rewrite Hx. apply Htop.
  - intros y [Hyin Hy].
    assert (Hyl : y ∈ x :: l).
    { apply Hmem. split; [|exact Hyin].
      specialize (Hy x). specialize (Htop y). lia. }
    apply StronglySorted_cons in Hsorted as [Hall _].
    apply elem_of_cons in Hyl as [->|Hyl]; [reflexivity|].
    rewrite Forall_forall in Hall. now apply Hall.
Qed.

Lemma safe_mode_Permutation (s s' : list (option A)) :
  s ≡ₚ s' -> safe_mode le s = safe_mode le s'.
Proof. intros Hp. unfold safe_mode. now rewrite (mode_Permutation _ _ Hp). Qed.
End column.

(** Python's order on strings is a total order. *)
Lemma string_compare_le_trans (a b c : string) :
  String.compare a b <> Gt -> String.compare b c <> Gt ->
  String.compare a c <> Gt.
Proof.
  revert b c. induction a as [|x a IH]; intros [|y b] [|z c]; cbn;
    try congruence.
  unfold Ascii.compare.
  destruct (N.compare_spec (N_of_ascii x) (N_of_ascii y)) as [Exy|Lxy|Gxy],
           (N.compare_spec (N_of_ascii y) (N_of_ascii z)) as [Eyz|Lyz|Gyz],
           (N.compare_spec (N_of_ascii x) (N_of_ascii z)) as [Exz|Lxz|Gxz];
    try congruence; try lia.
  apply IH.
Qed.

#[export] Instance string_le_po : PartialOrder string_le.
Proof.
  unfold string_le, String.leb. split; [split|].
  - intros s. pose proof (String.compare_antisym s s) as Ha.
    destruct (String.compare s s); try reflexivity. discriminate Ha.
  - intros a b c Hab Hbc.
    pose proof (string_compare_le_trans a b c) as Ht.
    destruct (String.compare a b), (String.compare b c),
             (String.compare a c); try reflexivity; try discriminate;
      exfalso; apply Ht; congruence.
  - intros a b. apply String.leb_antisym.
Qed.

#[export] Instance string_le_total : Total string_le.
Proof. intros a b. apply String.leb_total. Qed.

End FrameFacts.

(** * Properties of the bike registry *)

Module BikesFacts.
Import Frame FrameFacts Bikes BikeProps.

Lemma fill_bike_id_row_present kind v t b :
  Raw.bike_id t = Some b -> Raw.fill_bike_id_row kind v t = t.
Proof. unfold Raw.fill_bike_id_row. now intros ->. Qed.

Lemma fill_bike_id_row_hit kind v t :
  Raw.bike_id t = None -> Raw.bike_type t = Some kind ->
  Raw.fill_bike_id_row kind v t = Raw.set_bike_id (Some v) t.
Proof.
  unfold Raw.fill_bike_id_row. intros -> ->.
  now rewrite !bool_decide_eq_true_2.
Qed.

Lemma fill_bike_id_row_miss kind v t :
  Raw.bike_type t <> Some kind -> Raw.fill_bike_id_row kind v t = t.
Proof.
  unfold Raw.fill_bike_id_row. intros Hne.
  rewrite (bool_decide_eq_false_2 (Raw.bike_type t = Some kind)) by assumption.
  now rewrite andb_false_r.
Qed.

Lemma add_missing_bike_ids_map (df : list Raw.trip) :
  Raw.add_missing_bike_ids df = map fill_row df.
Proof.
  unfold Raw.add_missing_bike_ids, Raw.fill_bike_id.
  rewrite !map_map. apply map_ext. intros t. unfold fill_row, placeholder_of.
  destruct (Raw.bike_id t) as [b|] eqn:Eb.
  { now rewrite !(fill_bike_id_row_present _ _ t b). }
  destruct (Raw.bike_type t) as [k|] eqn:Ek.
  2: { rewrite (fill_bike_id_row_miss "classic_bike" _ t) by (rewrite Ek; congruence).
       rewrite (fill_bike_id_row_miss "electric_bike" _ t) by (rewrite Ek; congruence).
       now rewrite (fill_bike_id_row_miss "docked_bike" _ t) by (rewrite Ek; congruence). }
  case_bool_decide as H1.
  { subst k. rewrite (fill_bike_id_row_hit _ _ t) by assumption.
    now rewrite !(fill_bike_id_row_present _ _ _ "0000_classic"). }
  rewrite (fill_bike_id_row_miss "classic_bike") by (rewrite Ek; congruence).
  case_bool_decide as H2.
  { subst k. rewrite (fill_bike_id_row_hit _ _ t) by assumption.
    now rewrite !(fill_bike_id_row_present _ _ _ "0000_electric"). }
  rewrite (fill_bike_id_row_miss "electric_bike") by (rewrite Ek; congruence).
  case_bool_decide as H3.
  { subst k. now rewrite (fill_bike_id_row_hit _ _ t). }
  now rewrite (fill_bike_id_row_miss "docked_bike") by (rewrite Ek; congruence).
Qed.

Lemma placeholder_digits kind p :
  placeholder_of kind = Some p -> count_digits p = 4%nat.
Proof.
  unfold placeholder_of. repeat case_bool_decide; intros [= <-]; reflexivity.
Qed.

Lemma insert_uuids_ids (us : list Z) df :
  length us = length df ->
  map original_bike_id (insert_uuids us df) = map fst df.
Proof.
  revert us. induction df as [|r df IH]; intros [|u us] Hlen;
    try discriminate; [reflexivity|].
  cbn. f_equal. apply IH. now injection Hlen.
Qed.

Lemma uuids_length rng seed n : length (uuids rng seed n) = n.
Proof. unfold uuids. now rewrite length_map, length_seq. Qed.

Lemma bike_groups_ids (df : list Raw.trip) :
  map fst (bike_groups df)
  = group_keys string_le
      (map (fun t => Some (astype_str (Raw.bike_id t))) df).
Proof.
  unfold bike_groups. rewrite map_map. cbn. rewrite map_id.
  apply group_keys_ext; [apply _..|]. intros k.
  rewrite !list_elem_of_fmap. split.
  - intros (r & Hk & Hr). apply list_elem_of_fmap in Hr as (r0 & -> & Hr0).
    apply elem_of_drop_duplicates, list_elem_of_fmap in Hr0 as (t & -> & Ht).
    now exists t.
  - intros (t & Hk & Ht). exists (astype_str (Raw.bike_id t), Raw.bike_type t).
    split; [assumption|]. apply list_elem_of_fmap.
    exists (Raw.bike_id t, Raw.bike_type t). split; [reflexivity|].
    apply elem_of_drop_duplicates, list_elem_of_fmap. now exists t.
Qed.

Lemma NoDup_map_inj_elem {X Y} (f : X -> Y) (l : list X) x y :
  NoDup (map f l) -> x ∈ l -> y ∈ l -> f x = f y -> x = y.
Proof.
  induction l as [|z l IH]; cbn; intros Hnd Hx Hy Hf; [inversion Hx|].
  apply NoDup_cons in Hnd as [Hz Hnd].
  apply elem_of_cons in Hx as [->|Hx], Hy as [->|Hy]; auto.
  - exfalso. apply Hz. rewrite Hf. now apply list_elem_of_fmap_2.
  - exfalso. apply Hz. rewrite <- Hf. now apply list_elem_of_fmap_2.
Qed.

Lemma valid_ids_ids (l : list (string * option string)) :
  map fst (valid_ids l)
  = filter (fun k => (4 <= count_digits k)%nat) (map fst l).
Proof.
  unfold valid_ids. induction l as [|r l IH]; [reflexivity|].
  rewrite filter_cons. cbn [map]. rewrite filter_cons.
  destruct (decide (4 <= count_digits r.1)%nat); cbn; now rewrite IH.
Qed.

Lemma fill_type_ids new l : map fst (fill_type new l) = map fst l.
Proof.
  unfold fill_type. rewrite map_map. apply map_ext.
  intros r. now case_bool_decide.
Qed.

Lemma replace_type_ids old new l : map fst (replace_type old new l) = map fst l.
Proof.
  unfold replace_type. rewrite map_map. apply map_ext.
  intros r. now case_bool_decide.
Qed.

Lemma fill_type_length new l : length (fill_type new l) = length l.
Proof. unfold fill_type. apply length_map. Qed.

Lemma replace_type_length old new l : length (replace_type old new l) = length l.
Proof. unfold replace_type. apply length_map. Qed.

(** The identifiers of the Capital registry: the distinct identifiers of the
    table with at least four digits, in sorted order. *)
Lemma capital_registry_ids rng (df : list Raw.trip) :
  map original_bike_id (generate_capital_bikes_dataframe rng df)
  = filter (fun k => (4 <= count_digits k)%nat)
      (group_keys string_le (map (fun t => Some (astype_str (Raw.bike_id t))) df)).
Proof.
  unfold generate_capital_bikes_dataframe.
  rewrite insert_uuids_ids by now rewrite uuids_length.
  now rewrite !replace_type_ids, fill_type_ids, valid_ids_ids, bike_groups_ids.
Qed.

Lemma capital_registry_NoDup rng (df : list Raw.trip) :
  NoDup (map original_bike_id (generate_capital_bikes_dataframe rng df)).
Proof.
  rewrite capital_registry_ids. apply NoDup_filter, NoDup_group_keys; apply _.
Qed.

(** The registries do not depend on the order of the rows of the table. *)
Lemma bike_groups_Permutation (df df' : list Raw.trip) :
  df ≡ₚ df' -> bike_groups df = bike_groups df'.
Proof.
  intros Hp. unfold bike_groups.
  set (pairs := fun d : list Raw.trip =>
         map (fun r : option string * option string => (astype_str r.1, r.2))
             (drop_duplicates (map (fun t => (Raw.bike_id t, Raw.bike_type t)) d))).
  assert (Hpairs : pairs df ≡ₚ pairs df').
  { unfold pairs. apply Permutation_map, drop_duplicates_Permutation.
    now apply Permutation_map. }
  change (map (fun k => (k, safe_mode string_le
             (map snd (group (fun r => Some r.1) k (pairs df)))))
            (group_keys string_le (map (fun r => Some r.1) (pairs df)))
        = map (fun k => (k, safe_mode string_le
             (map snd (group (fun r => Some r.1) k (pairs df')))))
            (group_keys string_le (map (fun r => Some r.1) (pairs df')))).
  rewrite (group_keys_Permutation string_le _ (map (fun r => Some r.1) (pairs df')))
    by now apply Permutation_map.
  apply map_ext. intros k. f_equal.
  apply safe_mode_Permutation; [apply _..|].
  apply Permutation_map. unfold group. now rewrite Hpairs.
Qed.

Lemma generate_metro_bikes_dataframe_Permutation rng (df df' : list Raw.trip) :
  df ≡ₚ df' ->
  generate_metro_bikes_dataframe rng df = generate_metro_bikes_dataframe rng df'.
Proof.
  intros Hp. unfold generate_metro_bikes_dataframe.
  now rewrite (bike_groups_Permutation df df').
Qed.

Lemma generate_capital_bikes_dataframe_Permutation rng (df df' : list Raw.trip) :
  df ≡ₚ df' ->
  generate_capital_bikes_dataframe rng df = generate_capital_bikes_dataframe rng df'.
Proof.
  intros Hp. unfold generate_capital_bikes_dataframe.
  now rewrite (bike_groups_Permutation df df').
Qed.

(** C10, as the code has it.  A Capital row without bike identifier whose
    bike type is [classic_bike], [electric_bike] or [docked_bike] receives
    the placeholder of that type; the placeholder has exactly four digits;
    and the Capital bike registry built from the completed table has one
    entry, and only one, for the placeholder, so that every such row of
    that type refers to that one bike. *)
Theorem missing_bike_id_gets_placeholder rng (df : list Raw.trip)
    (t : Raw.trip) (kind p : string) :
  t ∈ df ->
  Raw.bike_id t = None ->
  Raw.bike_type t = Some kind ->
  placeholder_of kind = Some p ->
  Raw.set_bike_id (Some p) t ∈ Raw.add_missing_bike_ids df
  /\ count_digits p = 4%nat
  /\ exists b, b ∈ generate_capital_bikes_dataframe rng (Raw.add_missing_bike_ids df)
       /\ original_bike_id b = p
       /\ forall b', b' ∈ generate_capital_bikes_dataframe rng (Raw.add_missing_bike_ids df) ->
            original_bike_id b' = p -> b' = b.
Proof.
  intros Hin Hid Hkind Hp.
  assert (Hrow : Raw.set_bike_id (Some p) t ∈ Raw.add_missing_bike_ids df).
  { rewrite add_missing_bike_ids_map. apply list_elem_of_fmap. exists t.
    split; [|assumption]. unfold fill_row. now rewrite Hid, Hkind, Hp. }
  pose proof (placeholder_digits _ _ Hp) as Hdigits.
  split; [exact Hrow|]. split; [exact Hdigits|].
  assert (Hp_in : p ∈ map original_bike_id
            (generate_capital_bikes_dataframe rng (Raw.add_missing_bike_ids df))).
  { rewrite capital_registry_ids. apply list_elem_of_filter. split; [lia|].
    apply elem_of_group_keys; [apply _..|]. apply list_elem_of_fmap.
    now exists (Raw.set_bike_id (Some p) t). }
  apply list_elem_of_fmap in Hp_in as (b & Hb & Hbin).
  exists b. split; [assumption|]. split; [now symmetry|].
  intros b' Hb' Hid'.
  apply (NoDup_map_inj_elem original_bike_id
           (generate_capital_bikes_dataframe rng (Raw.add_missing_bike_ids df)));
    auto using capital_registry_NoDup. congruence.
Qed.

(** A table with one such row, of the classic kind. *)
Lemma missing_bike_id_gets_placeholder_witness :
  Raw.set_bike_id (Some "0000_classic"%string) classic_trip
    ∈ Raw.add_missing_bike_ids [classic_trip; untyped_trip]
  /\ count_digits "0000_classic" = 4%nat
  /\ exists b, b ∈ generate_capital_bikes_dataframe Samples.counting_bits
                     (Raw.add_missing_bike_ids [classic_trip; untyped_trip])
       /\ original_bike_id b = "0000_classic"%string
       /\ forall b', b' ∈ generate_capital_bikes_dataframe Samples.counting_bits
                           (Raw.add_missing_bike_ids [classic_trip; untyped_trip]) ->
            original_bike_id b' = "0000_classic"%string -> b' = b.
Proof.
  apply (missing_bike_id_gets_placeholder _ _ classic_trip "classic_bike").
  - apply elem_of_cons. now left.
  - reflexivity.
  - reflexivity.
  - reflexivity.
Defined.

(** C10, as stated, fails on a row that has neither identifier nor type: no
    placeholder is assigned, the identifier stays null, and the registry
    built from the table has no entry for the row. *)
Lemma untyped_row_gets_no_placeholder :
  untyped_trip ∈ Raw.add_missing_bike_ids [untyped_trip]
  /\ Raw.bike_id untyped_trip = None
  /\ ~ has_placeholder untyped_trip
  /\ generate_capital_bikes_dataframe Samples.counting_bits
       (Raw.add_missing_bike_ids [untyped_trip]) = [].
Proof.
  split; [apply elem_of_cons; now left|]. split; [reflexivity|].
  split; [|reflexivity].
  unfold has_placeholder. cbn. rewrite !elem_of_cons, elem_of_nil.
  intros [H|[H|[H|H]]]; try discriminate H; exact H.
Qed.

End BikesFacts.

(** * Properties of the station registry *)

Module StationsFacts.
Import Py Frame FrameFacts Stations StationProps.

Lemma safe_mode_resolved (series : list (option Qc)) :
  resolved (safe_mode Qcle series) series.
Proof.
  unfold resolved. destruct (safe_mode Qcle series) as [v|] eqn:E.
  - apply safe_mode_Some in E; [assumption | apply _..].
  - apply safe_mode_None in E; [assumption | apply _..].
Qed.

Lemma elem_of_aggregate (df : list mention) r :
  r ∈ aggregate df ->
  exists k, station_id r = Some k
    /\ lat r = safe_mode Qcle (map lat (group station_id k df))
    /\ lon r = safe_mode Qcle (map lon (group station_id k df)).
Proof.
  unfold aggregate. intros Hr.
  apply list_elem_of_fmap in Hr as (k & -> & _). now exists k.
Qed.

Lemma group_Permutation {R K} `{EqDecision K} (key : R -> option K) k
    (df df' : list R) :
  df ≡ₚ df' -> group key k df ≡ₚ group key k df'.
Proof. intros Hp. unfold group. now rewrite Hp. Qed.

(** C5, as the code has it.  At one trip end, the latitude of a station is
    the least of the latitudes that occur most often among the distinct
    rows (identifier, latitude, longitude, name) seen for it, and likewise,
    on its own, the longitude: repeated rows are dropped before they are
    counted. *)
Theorem get_metro_unique_stations_resolves (df : list mention) (r : mention) :
  r ∈ get_metro_unique_stations df ->
  exists k, station_id r = Some k
    /\ resolved (lat r) (map lat (group station_id k (drop_duplicates df)))
    /\ resolved (lon r) (map lon (group station_id k (drop_duplicates df))).
Proof.
  unfold get_metro_unique_stations. intros Hr.
  apply elem_of_aggregate in Hr as (k & Hk & Hlat & Hlon).
  exists k. split; [assumption|].
  assert (Hg : group station_id k (merge_sort station_id_le (drop_duplicates df))
               ≡ₚ group station_id k (drop_duplicates df))
    by apply group_Permutation, merge_sort_Permutation.
  rewrite Hlat, Hlon.
  rewrite (safe_mode_Permutation Qcle
             (map lat (group station_id k (merge_sort station_id_le (drop_duplicates df))))
             (map lat (group station_id k (drop_duplicates df))))
    by now apply Permutation_map.
  rewrite (safe_mode_Permutation Qcle
             (map lon (group station_id k (merge_sort station_id_le (drop_duplicates df))))
             (map lon (group station_id k (drop_duplicates df))))
    by now apply Permutation_map.
  split; apply safe_mode_resolved.
Qed.

(** The station of the claim: seen at (1,1) twice and at (2,2) once, it is
    resolved to (1,1). *)
Lemma get_metro_unique_stations_resolves_witness :
  get_metro_unique_stations twice_11_once_22 = [seen 7 1 1]
  /\ exists k, station_id (seen 7 1 1) = Some k
    /\ resolved (lat (seen 7 1 1))
         (map lat (group station_id k (drop_duplicates twice_11_once_22)))
    /\ resolved (lon (seen 7 1 1))
         (map lon (group station_id k (drop_duplicates twice_11_once_22))).
Proof.
  split; [reflexivity|].
  apply (get_metro_unique_stations_resolves twice_11_once_22 (seen 7 1 1)).
  apply elem_of_cons. now left.
Defined.

(** C5, as stated, fails when the more frequent coordinates are the
    larger ones.  Station 7 is seen at (2,2) twice and at (1,1) once; the
    repeated row is dropped before the mode is taken, the tie goes to the
    smaller value, and the station is resolved to (1,1), at one trip end
    as in the registry rows built from three rides.  Latitude 1 is not the
    most frequent latitude among the station's mentions. *)
Lemma repeated_mentions_do_not_weigh :
  get_metro_unique_stations twice_22_once_11 = [seen 7 1 1]
  /\ ~ resolved (lat (seen 7 1 1))
        (map lat (group station_id 7 twice_22_once_11))
  /\ map place (metro_station_rows rides_from_7)
     = [place (seen 7 1 1); place (seen 8 5 5); place (seen 9 6 6)].
Proof.
  split; [reflexivity|]. split; [|reflexivity].
  intros [[_ Hmost] _].
  specialize (Hmost (Q2Qc (inject_Z 2))).
  vm_compute in Hmost. lia.
Qed.

(** ** Independence of the row order *)

Lemma aggregate_ids (df : list mention) :
  map station_id (aggregate df) = map Some (group_keys Z.le (map station_id df)).
Proof. unfold aggregate. rewrite map_map. now apply map_ext. Qed.

Lemma aggregate_places (df df' : list mention) :
  group_keys Z.le (map station_id df) = group_keys Z.le (map station_id df') ->
  (forall k, safe_mode Qcle (map lat (group station_id k df))
             = safe_mode Qcle (map lat (group station_id k df'))) ->
  (forall k, safe_mode Qcle (map lon (group station_id k df))
             = safe_mode Qcle (map lon (group station_id k df'))) ->
  map place (aggregate df) = map place (aggregate df').
Proof.
  intros Hkeys Hlat Hlon. unfold aggregate. rewrite !map_map, Hkeys.
  apply map_ext. intros k. unfold place. cbn. now rewrite Hlat, Hlon.
Qed.

Lemma get_metro_unique_stations_places (df df' : list mention) :
  df ≡ₚ df' ->
  map place (get_metro_unique_stations df)
  = map place (get_metro_unique_stations df').
Proof.
  intros Hp. unfold get_metro_unique_stations.
  assert (Hs : merge_sort station_id_le (drop_duplicates df)
               ≡ₚ merge_sort station_id_le (drop_duplicates df')).
  { rewrite !merge_sort_Permutation. now apply drop_duplicates_Permutation. }
  apply aggregate_places.
  - apply group_keys_Permutation; [apply _..|]. now apply Permutation_map.
  - intros k. apply safe_mode_Permutation; [apply _..|].
    now apply Permutation_map, group_Permutation.
  - intros k. apply safe_mode_Permutation; [apply _..|].
    now apply Permutation_map, group_Permutation.
Qed.

(** The identifiers that survive the join of the two trip ends are those
    of the rows with both coordinates, whatever their names. *)
Lemma joined_ids (rows : list mention) k :
  Some k ∈ map station_id
    (filter (fun m => is_Some (lat m) /\ is_Some (lon m)) (drop_duplicates rows))
  <-> exists la lo, (Some k, Some la, Some lo) ∈ map place rows.
Proof.
  rewrite list_elem_of_fmap. split.
  - intros (m & Hk & Hm). apply list_elem_of_filter in Hm as [[[la Hla] [lo Hlo]] Hm].
    rewrite elem_of_drop_duplicates in Hm. exists la, lo.
    apply list_elem_of_fmap. exists m. split; [|exact Hm].
    unfold place. now rewrite <- Hk, Hla, Hlo.
  - intros (la & lo & Hpl). apply list_elem_of_fmap in Hpl as (m & Hpl & Hm).
    unfold place in Hpl. injection Hpl as Hk Hla Hlo.
    exists m. split; [assumption|]. apply list_elem_of_filter.
    split; [|now apply elem_of_drop_duplicates].
    rewrite <- Hla, <- Hlo. split; eexists; reflexivity.
Qed.

Lemma rectify_coordinates_ids df a b c :
  map station_id (rectify_coordinates df a b c) = map station_id df.
Proof. unfold rectify_coordinates. rewrite map_map. now apply map_ext. Qed.

Lemma metro_station_rows_ids (df df' : list Raw.trip) :
  df ≡ₚ df' ->
  map station_id (metro_station_rows df) = map station_id (metro_station_rows df').
Proof.
  intros Hp. unfold metro_station_rows.
  assert (Hends :
    drop_duplicates (map (fun t => (start_mention t, end_mention t)) df)
    ≡ₚ drop_duplicates (map (fun t => (start_mention t, end_mention t)) df'))
    by now apply drop_duplicates_Permutation, Permutation_map.
  rewrite !rectify_coordinates_ids, !aggregate_ids. f_equal.
  apply group_keys_ext; [apply _..|]. intros k.
  rewrite !joined_ids, !map_app.
  rewrite (get_metro_unique_stations_places _ _ (Permutation_map fst Hends)).
  rewrite (get_metro_unique_stations_places _ _ (Permutation_map snd Hends)).
  reflexivity.
Qed.

Lemma registry_keys_aux (zip_dict : gmap nat Acquisition.zip_code) (town : string)
    (us : list Z) (idx : list nat) (rows : list mention) :
  length idx = length rows ->
  map keys
    (zip_with (fun u (im : nat * mention) =>
                 {| station_uuid := u;
                    original_station_id := station_id im.2;
                    latitude := lat im.2; longitude := lon im.2;
                    name := station_name im.2;
                    zip_code := zip_cell zip_dict im.1;
                    city := town |}) us (combine idx rows))
  = zip (map station_id rows) us.
Proof.
  revert us idx. induction rows as [|m rows IH]; intros us [|i idx] Hlen;
    try discriminate; destruct us as [|u us]; try reflexivity.
  cbn. f_equal. apply IH. now injection Hlen.
Qed.

(** The Metro station registry is always produced, and pairs the sorted
    station identifiers with the draws of seed 0, in order. *)
Lemma generate_metro_stations_dataframe_keys gz rng (df : list Raw.trip) :
  exists reg, generate_metro_stations_dataframe gz rng df = Ok reg
    /\ map keys reg
       = zip (map station_id (metro_station_rows df))
             (uuids rng 0 (length (metro_station_rows df))).
Proof.
  unfold generate_metro_stations_dataframe.
  destruct (AcquisitionFacts.get_zip_code_by_coordenates_returns gz
              (map (fun m => (lat m, lon m)) (metro_station_rows df)))
    as [d ->].
  cbn [bind]. eexists. split; [reflexivity|].
  apply registry_keys_aux. now rewrite length_seq.
Qed.

(** The Capital station registry: produced whenever its rows are, with the
    draws of seed 1. *)
Lemma generate_capital_stations_dataframe_keys gz rng float_str (df : list Raw.trip) :
  map_result (map keys) (generate_capital_stations_dataframe gz rng float_str df)
  = map_result (fun rows => zip (map station_id rows) (uuids rng 1 (length rows)))
      (capital_station_rows float_str df).
Proof.
  unfold generate_capital_stations_dataframe.
  destruct (capital_station_rows float_str df) as [rows|e]; [|reflexivity].
  cbn [bind].
  destruct (AcquisitionFacts.get_zip_code_by_coordenates_returns gz
              (map (fun m => (lat m, lon m)) rows)) as [d ->].
  unfold map_result. cbn [bind]. f_equal.
  apply registry_keys_aux. now rewrite length_seq.
Qed.

End StationsFacts.

(** * Surrogate identifiers *)

Module SurrogateFacts.
Import Py Frame Stations StationProps.

(** C6, as the code has it.  The surrogate identifiers of the Metro
    station registry and of the two bike registries do not depend on the
    order of the rows of the homogenized tables: for two tables with the
    same rows in any two orders (in particular for the same table twice)
    the Metro station registry is produced both times, whatever the ZIP
    code service answers, and assigns the same identifier to every
    station, and the two bike registries are equal row by row.  The
    Capital station registry assigns the same identifiers in two runs on
    the same table, whatever the ZIP code service answers. *)
Theorem surrogate_ids_order_independent
    (get_zip_code get_zip_code' : nat -> Z -> option Qc -> option Qc -> option Acquisition.zip_code)
    (getrandbits : Z -> nat -> Z) (float_str : Qc -> string)
    (df_metro df_metro' df_capital df_capital' : list Raw.trip) :
  df_metro ≡ₚ df_metro' ->
  df_capital ≡ₚ df_capital' ->
  (exists reg reg',
      generate_metro_stations_dataframe get_zip_code getrandbits df_metro = Ok reg
      /\ generate_metro_stations_dataframe get_zip_code' getrandbits df_metro' = Ok reg'
      /\ map keys reg = map keys reg')
  /\ Bikes.generate_metro_bikes_dataframe getrandbits df_metro
     = Bikes.generate_metro_bikes_dataframe getrandbits df_metro'
  /\ Bikes.generate_capital_bikes_dataframe getrandbits df_capital
     = Bikes.generate_capital_bikes_dataframe getrandbits df_capital'
  /\ map_result (map keys)
       (generate_capital_stations_dataframe get_zip_code getrandbits float_str df_capital)
     = map_result (map keys)
         (generate_capital_stations_dataframe get_zip_code' getrandbits float_str df_capital).
Proof.
  intros Hm Hc. split; [|split; [|split]].
  - destruct (StationsFacts.generate_metro_stations_dataframe_keys
                get_zip_code getrandbits df_metro) as (reg & Hreg & Hkeys).
    destruct (StationsFacts.generate_metro_stations_dataframe_keys
                get_zip_code' getrandbits df_metro') as (reg' & Hreg' & Hkeys').
    exists reg, reg'. split; [assumption|]. split; [assumption|].
    rewrite Hkeys, Hkeys'.
    rewrite (StationsFacts.metro_station_rows_ids df_metro df_metro' Hm).
    f_equal. f_equal.
    rewrite <- (length_map station_id (metro_station_rows df_metro)).
    rewrite <- (length_map station_id (metro_station_rows df_metro')).
    now rewrite (StationsFacts.metro_station_rows_ids df_metro df_metro' Hm).
  - now apply BikesFacts.generate_metro_bikes_dataframe_Permutation.
  - now apply BikesFacts.generate_capital_bikes_dataframe_Permutation.
  - now rewrite !StationsFacts.generate_capital_stations_dataframe_keys.
Qed.

(** Three Metro rides and two Capital rows, each table read in both
    directions, with a ZIP code service that is down in one run. *)
Lemma surrogate_ids_order_independent_witness :
  (exists reg reg',
      generate_metro_stations_dataframe Samples.lookup_90012 Samples.counting_bits
        rides_from_7 = Ok reg
      /\ generate_metro_stations_dataframe Samples.lookup_down Samples.counting_bits
           (reverse rides_from_7) = Ok reg'
      /\ map keys reg = map keys reg')
  /\ Bikes.generate_metro_bikes_dataframe Samples.counting_bits rides_from_7
     = Bikes.generate_metro_bikes_dataframe Samples.counting_bits (reverse rides_from_7)
  /\ Bikes.generate_capital_bikes_dataframe Samples.counting_bits capital_rides
     = Bikes.generate_capital_bikes_dataframe Samples.counting_bits (reverse capital_rides)
  /\ map_result (map keys)
       (generate_capital_stations_dataframe Samples.lookup_90012 Samples.counting_bits
          Samples.decimal_str capital_rides)
     = map_result (map keys)
         (generate_capital_stations_dataframe Samples.lookup_down Samples.counting_bits
            Samples.decimal_str capital_rides).
Proof.
  apply surrogate_ids_order_independent.
  - symmetry. apply reverse_Permutation.
  - symmetry. apply reverse_Permutation.
Defined.

(** C6, as stated, fails for the Capital stations.  [capital_rides_swapped]
    has the rows of [capital_rides] with the two rides of dock 2 exchanged.
    Each pair of coordinates keeps the first station identifier of its rows,
    so dock 1 is lost in the first table and kept in the second, and docks
    2 and 9 receive different surrogate identifiers. *)
Lemma capital_station_ids_depend_on_row_order :
  capital_rides_swapped ≡ₚ capital_rides
  /\ map_result (map keys)
       (generate_capital_stations_dataframe Samples.lookup_90012 Samples.counting_bits
          Samples.decimal_str capital_rides)
     = Ok [(Some 2, 1000); (Some 9, 1001)]
  /\ map_result (map keys)
       (generate_capital_stations_dataframe Samples.lookup_90012 Samples.counting_bits
          Samples.decimal_str capital_rides_swapped)
     = Ok [(Some 1, 1000); (Some 2, 1001); (Some 9, 1002)].
Proof.
  split; [|split; reflexivity].
  apply (reverse_Permutation capital_rides).
Qed.

End SurrogateFacts.

(** * Properties of the calendar *)

Module CalendarFacts.
Import Calendar.

Lemma all_from_spec (fuel : nat) (z : Z) (f : Z -> bool) :
  all_from fuel z f = true ->
  forall x, z <= x < z + Z.of_nat fuel -> f x = true.
Proof.
  revert z. induction fuel as [|fuel IH]; intros z Hall x Hx; [lia|].
  cbn [all_from] in Hall. apply andb_true_iff in Hall as [Hz Hrest].
  destruct (Z.eq_dec x z) as [->|Hne]; [assumption|].
  apply (IH (z + 1)); [assumption|lia].
Qed.

(** Every day of a 400-year era falls on one of the 366 days of its year. *)
Lemma day_of_year_checked :
  all_from (Z.to_nat 146097) 0 day_of_year_ok = true.
Proof. vm_compute. reflexivity. Qed.

Lemma day_of_year_range (doe : Z) :
  0 <= doe < 146097 -> 0 <= day_of_year doe <= 365.
Proof.
  intros Hdoe.
  pose proof (all_from_spec _ _ _ day_of_year_checked doe) as Hok.
  rewrite Z2Nat.id in Hok by lia. specialize (Hok ltac:(lia)).
  unfold day_of_year_ok in Hok. apply andb_true_iff in Hok as [H1 H2]. lia.
Qed.

(** [Series.dt.month] is a month number. *)
Lemma month_range (t : Z) : 1 <= month t <= 12.
Proof.
  unfold month, civil_from_days. cbn [fst snd].
  set (z := days t + 719468).
  assert (Hdoe : 0 <= z - z / 146097 * 146097 < 146097).
  { pose proof (Z.mod_pos_bound z 146097 eq_refl) as Hm.
    rewrite Z.mod_eq in Hm by lia. lia. }
  pose proof (day_of_year_range _ Hdoe) as Hdoy.
  set (doy := day_of_year (z - z / 146097 * 146097)) in *.
  assert (Hmp : 0 <= (5 * doy + 2) / 153 < 12).
  { split.
    - apply Z.div_pos; lia.
    - apply Z.div_lt_upper_bound; lia. }
  destruct (Z.ltb_spec ((5 * doy + 2) / 153) 10); lia.
Qed.

End CalendarFacts.

(** * Properties of float64 arithmetic *)

Module Float64Facts.
Import Float64 FeatureProps.

(** Comparing the other way round gives the opposite answer. *)
Lemma SFcompare_antisym (x y : float) :
  SFcompare y x = option_map CompOpp (SFcompare x y).
Proof.
  destruct x as [sx|sx| |sx mx ex], y as [sy|sy| |sy my ey]; cbn;
    try reflexivity;
    try (destruct sx; reflexivity); try (destruct sy; reflexivity);
    try (destruct sx, sy; reflexivity).
  destruct sx, sy; cbn; try reflexivity.
  - rewrite (Z.compare_antisym ex ey).
    destruct (ex ?= ey) eqn:E; cbn; try reflexivity.
    now rewrite (Pos.compare_cont_antisym mx my Eq).
  - rewrite (Z.compare_antisym ex ey).
    destruct (ex ?= ey) eqn:E; cbn; try reflexivity.
    now rewrite (Pos.compare_cont_antisym mx my Eq).
Qed.

(** A value above [y] is not at most [y]. *)
Lemma ltb_not_leb (x y : float) : ltb y x = true -> leb x y = false.
Proof.
  unfold ltb, leb, SFltb, SFleb. rewrite (SFcompare_antisym y x).
  destruct (SFcompare y x) as [[| |]|]; cbn; congruence.
Qed.

(** A value equal to [y] is at most [y]. *)
Lemma eqb_leb (x y : float) : eqb x y = true -> leb x y = true.
Proof.
  unfold eqb, leb, SFeqb, SFleb.
  destruct (SFcompare x y) as [[| |]|]; congruence.
Qed.

(** The values that are not negative. *)
Lemma not_negative_cases (x : float) :
  not_negative x <->
  match x with
  | S754_finite true _ _ | S754_infinity true => False
  | _ => True
  end.
Proof.
  unfold not_negative, ltb. destruct x as [s|s| |s m e]; cbn;
    try destruct s; cbn; intuition congruence.
Qed.

(** Rounding keeps the sign it is given. *)
Lemma binary_round_aux_not_negative (m e : Z) (l : location) :
  not_negative (binary_round_aux prec emax false m e l).
Proof.
  apply not_negative_cases. unfold binary_round_aux.
  destruct (shr_fexp prec emax m e l) as [mrs e'].
  destruct (shr_fexp prec emax _ e' loc_Exact) as [mrs' e''].
  destruct (shr_m mrs'); [exact I| |exact I].
  destruct (e'' <=? emax - prec); exact I.
Qed.

Lemma sqrt_not_negative (x : float) : not_negative (sqrt x).
Proof.
  destruct x as [s|s| |s m e]; cbn.
  - apply not_negative_cases. now destruct s.
  - apply not_negative_cases. now destruct s.
  - reflexivity.
  - destruct s; [reflexivity|].
    unfold sqrt, SFsqrt.
    destruct (SFsqrt_core_binary prec emax (Z.pos m) e) as [[mz ez] lz].
    apply binary_round_aux_not_negative.
Qed.

Lemma mul_not_negative (x y : float) :
  not_negative x -> not_negative y -> not_negative (mul x y).
Proof.
  rewrite !not_negative_cases.
  destruct x as [sx|sx| |sx mx ex], y as [sy|sy| |sy my ey]; cbn;
    try (destruct sx); try (destruct sy); cbn; try tauto.
  intros _ _. apply not_negative_cases, binary_round_aux_not_negative.
Qed.

Lemma of_Z_not_negative (n : Z) : 0 <= n -> not_negative (of_Z n).
Proof.
  intros Hn. unfold of_Z, binary_normalize. destruct n as [|p|p]; [reflexivity| |lia].
  unfold binary_round.
  destruct (shl_align p 0 _) as [mz ez]. apply binary_round_aux_not_negative.
Qed.

(** A distance that is not negative, covered in no time, gives a speed that
    is infinite or NaN, and so not at most 50. *)
Lemma speed_of_zero_duration (distance : float) :
  not_negative distance ->
  leb (mul (div distance (S754_zero false)) (of_Z 3600)) (of_Z 50) = false.
Proof.
  rewrite not_negative_cases.
  destruct distance as [s|s| |s m e]; cbn; try destruct s; cbn;
    try tauto; intros _; reflexivity.
Qed.

(** A NaN duration gives a NaN speed. *)
Lemma speed_of_nan_duration (distance : float) :
  leb (mul (div distance nan) (of_Z 3600)) (of_Z 50) = false.
Proof. destruct distance as [s|s| |s m e]; reflexivity. Qed.

End Float64Facts.

(** * Properties of the feature stage *)

Module FeaturesFacts.
Import Float64 Features FeatureProps Float64Facts.

Section features.
Variables (radians sin cos arcsin : float -> float).

Lemma average_speed_add_features (r : merged) :
  average_speed_kmh (add_features radians sin cos arcsin r)
  = mul (div (haversine radians sin cos arcsin r)
             (total_seconds (start_time (m_trip r)) (end_time (m_trip r))))
        (of_Z 3600).
Proof. reflexivity. Qed.

Lemma f_row_add_features (r : merged) :
  f_row (add_features radians sin cos arcsin r) = r.
Proof. reflexivity. Qed.

(** The rows of the feature table: the joined rows whose speed passes. *)
Lemma elem_of_features df_trip_month df_stations (f : feature) :
  f ∈ generate_trips_feature_engineering radians sin cos arcsin df_trip_month df_stations <->
  speed_limit_condition f = true
  /\ exists r, f = add_features radians sin cos arcsin r
       /\ r ∈ add_coordinates df_trip_month df_stations.
Proof.
  unfold Features.generate_trips_feature_engineering.
  now rewrite list_elem_of_filter, list_elem_of_fmap.
Qed.

Lemma elem_of_merge_stations {L R} (key : L -> option Z) (pair : L -> station -> R)
    (left : list L) (df_stations : list station) (r : R) :
  r ∈ merge_stations key pair left df_stations ->
  exists l s, r = pair l s /\ l ∈ left /\ s ∈ df_stations.
Proof.
  unfold merge_stations. rewrite list_elem_of_In, in_flat_map.
  intros (l & Hl & Hr). apply list_elem_of_In in Hl. apply list_elem_of_In in Hr.
  apply list_elem_of_fmap in Hr as (s & -> & Hs).
  apply list_elem_of_filter in Hs as [_ Hs]. now exists l, s.
Qed.

(** A joined row carries a row of the monthly table. *)
Lemma elem_of_add_coordinates df_trip_month df_stations (r : merged) :
  r ∈ add_coordinates df_trip_month df_stations -> m_trip r ∈ df_trip_month.
Proof.
  unfold add_coordinates. intros Hr.
  apply elem_of_merge_stations in Hr as ([t s1] & s2 & -> & Hts & _).
  apply elem_of_merge_stations in Hts as (t' & s' & [= -> ->] & Ht & _).
  exact Ht.
Qed.

(** A row of the feature table has both its times. *)
Lemma feature_has_times df_trip_month df_stations (f : feature) :
  f ∈ generate_trips_feature_engineering radians sin cos arcsin df_trip_month df_stations ->
  exists s e, start_time (m_trip (f_row f)) = Some s
    /\ end_time (m_trip (f_row f)) = Some e.
Proof.
  intros Hf. apply elem_of_features in Hf as (Hspeed & r & -> & _).
  unfold speed_limit_condition in Hspeed.
  rewrite average_speed_add_features in Hspeed. rewrite f_row_add_features.
  unfold total_seconds in Hspeed.
  destruct (start_time (m_trip r)) as [s|], (end_time (m_trip r)) as [e|];
    try (now rewrite speed_of_nan_duration in Hspeed).
  now exists s, e.
Qed.

(** The dictionary of the code is the mapping of the specification. *)
Lemma month_to_season_spec (m : Z) :
  1 <= m <= 12 -> month_to_season !! m = Some (season_of_month m).
Proof.
  intros Hm.
  assert (Hcases : m = 1 \/ m = 2 \/ m = 3 \/ m = 4 \/ m = 5 \/ m = 6 \/ m = 7
                   \/ m = 8 \/ m = 9 \/ m = 10 \/ m = 11 \/ m = 12) by lia.
  repeat (destruct Hcases as [->|Hcases]; [reflexivity|]).
  subst m. reflexivity.
Qed.

(** C3.  The rows of the feature table are joined rows with their features
    added; each has an average speed, distance over duration times 3600,
    that is at most 50.  A joined row whose speed is above 50 is the row of
    no output row, and a joined row whose speed is 50 is in the table: the
    bound is inclusive. *)
Theorem speed_ceiling_inclusive (df_trip_month : list trip)
    (df_stations : list station) :
  (forall f, f ∈ generate_trips_feature_engineering radians sin cos arcsin df_trip_month df_stations ->
     f_row f ∈ add_coordinates df_trip_month df_stations
     /\ average_speed_kmh f
        = mul (div (haversine radians sin cos arcsin (f_row f))
                   (total_seconds (start_time (m_trip (f_row f)))
                                  (end_time (m_trip (f_row f)))))
              (of_Z 3600)
     /\ leb (average_speed_kmh f) (of_Z 50) = true
     /\ ltb (of_Z 50) (average_speed_kmh f) = false)
  /\ (forall r, r ∈ add_coordinates df_trip_month df_stations ->
        ltb (of_Z 50) (average_speed_kmh (add_features radians sin cos arcsin r)) = true ->
        forall f, f ∈ generate_trips_feature_engineering radians sin cos arcsin df_trip_month df_stations ->
          f_row f <> r)
  /\ (forall r, r ∈ add_coordinates df_trip_month df_stations ->
        eqb (average_speed_kmh (add_features radians sin cos arcsin r)) (of_Z 50) = true ->
        add_features radians sin cos arcsin r ∈ generate_trips_feature_engineering radians sin cos arcsin df_trip_month df_stations).
Proof.
  split; [|split].
  - intros f Hf. apply elem_of_features in Hf as (Hspeed & r & -> & Hr).
    rewrite f_row_add_features. split; [assumption|].
    split; [apply average_speed_add_features|].
    unfold speed_limit_condition in Hspeed. split; [assumption|].
    destruct (ltb (of_Z 50) (average_speed_kmh (add_features radians sin cos arcsin r)))
      eqn:E; [|reflexivity].
    apply ltb_not_leb in E. congruence.
  - intros r _ Habove f Hf <-.
    apply elem_of_features in Hf as (Hspeed & r & -> & _).
    rewrite f_row_add_features in Habove.
    apply ltb_not_leb in Habove. unfold speed_limit_condition in Hspeed.
    congruence.
  - intros r Hr Heq. apply elem_of_features. split.
    + unfold speed_limit_condition. now apply eqb_leb.
    + now exists r.
Qed.

(** C7.  Every row of the feature table has a start time; its month is a
    number from 1 to 12 and its season is the season the specification
    gives that month: Winter for months 12, 1 and 2, Spring for 3 to 5,
    Summer for 6 to 8, Autumn for 9 to 11. *)
Theorem season_follows_month (df_trip_month : list trip)
    (df_stations : list station) (f : feature) :
  f ∈ generate_trips_feature_engineering radians sin cos arcsin df_trip_month df_stations ->
  exists t, start_time (m_trip (f_row f)) = Some t
    /\ month f = Some (Calendar.month t)
    /\ 1 <= Calendar.month t <= 12
    /\ season f = Some (season_of_month (Calendar.month t))
    /\ season_of_month 12 = "Winter"%string
    /\ season_of_month 1 = "Winter"%string
    /\ season_of_month 6 = "Summer"%string.
Proof.
  intros Hf. destruct (feature_has_times _ _ _ Hf) as (s & e & Hs & _).
  apply elem_of_features in Hf as (_ & r & -> & _).
  rewrite f_row_add_features in Hs. rewrite f_row_add_features.
  exists s. unfold Features.add_features. cbn [month season]. rewrite Hs. cbn [fmap option_fmap option_map mbind option_bind].
  pose proof (CalendarFacts.month_range s) as Hm.
  split; [reflexivity|]. split; [reflexivity|]. split; [assumption|].
  split; [now apply month_to_season_spec|]. now repeat split.
Qed.
End features.

(** The sample month: the trip at 50 km/h and the slow trip are kept, the
    trip a nanosecond faster and the trip without start time are not. *)
Lemma sample_month_features :
  map (fun f => trip_uuid (m_trip (f_row f)))
      (generate_trips_feature_engineering flat_radians flat_sin flat_cos flat_arcsin
         sample_month [station_a; station_b])
  = [10; 12]
  /\ average_speed_kmh
       (add_features flat_radians flat_sin flat_cos flat_arcsin (sample_row trip_at_50))
     = of_Z 50
  /\ ltb (of_Z 50)
       (average_speed_kmh
          (add_features flat_radians flat_sin flat_cos flat_arcsin (sample_row trip_above_50)))
     = true.
Proof. vm_compute. repeat split. Qed.

(** The ceiling on the sample month: the row of the trip at exactly 50 km/h
    is in the table, and no row of the table is the row of the trip a
    nanosecond faster. *)
Lemma speed_ceiling_inclusive_witness :
  add_features flat_radians flat_sin flat_cos flat_arcsin (sample_row trip_at_50)
    ∈ generate_trips_feature_engineering flat_radians flat_sin flat_cos flat_arcsin
        sample_month [station_a; station_b]
  /\ forall f,
       f ∈ generate_trips_feature_engineering flat_radians flat_sin flat_cos flat_arcsin
             sample_month [station_a; station_b] ->
       f_row f <> sample_row trip_above_50.
Proof.
  destruct (speed_ceiling_inclusive flat_radians flat_sin flat_cos flat_arcsin
              sample_month [station_a; station_b]) as (_ & Habove & Hat).
  split.
  - apply Hat; [|reflexivity].
    apply list_elem_of_In. vm_compute. left. reflexivity.
  - apply Habove; [|reflexivity].
    apply list_elem_of_In. vm_compute. right. left. reflexivity.
Defined.

(** A December trip of the sample month. *)
Lemma season_follows_month_witness :
  exists t,
    start_time (m_trip (f_row (add_features flat_radians flat_sin flat_cos flat_arcsin
                                 (sample_row trip_at_50)))) = Some t
    /\ month (add_features flat_radians flat_sin flat_cos flat_arcsin (sample_row trip_at_50))
       = Some (Calendar.month t)
    /\ 1 <= Calendar.month t <= 12
    /\ season (add_features flat_radians flat_sin flat_cos flat_arcsin (sample_row trip_at_50))
       = Some (season_of_month (Calendar.month t))
    /\ season_of_month 12 = "Winter"%string
    /\ season_of_month 1 = "Winter"%string
    /\ season_of_month 6 = "Summer"%string.
Proof.
  apply (season_follows_month flat_radians flat_sin flat_cos flat_arcsin
           sample_month [station_a; station_b]).
  apply elem_of_features. split; [reflexivity|].
  exists (sample_row trip_at_50). split; [reflexivity|].
  apply list_elem_of_In. vm_compute. left. reflexivity.
Defined.

End FeaturesFacts.

(** * Properties of the trip tables and of the whole pipeline *)

Module TripsFacts.
Import Py Frame FrameFacts Trips TripProps.

Lemma start_quality_condition_ordered (s e : option Z) :
  start_quality_condition s e = true <-> ordered s e.
Proof.
  unfold start_quality_condition, ordered. split.
  - destruct s as [a|], e as [b|]; try discriminate.
    intros H. exists a, b. repeat split. now apply Z.ltb_lt.
  - intros (a & b & -> & -> & H). now apply Z.ltb_lt.
Qed.

Lemma replace_member_type_times old new (t : trip) :
  start_time (replace_member_type old new t) = start_time t
  /\ end_time (replace_member_type old new t) = end_time t.
Proof. unfold replace_member_type. now case_bool_decide. Qed.

Lemma homogenize_member_type_times (t : trip) :
  start_time (homogenize_member_type t) = start_time t
  /\ end_time (homogenize_member_type t) = end_time t.
Proof.
  unfold homogenize_member_type.
  repeat match goal with
  | |- context [replace_member_type ?o ?n ?x] =>
      destruct (replace_member_type_times o n x) as [-> ->]
  end.
  now split.
Qed.

(** Both trip tables hold only trips that end after they start. *)
Lemma metro_trips_ordered df_metro df_stations df_bikes (t : trip) :
  t ∈ generate_metro_trips_dataframe df_metro df_stations df_bikes ->
  ordered (start_time t) (end_time t).
Proof.
  unfold generate_metro_trips_dataframe. intros Ht.
  apply list_elem_of_filter in Ht as [Hq _]. apply Is_true_true in Hq.
  now apply start_quality_condition_ordered.
Qed.

Lemma capital_trips_ordered df_capital df_stations df_bikes df (t : trip) :
  generate_capital_trips_dataframe df_capital df_stations df_bikes = Ok df ->
  t ∈ df -> ordered (start_time t) (end_time t).
Proof.
  unfold generate_capital_trips_dataframe, astype_int.
  destruct (forallb _ _); [|discriminate]. intros [= <-] Ht.
  apply list_elem_of_filter in Ht as [Hq _]. apply Is_true_true in Hq.
  now apply start_quality_condition_ordered.
Qed.

Lemma trips_ordered rng df_metro df_capital st_m bk_m st_c bk_c df_trips
    (ut : Z * trip) :
  generate_trips_dataframe rng df_metro df_capital st_m bk_m st_c bk_c = Ok df_trips ->
  ut ∈ df_trips -> ordered (start_time ut.2) (end_time ut.2).
Proof.
  unfold generate_trips_dataframe.
  destruct (generate_capital_trips_dataframe df_capital st_c bk_c)
    as [df_trips_capital|e] eqn:Ec; [|discriminate].
  cbn [bind]. intros [= <-] Hut.
  rewrite sort_values_Permutation in Hut.
  destruct ut as [u t]. apply elem_of_zip_r in Hut. cbn.
  apply list_elem_of_fmap in Hut as (t0 & -> & Ht0).
  destruct (homogenize_member_type_times t0) as [-> ->].
  apply elem_of_app in Ht0 as [Hm|Hc].
  - now apply metro_trips_ordered in Hm.
  - now apply (capital_trips_ordered _ _ _ _ _ Ec).
Qed.

(** A row of a monthly file comes from a trip of the table, with its two
    instants cut to the microsecond. *)
Lemma monthly_file_row df_trips df_stations df_bikes ym batch (c : curated) :
  (ym, batch) ∈ monthly_files (map_trips_foreign_keys_to_uuids df_trips df_stations df_bikes) ->
  c ∈ batch ->
  exists ut s e, ut ∈ df_trips
    /\ start_time ut.2 = Some s /\ end_time ut.2 = Some e
    /\ c_start_time c = Calendar.strftime_us s
    /\ c_end_time c = Calendar.strftime_us e.
Proof.
  unfold monthly_files. intros Hfile Hc.
  apply list_elem_of_fmap in Hfile as (ym' & [= -> ->] & _).
  apply list_elem_of_omap in Hc as (t & Ht & Hcur).
  unfold group in Ht. apply list_elem_of_filter in Ht as [_ Ht].
  apply list_elem_of_filter in Ht as [_ Ht].
  unfold map_trips_foreign_keys_to_uuids in Ht.
  apply list_elem_of_fmap in Ht as (ut & -> & Hut).
  unfold to_curated in Hcur. cbn in Hcur.
  destruct (start_time ut.2) as [s|] eqn:Es; [|discriminate].
  destruct (end_time ut.2) as [e|] eqn:Ee; [|discriminate].
  cbn in Hcur. injection Hcur as <-. cbn.
  exists ut, s, e. repeat split; assumption.
Qed.

Lemma strftime_us_mono (s e : Z) :
  s < e -> Calendar.strftime_us s <= Calendar.strftime_us e.
Proof.
  intros H. unfold Calendar.strftime_us.
  pose proof (Z.div_le_mono s e 1000 eq_refl ltac:(lia)). lia.
Qed.

End TripsFacts.

Module PipelineFacts.
Import Py Float64 Features FeatureProps Float64Facts TripProps.

Section pipeline.
Variables (radians sin cos arcsin : float -> float).

(** [arcsin] of a value that is not negative is not negative. *)
Hypothesis arcsin_not_negative :
  forall x, not_negative x -> not_negative (arcsin x).

Lemma haversine_not_negative (r : merged) :
  not_negative (haversine radians sin cos arcsin r).
Proof.
  unfold haversine. apply mul_not_negative; [now apply of_Z_not_negative|].
  apply mul_not_negative; [now apply of_Z_not_negative|].
  apply arcsin_not_negative, sqrt_not_negative.
Qed.

(** A trip that takes no time does not pass the speed filter. *)
Lemma instant_trip_dropped (r : merged) (s : Z) :
  start_time (m_trip r) = Some s -> end_time (m_trip r) = Some s ->
  speed_limit_condition (add_features radians sin cos arcsin r) = false.
Proof.
  intros Hs He. unfold speed_limit_condition.
  rewrite FeaturesFacts.average_speed_add_features, Hs, He.
  unfold total_seconds. rewrite Z.sub_diag.
  change (div (of_Z 0) (of_Z Calendar.ns_per_second)) with (S754_zero false).
  apply speed_of_zero_duration, haversine_not_negative.
Qed.

(** C4.  On the trips the pipeline produces, the start is strictly before
    the end: in the trip table of [generate_trips_dataframe], and in the
    feature table computed from any monthly file written from it, where
    the two instants are read back from their microsecond text.  A pair
    of instants that the text makes equal gives a duration of zero and a
    speed that is infinite or NaN, which the speed filter rejects. *)
Theorem start_strictly_before_end
    (getrandbits : Z -> nat -> Z)
    (df_metro df_capital : list Raw.trip)
    (df_stations_metro : list Stations.station) (df_bikes_metro : list Bikes.bike)
    (df_stations_capital : list Stations.station) (df_bikes_capital : list Bikes.bike)
    (df_stations : list Stations.station) (df_bikes : list Bikes.bike)
    (stations_csv : list station)
    (df_trips : list (Z * Trips.trip)) :
  Trips.generate_trips_dataframe getrandbits df_metro df_capital
    df_stations_metro df_bikes_metro df_stations_capital df_bikes_capital
  = Ok df_trips ->
  (forall ut, ut ∈ df_trips ->
     ordered (Trips.start_time ut.2) (Trips.end_time ut.2))
  /\ (forall ym batch f,
        (ym, batch) ∈ Trips.monthly_files
           (Trips.map_trips_foreign_keys_to_uuids df_trips df_stations df_bikes) ->
        f ∈ generate_trips_feature_engineering radians sin cos arcsin
              (map read_trip batch) stations_csv ->
        ordered (start_time (m_trip (f_row f))) (end_time (m_trip (f_row f)))).
Proof.
  intros Htrips. split.
  - intros ut Hut. exact (TripsFacts.trips_ordered _ _ _ _ _ _ _ _ ut Htrips Hut).
  - intros ym batch f Hfile Hf.
    apply FeaturesFacts.elem_of_features in Hf as (Hspeed & r & -> & Hr).
    rewrite FeaturesFacts.f_row_add_features.
    apply FeaturesFacts.elem_of_add_coordinates in Hr.
    apply list_elem_of_fmap in Hr as (c & Hc & Hcin).
    destruct (TripsFacts.monthly_file_row _ _ _ _ _ c Hfile Hcin)
      as (ut & s & e & Hut & Hs & He & Hcs & Hce).
    destruct (TripsFacts.trips_ordered _ _ _ _ _ _ _ _ ut Htrips Hut)
      as (s' & e' & Hs' & He' & Hlt).
    rewrite Hs in Hs'. rewrite He in He'. injection Hs' as <-. injection He' as <-.
    pose proof (TripsFacts.strftime_us_mono s e Hlt) as Hle.
    exists (Trips.c_start_time c), (Trips.c_end_time c).
    rewrite Hc. cbn. split; [reflexivity|]. split; [reflexivity|].
    destruct (Z.eq_dec (Trips.c_start_time c) (Trips.c_end_time c)) as [Heq|Hne];
      [|lia].
    exfalso.
    rewrite (instant_trip_dropped r (Trips.c_start_time c)) in Hspeed;
      [discriminate| |]; rewrite Hc; cbn; congruence.
Qed.
End pipeline.

(** The three Metro rides of station 7 through the pipeline, with the
    stand-in trigonometry: one monthly file, three rows of features. *)
Lemma start_strictly_before_end_witness :
  exists df_trips,
    Trips.generate_trips_dataframe Samples.counting_bits
      StationProps.rides_from_7 [] sample_stations sample_bikes [] [] = Ok df_trips
    /\ map (fun file =>
              length (generate_trips_feature_engineering
                        flat_radians flat_sin flat_cos flat_arcsin
                        (map read_trip file.2) sample_located_stations))
           (Trips.monthly_files
              (Trips.map_trips_foreign_keys_to_uuids df_trips sample_stations sample_bikes))
       = [3%nat]
    /\ (forall ut, ut ∈ df_trips ->
          ordered (Trips.start_time ut.2) (Trips.end_time ut.2))
    /\ (forall ym batch f,
          (ym, batch) ∈ Trips.monthly_files
             (Trips.map_trips_foreign_keys_to_uuids df_trips sample_stations sample_bikes) ->
          f ∈ generate_trips_feature_engineering flat_radians flat_sin flat_cos flat_arcsin
                (map read_trip batch) sample_located_stations ->
          ordered (start_time (m_trip (f_row f))) (end_time (m_trip (f_row f)))).
Proof.
  eexists. split; [vm_compute; reflexivity|]. split; [reflexivity|].
  apply (start_strictly_before_end flat_radians flat_sin flat_cos flat_arcsin
           (fun x _ => eq_refl) Samples.counting_bits
           StationProps.rides_from_7 [] sample_stations sample_bikes [] []).
  vm_compute. reflexivity.
Defined.

End PipelineFacts.

(** * Properties of the demographics table *)

Module DemographicsFacts.
Import Py Frame FrameFacts Demographics DemoProps.
Local Open Scope Qc_scope.

Lemma Qc_two : Q2Qc 2 = 1 + 1.
Proof. apply Qc_is_canon. reflexivity. Qed.

Lemma Qc_half_double (m : Qc) : (m + m) / Q2Qc 2 = m.
Proof.
  rewrite Qc_two. field.
  intros H; apply (f_equal this) in H; vm_compute in H; discriminate H.
Qed.

Lemma Qc_half_nonneg (d : Qc) : 0 <= d -> 0 <= d * / (1 + 1).
Proof.
  intros Hd. rewrite <- (Qcmult_0_l (/ (1 + 1))).
  apply Qcmult_le_compat_r; [assumption|]. vm_compute. discriminate.
Qed.

Lemma Qc_midpoint (a b : Qc) :
  a <= b -> a <= (a + b) / Q2Qc 2 /\ (a + b) / Q2Qc 2 <= b.
Proof.
  intros Hab. rewrite Qc_two.
  pose proof (Qc_half_nonneg _ (proj1 (Qcle_minus_iff a b) Hab)) as Hhalf.
  split; apply Qcle_minus_iff.
  - assert (E : (a + b) / (1 + 1) + - a = (b + - a) * / (1 + 1)).
    { field. intros H; apply (f_equal this) in H; vm_compute in H; discriminate H. }
    now rewrite E.
  - assert (E : b + - ((a + b) / (1 + 1)) = (b + - a) * / (1 + 1)).
    { field. intros H; apply (f_equal this) in H; vm_compute in H; discriminate H. }
    now rewrite E.
Qed.

Section sorted.
Context {A : Type} (le : relation A) `{!PartialOrder le}.

Lemma sorted_lookup_le (l : list A) i j x y :
  StronglySorted le l -> l !! i = Some x -> l !! j = Some y -> (i <= j)%nat -> le x y.
Proof.
  intros Hs. revert i j. induction Hs as [|a l Hs IH Hall]; intros i j Hi Hj Hij.
  - discriminate.
  - destruct i as [|i], j as [|j]; cbn in *; try lia.
    + injection Hi as <-. injection Hj as <-. reflexivity.
    + injection Hi as <-. rewrite Forall_forall in Hall. apply Hall.
      eapply list_elem_of_lookup_2; eauto.
    + apply (IH i j); auto. lia.
Qed.

(** Inserting a value at a place where it fits keeps a list sorted. *)
Lemma sorted_insert (l : list A) (j : nat) (m : A) :
  StronglySorted le l ->
  (forall i x, (i < j)%nat -> l !! i = Some x -> le x m) ->
  (forall i x, (j <= i)%nat -> l !! i = Some x -> le m x) ->
  StronglySorted le (take j l ++ m :: drop j l).
Proof.
  intros Hs Hlow Hhigh.
  rewrite <- (take_drop j l) in Hs.
  apply StronglySorted_app in Hs as (Hcross & Hs1 & Hs2).
  apply StronglySorted_app. split; [|split; [assumption|]].
  - intros x1 x2 Hx1 Hx2. apply elem_of_cons in Hx2 as [->|Hx2].
    + apply list_elem_of_lookup in Hx1 as (i & Hi).
      apply lookup_take_Some in Hi as [Hi Hlt]. eapply Hlow; eauto.
    + now apply Hcross.
  - constructor; [assumption|]. apply Forall_forall. intros x Hx.
    apply list_elem_of_lookup in Hx as (i & Hi). rewrite lookup_drop in Hi.
    eapply Hhigh; [|exact Hi]. lia.
Qed.
End sorted.

Lemma even_half (n : nat) : Nat.even n = true -> n = (2 * (n / 2))%nat.
Proof.
  intros H. apply Nat.even_spec in H as [k ->].
  rewrite Nat.mul_comm, Nat.div_mul by lia. lia.
Qed.

Lemma odd_half (n : nat) : Nat.even n = false -> n = (2 * (n / 2) + 1)%nat.
Proof.
  intros H. assert (Ho : Nat.odd n = true) by (unfold Nat.odd; now rewrite H).
  apply Nat.odd_spec in Ho as [k ->].
  replace (2 * k + 1)%nat with (1 + k * 2)%nat by lia.
  rewrite Nat.div_add by lia. cbn. lia.
Qed.

Lemma insert_Permutation {A} (l : list A) j m :
  take j l ++ m :: drop j l ≡ₚ l ++ [m].
Proof.
  rewrite <- Permutation_middle, Permutation_cons_append.
  now rewrite take_drop.
Qed.

Lemma sorted_median_insert (vs : list Qc) (m : Qc) :
  StronglySorted Qcle vs -> median_of_sorted vs = Some m ->
  exists l', StronglySorted Qcle l' /\ l' ≡ₚ vs ++ [m]
    /\ median_of_sorted l' = Some m.
Proof.
  intros Hs Hm. unfold median_of_sorted in Hm.
  destruct (Nat.even (length vs)) eqn:Heven.
  - pose proof (even_half _ Heven) as Hn. set (k := (length vs / 2)%nat) in *. clearbody k.
    destruct (vs !! (k - 1)%nat) as [a|] eqn:Ea; [|discriminate].
    destruct (vs !! k) as [b|] eqn:Eb; [|discriminate].
    cbn in Hm. injection Hm as Hm.
    assert (Hk : (1 <= k)%nat).
    { apply lookup_lt_Some in Eb. lia. }
    assert (Hab : a <= b) by (apply (sorted_lookup_le Qcle vs (k - 1) k); auto; lia).
    destruct (Qc_midpoint a b Hab) as [Ham Hmb]. rewrite Hm in Ham, Hmb.
    exists (take k vs ++ m :: drop k vs). split; [|split].
    + apply (sorted_insert Qcle vs k m Hs).
      * intros i x Hi Hx. transitivity a; [|assumption].
        apply (sorted_lookup_le Qcle vs i (k - 1)); auto. lia.
      * intros i x Hi Hx. transitivity b; [assumption|].
        apply (sorted_lookup_le Qcle vs k i); auto.
    + apply insert_Permutation.
    + unfold median_of_sorted.
      assert (Hlen : length (take k vs ++ m :: drop k vs) = (2 * k + 1)%nat).
      { rewrite length_app, length_take_le by lia. cbn. rewrite length_drop. lia. }
      rewrite Hlen.
      replace (Nat.even (2 * k + 1)) with false
        by (symmetry; rewrite Nat.add_1_r, Nat.even_succ, <- Nat.negb_even, Nat.even_mul; reflexivity).
      replace ((2 * k + 1) / 2)%nat with k.
      2: { replace (2 * k + 1)%nat with (1 + k * 2)%nat by lia.
           rewrite Nat.div_add by lia. reflexivity. }
      rewrite lookup_app_r; rewrite length_take_le by lia; [|lia].
      now rewrite Nat.sub_diag.
  - pose proof (odd_half _ Heven) as Hn. set (k := (length vs / 2)%nat) in *. clearbody k.
    exists (take (S k) vs ++ m :: drop (S k) vs). split; [|split].
    + apply (sorted_insert Qcle vs (S k) m Hs).
      * intros i x Hi Hx. apply (sorted_lookup_le Qcle vs i k); auto. lia.
      * intros i x Hi Hx. apply (sorted_lookup_le Qcle vs k i); auto. lia.
    + apply insert_Permutation.
    + unfold median_of_sorted.
      assert (Hlen : length (take (S k) vs ++ m :: drop (S k) vs) = (2 * (S k))%nat).
      { rewrite length_app, length_take_le by lia. cbn. rewrite length_drop. lia. }
      rewrite Hlen.
      replace (Nat.even (2 * S k)) with true
        by (symmetry; rewrite Nat.even_mul; reflexivity).
      replace (2 * S k / 2)%nat with (S k)
        by (rewrite Nat.mul_comm, Nat.div_mul; lia).
      replace (S k - 1)%nat with k by lia.
      rewrite (lookup_app_l _ _ k) by (rewrite length_take_le; lia).
      rewrite lookup_take_lt by lia. rewrite Hm. cbn.
      rewrite lookup_app_r; rewrite length_take_le by lia; [|lia].
      rewrite Nat.sub_diag. cbn. now rewrite Qc_half_double.
Qed.

(** Adding its median to a column does not change the median. *)
Lemma median_snoc (series : list (option Qc)) :
  median (series ++ [median series]) = median series.
Proof.
  destruct (median series) as [m|] eqn:Em.
  - unfold median in *. unfold dropna in *. rewrite omap_app. cbn.
    set (vs := merge_sort Qcle (omap id series)) in *.
    assert (Hs : StronglySorted Qcle vs)
      by (apply StronglySorted_merge_sort; apply _).
    destruct (sorted_median_insert vs m Hs Em) as (l' & Hs' & Hp & Hm').
    assert (Heq : merge_sort Qcle (omap id series ++ [m]) = l').
    { apply (Sorted_unique Qcle).
      - apply Sorted_merge_sort, _.
      - now apply StronglySorted_Sorted.
      - rewrite merge_sort_Permutation, Hp. unfold vs.
        now rewrite merge_sort_Permutation. }
    now rewrite Heq.
  - unfold median in *. unfold dropna in *. rewrite omap_app. cbn.
    now rewrite app_nil_r.
Qed.

Lemma cell_median_row z (df : list row) j :
  (j < n_variables)%nat -> cell (median_row z df) j = median (column j df).
Proof.
  intros Hj. unfold cell, median_row. cbn [indicators].
  rewrite list_lookup_fmap.
  rewrite (proj2 (lookup_seq 0 n_variables j j)) by (split; [reflexivity|assumption]).
  reflexivity.
Qed.

Lemma column_app j (df df' : list row) :
  column j (df ++ df') = column j df ++ column j df'.
Proof. unfold column. apply map_app. Qed.

(** The medians of a table to which rows of its medians were added. *)
Lemma median_column_with_medians (df : list row) (zs : list (option zip)) j :
  (j < n_variables)%nat ->
  median (column j (df ++ map (fun z => median_row z df) zs))
  = median (column j df).
Proof.
  intros Hj. induction zs as [|z zs IH] using rev_ind; [now rewrite app_nil_r|].
  rewrite map_app, app_assoc, column_app. cbn.
  rewrite cell_median_row by assumption.
  rewrite <- IH at 1. rewrite median_snoc. exact IH.
Qed.

Lemma median_row_with_medians (df : list row) (zs : list (option zip)) z :
  median_row z (df ++ map (fun z' => median_row z' df) zs) = median_row z df.
Proof.
  unfold median_row. f_equal. apply map_ext_in. intros j Hj.
  apply in_seq in Hj. apply median_column_with_medians. lia.
Qed.





(** A value of a given rank is unique. *)
Lemma has_rank_unique (l : list Qc) k x y :
  has_rank l k x -> has_rank l k y -> x = y.
Proof.
  assert (H : forall a b, a < b -> has_rank l k a -> has_rank l k b -> False).
  { intros a b Hab [_ [_ Ha]] [_ [Hb _]]. unfold below, up_to in *.
    assert (Hle : (length (filter (fun v => Qcle v a) l)
                   <= length (filter (fun v => Qclt v b) l))%nat).
    { clear Ha Hb. induction l as [|v l IH]; [reflexivity|]. rewrite !filter_cons.
      destruct (decide (v <= a)) as [Hva|Hva], (decide (v < b)) as [Hvb|Hvb];
        cbn [length]; try lia.
      exfalso. apply Hvb. eapply Qcle_lt_trans; eauto. }
    lia. }
  intros Hx Hy. destruct (Qc_dec x y) as [[Hlt|Hgt]|Heq]; [| |exact Heq].
  - exfalso. eapply H; eauto.
  - exfalso. eapply H; eauto.
Qed.




(** The median of a column is unique. *)
Lemma is_median_unique (l : list Qc) m m' : is_median l m -> is_median l m' -> m = m'.
Proof.
  intros (lo & hi & Hlo & Hhi & ->) (lo' & hi' & Hlo' & Hhi' & ->).
  now rewrite (has_rank_unique _ _ _ _ Hlo Hlo'), (has_rank_unique _ _ _ _ Hhi Hhi').
Qed.

Lemma query_spec census (zip_codes : list (option string)) :
  query census zip_codes
  = (omap census zip_codes,
     map (fmap ZipText) (filter (fun z => census z = None) zip_codes)).
Proof.
  induction zip_codes as [|z zs IH]; [reflexivity|].
  cbn [query]. rewrite IH. rewrite filter_cons. cbn [omap list_omap].
  destruct (census z) as [r|] eqn:E.
  - destruct (decide (Some r = None)); [discriminate|reflexivity].
  - destruct (decide (None = None)); [reflexivity|contradiction].
Qed.

Section insertion.
Variable median_raises : list (option zip) -> bool.

(** The loop either stops at the first [zip_code] column whose median
    raises, or adds one row of medians per area; the medians are those of
    the table the loop started with. *)
Lemma insert_failed_outcome (df : list row) (done failed : list (option zip)) :
  insert_failed median_raises failed (df ++ map (fun z => median_row z df) done)
  = if existsb median_raises
         (map (fun k => map zip_code df ++ done ++ take k failed)
              (seq 0 (length failed)))
    then Raise TypeError
    else Ok (df ++ map (fun z => median_row z df) (done ++ failed)).
Proof.
  revert done. induction failed as [|z failed IH]; intros done.
  - cbn. now rewrite app_nil_r.
  - cbn [insert_failed length seq map existsb take].
    rewrite map_app, map_map. cbn [median_row zip_code]. rewrite map_id, app_nil_r.
    destruct (median_raises (map zip_code df ++ done)); [reflexivity|].
    cbn [orb]. rewrite median_row_with_medians. rewrite <- app_assoc.
    change (median_row z df :: nil) with (map (fun z => median_row z df) (z :: nil)).
    rewrite <- map_app, IH. rewrite <- seq_shift, map_map.
    rewrite <- (app_assoc done [z] failed). cbn [app].
    replace (map (fun k => map zip_code df ++ (done ++ [z]) ++ take k failed)
                 (seq 0 (length failed)))
      with (map (fun x => map zip_code df ++ done ++ take (S x) (z :: failed))
                (seq 0 (length failed))); [reflexivity|].
    apply map_ext. intros k. cbn [take]. now rewrite <- app_assoc.
Qed.

Lemma demographics_before_imputation_outcome
    (request_census_data : option string -> option row)
    (station_zip_codes : list (option string)) :
  answered request_census_data station_zip_codes <> [] ->
  demographics_before_imputation request_census_data median_raises station_zip_codes
  = if existsb median_raises
         (zip_code_columns (answered request_census_data station_zip_codes)
                           (unanswered request_census_data station_zip_codes))
    then Raise TypeError
    else Ok (answered request_census_data station_zip_codes
             ++ map (fun z => median_row z (answered request_census_data station_zip_codes))
                    (unanswered request_census_data station_zip_codes)).
Proof.
  intros Hne. unfold demographics_before_imputation. rewrite query_spec.
  fold (answered request_census_data station_zip_codes).
  fold (unanswered request_census_data station_zip_codes).
  destruct (answered request_census_data station_zip_codes) as [|r df] eqn:E;
    [contradiction|].
  pose proof (insert_failed_outcome (r :: df) []
                (unanswered request_census_data station_zip_codes)) as H.
  cbn [map app] in H. rewrite app_nil_r in H. exact H.
Qed.
End insertion.





(** ** Imputation *)

Lemma mask_idemp c : mask (mask c) = mask c.
Proof. unfold mask. destruct (is_negative c) eqn:E; [reflexivity|now rewrite E]. Qed.

Lemma mask_not_negative c : is_negative (mask c) = false.
Proof. unfold mask. destruct (is_negative c) eqn:E; [reflexivity|assumption]. Qed.

Lemma lookup_hide_columns (js : list nat) (l : list (option Qc)) (i : nat) :
  fold_left (fun l j => alter mask j l) js l !! i
  = if decide (i ∈ js) then mask <$> l !! i else l !! i.
Proof.
  revert l. induction js as [|j js IH]; intros l; cbn [fold_left].
  - rewrite decide_False; [reflexivity|]. apply not_elem_of_nil.
  - rewrite IH. destruct (decide (i = j)) as [->|Hne].
    + rewrite list_lookup_alter.
      destruct (decide (j ∈ j :: js)) as [_|Hn]; [|exfalso; apply Hn; now left].
      destruct (decide (j = j)) as [_|?]; [|congruence].
      destruct (decide (j ∈ js)), (l !! j); cbn; rewrite ?mask_idemp; reflexivity.
    + rewrite list_lookup_alter_ne by congruence.
      destruct (decide (i ∈ js)) as [Hin|Hnin],
               (decide (i ∈ j :: js)) as [Hin'|Hnin']; try reflexivity.
      * exfalso. apply Hnin'. now right.
      * exfalso. apply elem_of_cons in Hin' as [?|?]; contradiction.
Qed.

Lemma fold_hide_column (js : list nat) (df : list urow) :
  fold_left hide_column js df
  = map (fun r => {| zip_code_uuid := zip_code_uuid r;
                     u_zip_code := u_zip_code r;
                     u_indicators :=
                       fold_left (fun l j => alter mask j l) js (u_indicators r) |}) df.
Proof.
  revert df. induction js as [|j js IH]; intros df; cbn [fold_left].
  - rewrite <- (map_id df) at 1. apply map_ext. now intros [].
  - rewrite IH. unfold hide_column. rewrite map_map. reflexivity.
Qed.

Lemma length_le_width (df : list urow) r :
  r ∈ df -> (length (u_indicators r) <= width df)%nat.
Proof.
  intros Hr. unfold width. apply max_list_elem_of_le.
  apply list_elem_of_fmap. now exists r.
Qed.

(** Hiding the negative values column by column turns every negative cell
    of the table into a missing cell and nothing else. *)
Lemma hide_negative_values_rows (df : list urow) :
  hide_negative_values df = map without_negatives df.
Proof.
  unfold hide_negative_values. rewrite fold_hide_column.
  apply map_ext_in. intros r Hr%list_elem_of_In.
  unfold without_negatives. f_equal.
  apply list_eq. intros i. rewrite lookup_hide_columns, list_lookup_fmap.
  fold mask. destruct (decide (i ∈ hidden_values_columns df)) as [Hin|Hnin];
    [reflexivity|].
  destruct (u_indicators r !! i) as [c|] eqn:Ec; [|reflexivity]. cbn.
  unfold mask. destruct (is_negative c) eqn:Eneg; [|reflexivity].
  exfalso. apply Hnin. unfold hidden_values_columns.
  apply list_elem_of_filter. split.
  - apply existsb_exists. exists r. split; [now apply list_elem_of_In|].
    unfold ucell. now rewrite Ec.
  - apply list_elem_of_In, in_seq. apply lookup_lt_Some in Ec.
    pose proof (length_le_width df r Hr). lia.
Qed.

Lemma total_nonneg (vs : list Qc) : Forall (Qcle 0) vs -> 0 <= foldr Qcplus 0 vs.
Proof.
  induction 1 as [|v vs Hv _ IH]; cbn; [apply Qcle_refl|].
  rewrite <- (Qcplus_0_l 0). now apply Qcplus_le_compat.
Qed.

(** Values that are not negative and sum to zero are all zero. *)
Lemma total_zero (vs : list Qc) :
  Forall (Qcle 0) vs -> foldr Qcplus 0 vs = 0 -> Forall (eq 0) vs.
Proof.
  induction 1 as [|v vs Hv Hvs IH]; cbn; intros Hsum; [constructor|].
  pose proof (total_nonneg vs Hvs) as Hrest.
  assert (Hv0 : v = 0).
  { apply Qcle_antisym; [|assumption].
    rewrite <- Hsum. rewrite <- (Qcplus_0_r v) at 1.
    apply Qcplus_le_compat; [apply Qcle_refl|assumption]. }
  subst v. rewrite Qcplus_0_l in Hsum. constructor; [reflexivity|now apply IH].
Qed.

Lemma is_negative_false (v : Qc) : is_negative (Some v) = false -> 0 <= v.
Proof.
  cbn. intros H. apply bool_decide_eq_false in H. now apply Qcnot_lt_le.
Qed.

Lemma without_negatives_cells (r : urow) c :
  c ∈ u_indicators (without_negatives r) -> is_negative c = false.
Proof.
  cbn. intros Hc. apply list_elem_of_fmap in Hc as (c0 & -> & _).
  apply mask_not_negative.
Qed.

(** In a row whose non-negative cells sum to zero, every such cell is zero. *)
Lemma zero_row_cells (r : urow) :
  row_sum (without_negatives r) = 0 ->
  map (fun c => Some (default 0 c)) (u_indicators (without_negatives r))
  = map (fun _ => Some 0) (u_indicators r).
Proof.
  intros Hsum. unfold row_sum in Hsum.
  assert (Hall : Forall (Qcle 0) (dropna (u_indicators (without_negatives r)))).
  { apply Forall_forall. intros v Hv. apply elem_of_dropna in Hv.
    now apply is_negative_false, (without_negatives_cells r). }
  pose proof (total_zero _ Hall Hsum) as Hzero. rewrite Forall_forall in Hzero.
  cbn [without_negatives u_indicators] in *. rewrite map_map.
  apply map_ext_in. intros c Hc. f_equal. unfold mask.
  destruct (is_negative c) eqn:En; [reflexivity|].
  destruct c as [v|]; [|reflexivity]. cbn. symmetry. apply Hzero.
  apply elem_of_dropna, list_elem_of_fmap. exists (Some v).
  split; [unfold mask; now rewrite En|now apply list_elem_of_In].
Qed.

Lemma prepare_lookup (df : list urow) i :
  prepare df !! i
  = (fun r => if bool_decide (row_sum (without_negatives r) = 0) then
                {| zip_code_uuid := zip_code_uuid r;
                   u_zip_code := Some (default (ZipNumber 0) (u_zip_code r));
                   u_indicators :=
                     map (fun c => Some (default 0 c))
                         (u_indicators (without_negatives r)) |}
              else without_negatives r) <$> df !! i.
Proof.
  unfold prepare, fill_zero_rows. rewrite hide_negative_values_rows.
  rewrite map_map, list_lookup_fmap. reflexivity.
Qed.

(** The cells the imputer is given are missing or not negative. *)
Lemma prepare_cells (df : list urow) i j v :
  at_ (map u_indicators (prepare df)) i j = Some (Some v) -> 0 <= v.
Proof.
  unfold at_. rewrite list_lookup_fmap, prepare_lookup.
  destruct (df !! i) as [r|]; [|discriminate].
  cbn [fmap option_fmap option_map mbind option_bind].
  case_bool_decide as Hz; cbn [u_indicators].
  - rewrite zero_row_cells by assumption. rewrite list_lookup_fmap.
    destruct (u_indicators r !! j); [|discriminate]. cbn.
    intros [= <-]. apply Qcle_refl.
  - intros Hc. apply is_negative_false, (without_negatives_cells r).
    eapply list_elem_of_lookup_2. exact Hc.
Qed.

Lemma same_shape_at {A B} (X : list (list A)) (Xt : list (list B)) i j c :
  same_shape X Xt -> at_ X i j = Some c -> exists v, at_ Xt i j = Some v.
Proof.
  unfold same_shape, at_. intros Hshape Hc.
  apply (f_equal (fun l => l !! i)) in Hshape. rewrite !list_lookup_fmap in Hshape.
  destruct (X !! i) as [row|]; [|discriminate]. cbn in Hc, Hshape.
  destruct (Xt !! i) as [rowt|]; [|discriminate]. cbn in *.
  injection Hshape as Hlen. apply lookup_lt_Some in Hc.
  destruct (lookup_lt_is_Some_2 rowt j) as [v Hv]; [lia|]. now exists v.
Qed.

Lemma at_map_Some (Xt : list (list Qc)) i j :
  at_ (map (map Some) Xt) i j = Some <$> at_ Xt i j.
Proof.
  unfold at_. rewrite list_lookup_fmap.
  destruct (Xt !! i) as [row|]; [|reflexivity]. cbn. apply list_lookup_fmap.
Qed.

Lemma imputed_indicators (df : list urow) (Xt : list (list Qc)) :
  length Xt = length df ->
  map u_indicators
    (zip_with (fun r xs => {| zip_code_uuid := zip_code_uuid r;
                              u_zip_code := u_zip_code r;
                              u_indicators := map Some xs |}) df Xt)
  = map (map Some) Xt.
Proof.
  revert Xt. induction df as [|r df IH]; intros [|xs Xt] Hlen;
    try discriminate; [reflexivity|].
  cbn. f_equal. apply IH. now injection Hlen.
Qed.

Section imputer.
Variable fit_transform : list (list (option Qc)) -> list (list Qc).

(** When the imputer answers with a matrix of the right shape, the call
    returns, and the indicators of the result are the imputer's answer. *)
Lemma impute_hidden_values_returns (df : list urow) :
  same_shape (map u_indicators (prepare df))
             (fit_transform (map u_indicators (prepare df))) ->
  exists out, impute_hidden_values fit_transform df = Ok out
    /\ map u_indicators out
       = map (map Some) (fit_transform (map u_indicators (prepare df))).
Proof.
  intros Hshape. unfold impute_hidden_values.
  rewrite bool_decide_eq_true_2 by exact Hshape.
  eexists. split; [reflexivity|]. apply imputed_indicators.
  apply (f_equal length) in Hshape. now rewrite !length_map in Hshape.
Qed.

(** C8.  A row whose indicators, negative values aside, sum to exactly
    zero reaches the imputer with every cell equal to zero, none missing,
    and has every indicator equal to zero in the result. *)
Theorem zero_rows_stay_zero (df : list urow) :
  same_shape (map u_indicators (prepare df))
             (fit_transform (map u_indicators (prepare df))) ->
  observed_kept (map u_indicators (prepare df))
                (fit_transform (map u_indicators (prepare df))) ->
  exists out, impute_hidden_values fit_transform df = Ok out
    /\ forall i r, df !! i = Some r -> row_sum (without_negatives r) = 0 ->
         u_indicators <$> prepare df !! i = Some (map (fun _ => Some 0) (u_indicators r))
         /\ u_indicators <$> out !! i = Some (map (fun _ => Some 0) (u_indicators r)).
Proof.
  intros Hshape Hkept.
  destruct (impute_hidden_values_returns df Hshape) as (out & Hout & Hind).
  exists out. split; [assumption|]. intros i r Hr Hsum.
  assert (Hprep : u_indicators <$> prepare df !! i
                  = Some (map (fun _ => Some 0) (u_indicators r))).
  { rewrite prepare_lookup, Hr. cbn [fmap option_fmap option_map].
    rewrite bool_decide_eq_true_2 by assumption. cbn [u_indicators].
    now rewrite zero_row_cells. }
  split; [assumption|].
  change (u_indicators <$> out !! i) with (option_map u_indicators (out !! i)).
  change (option_map u_indicators (out !! i)) with (u_indicators <$> out !! i).
  rewrite <- (list_lookup_fmap u_indicators out i).
  change (u_indicators <$> out) with (map u_indicators out).
  rewrite Hind, list_lookup_fmap.
  pose proof Hprep as Hprep'.
  rewrite <- (list_lookup_fmap u_indicators (prepare df) i) in Hprep'.
  change (u_indicators <$> prepare df) with (map u_indicators (prepare df)) in Hprep'.
  pose proof Hshape as Hlen. unfold same_shape in Hlen.
  apply (f_equal (fun l => l !! i)) in Hlen.
  rewrite !list_lookup_fmap in Hlen.
  first [rewrite Hprep in Hlen | rewrite Hprep' in Hlen]. cbn in Hlen.
  destruct (fit_transform (map u_indicators (prepare df)) !! i) as [xs|] eqn:Exs;
    [|discriminate].
  cbn in *. injection Hlen as Hlen. rewrite length_map in Hlen.
  f_equal. apply list_eq. intros j. rewrite !list_lookup_fmap.
  destruct (u_indicators r !! j) as [c|] eqn:Ec; cbn.
  - assert (Hx : at_ (fit_transform (map u_indicators (prepare df))) i j = Some 0).
    { apply Hkept. unfold at_. rewrite Hprep'. cbn. rewrite list_lookup_fmap, Ec.
      reflexivity. }
    unfold at_ in Hx. rewrite Exs in Hx. cbn in Hx. now rewrite Hx.
  - apply lookup_ge_None in Ec. rewrite (lookup_ge_None_2 xs j) by lia.
    reflexivity.
Qed.

(** The cell the imputer is given for a cell of the table: zero in a row
    that sums to zero, the cell itself otherwise, missing if it is
    negative. *)
Lemma prepare_cell (df : list urow) i r j c :
  df !! i = Some r -> u_indicators r !! j = Some c ->
  at_ (map u_indicators (prepare df)) i j
  = Some (if bool_decide (row_sum (without_negatives r) = 0) then Some 0 else mask c).
Proof.
  intros Hr Hc. unfold at_. rewrite list_lookup_fmap, prepare_lookup, Hr.
  cbn [fmap option_fmap option_map mbind option_bind].
  case_bool_decide as Hz; cbn [u_indicators].
  - rewrite zero_row_cells by assumption. now rewrite list_lookup_fmap, Hc.
  - cbn [without_negatives u_indicators]. now rewrite list_lookup_fmap, Hc.
Qed.

Lemma mask_observed c : observed c -> mask c = c.
Proof.
  destruct c as [v|]; [|contradiction]. cbn. intros Hv. unfold mask. cbn.
  rewrite bool_decide_eq_false_2; [reflexivity|]. now apply Qcle_not_lt.
Qed.

Lemma mask_not_observed c : ~ observed c -> mask c = None.
Proof.
  destruct c as [v|]; [|reflexivity]. cbn. intros Hv. unfold mask. cbn.
  rewrite bool_decide_eq_true_2; [reflexivity|]. now apply Qcnot_le_lt.
Qed.

Lemma zero_row_observed (r : urow) j c :
  row_sum (without_negatives r) = 0 -> u_indicators r !! j = Some c ->
  observed c -> c = Some 0.
Proof.
  intros Hsum Hc Hobs. pose proof (zero_row_cells r Hsum) as H.
  apply (f_equal (fun l => l !! j)) in H.
  cbn [without_negatives u_indicators] in H.
  rewrite !list_lookup_fmap, Hc in H. cbn in H.
  rewrite mask_observed in H by exact Hobs.
  destruct c as [v|]; [|contradiction]. cbn in H. congruence.
Qed.

Lemma prepare_widths (df : list urow) :
  map (fun r => length (u_indicators r)) (prepare df)
  = map (fun r => length (u_indicators r)) df.
Proof.
  unfold prepare, fill_zero_rows. rewrite hide_negative_values_rows, !map_map.
  apply map_ext. intros r.
  case_bool_decide; cbn [u_indicators without_negatives]; now rewrite ?length_map.
Qed.

(** C1, as the code has it.  The result has the rows and the columns of
    the table.  A cell the census published, a number that is not negative,
    is in the result as it is.  In a row whose published cells sum to zero
    every cell of the result is zero.  Any other cell, negative or missing,
    in a row that does not sum to zero, is missing when the imputer runs and
    holds in the result the value the imputer returned for it. *)
Theorem observed_values_not_negative (df : list urow) :
  same_shape (map u_indicators (prepare df))
             (fit_transform (map u_indicators (prepare df))) ->
  observed_kept (map u_indicators (prepare df))
                (fit_transform (map u_indicators (prepare df))) ->
  exists out, impute_hidden_values fit_transform df = Ok out
    /\ map (fun r => length (u_indicators r)) out
       = map (fun r => length (u_indicators r)) df
    /\ forall i r j c, df !! i = Some r -> u_indicators r !! j = Some c ->
         (observed c -> at_ (map u_indicators out) i j = Some c)
         /\ (row_sum (without_negatives r) = 0 ->
             at_ (map u_indicators out) i j = Some (Some 0))
         /\ (~ observed c -> row_sum (without_negatives r) <> 0 ->
             at_ (map u_indicators (prepare df)) i j = Some None
             /\ exists v,
                  at_ (fit_transform (map u_indicators (prepare df))) i j = Some v
                  /\ at_ (map u_indicators out) i j = Some (Some v)).
Proof.
  intros Hshape Hkept.
  destruct (impute_hidden_values_returns df Hshape) as (out & Hout & Hind).
  exists out. split; [assumption|]. split.
  { rewrite <- (map_map u_indicators length out), Hind, map_map.
    rewrite <- prepare_widths, <- (map_map u_indicators length (prepare df)).
    unfold same_shape in Hshape. rewrite <- Hshape.
    apply map_ext. intros xs. apply length_map. }
  intros i r j c Hr Hc. pose proof (prepare_cell df i r j c Hr Hc) as Hcell.
  rewrite Hind, at_map_Some.
  split; [|split].
  - intros Hobs. destruct (decide (row_sum (without_negatives r) = 0)) as [Hz|Hz].
    + rewrite bool_decide_eq_true_2 in Hcell by exact Hz.
      rewrite (zero_row_observed r j c Hz Hc Hobs).
      now rewrite (Hkept i j 0 Hcell).
    + rewrite bool_decide_eq_false_2, mask_observed in Hcell by assumption.
      destruct c as [v|]; [|contradiction].
      now rewrite (Hkept i j v Hcell).
  - intros Hz. rewrite bool_decide_eq_true_2 in Hcell by exact Hz.
    now rewrite (Hkept i j 0 Hcell).
  - intros Hobs Hz.
    rewrite bool_decide_eq_false_2, mask_not_observed in Hcell by assumption.
    split; [exact Hcell|].
    destruct (same_shape_at _ _ i j None Hshape Hcell) as [v Hv].
    exists v. split; [assumption|]. now rewrite Hv.
Qed.
End imputer.

(** The stand-in estimators keep the shape and the observed cells. *)
Lemma fill_with_same_shape predict X : same_shape X (fill_with predict X).
Proof.
  unfold same_shape, fill_with. rewrite map_map. apply map_ext.
  intros row. apply length_imap.
Qed.

Lemma fill_with_observed_kept predict X : observed_kept X (fill_with predict X).
Proof.
  unfold observed_kept, fill_with, at_. intros i j v.
  rewrite list_lookup_fmap. destruct (X !! i) as [row|]; [|discriminate]. cbn.
  rewrite list_lookup_imap. now intros ->.
Qed.

(** Three areas, the second without residents and with a suppressed cell,
    completed by the least-squares stand-in. *)
Lemma zero_rows_stay_zero_witness :
  exists out, impute_hidden_values least_squares_imputer empty_area_table = Ok out
    /\ forall i r, empty_area_table !! i = Some r ->
         row_sum (without_negatives r) = 0 ->
         u_indicators <$> prepare empty_area_table !! i
           = Some (map (fun _ => Some 0) (u_indicators r))
         /\ u_indicators <$> out !! i = Some (map (fun _ => Some 0) (u_indicators r)).
Proof.
  apply (zero_rows_stay_zero least_squares_imputer empty_area_table).
  - apply fill_with_same_shape.
  - apply fill_with_observed_kept.
Defined.

Lemma observed_values_not_negative_witness :
  exists out, impute_hidden_values least_squares_imputer suppressed_table = Ok out
    /\ map (fun r => length (u_indicators r)) out
       = map (fun r => length (u_indicators r)) suppressed_table
    /\ forall i r j c, suppressed_table !! i = Some r -> u_indicators r !! j = Some c ->
         (observed c -> at_ (map u_indicators out) i j = Some c)
         /\ (row_sum (without_negatives r) = 0 ->
             at_ (map u_indicators out) i j = Some (Some 0))
         /\ (~ observed c -> row_sum (without_negatives r) <> 0 ->
             at_ (map u_indicators (prepare suppressed_table)) i j = Some None
             /\ exists v,
                  at_ (least_squares_imputer
                         (map u_indicators (prepare suppressed_table))) i j = Some v
                  /\ at_ (map u_indicators out) i j = Some (Some v)).
Proof.
  apply (observed_values_not_negative least_squares_imputer suppressed_table).
  - apply fill_with_same_shape.
  - apply fill_with_observed_kept.
Defined.

(** C1, as stated, fails.  In [suppressed_table] the second indicator is
    the first minus 500 in six areas and is suppressed in the seventh, where
    the first is 100.  An estimator that keeps the shape and the observed
    cells, and fits a line through the six complete rows, completes the
    seventh row with -400: the code does not bound what the imputer
    returns. *)
Lemma imputed_value_can_be_negative :
  same_shape (map u_indicators (prepare suppressed_table))
             (least_squares_imputer (map u_indicators (prepare suppressed_table)))
  /\ observed_kept (map u_indicators (prepare suppressed_table))
                   (least_squares_imputer (map u_indicators (prepare suppressed_table)))
  /\ exists out v,
       impute_hidden_values least_squares_imputer suppressed_table = Ok out
       /\ at_ (map u_indicators out) 6 1 = Some (Some v)
       /\ v = Q2Qc (inject_Z (-400))
       /\ v < 0.
Proof.
  split; [apply fill_with_same_shape|]. split; [apply fill_with_observed_kept|].
  eexists. eexists. split; [reflexivity|]. split; [reflexivity|].
  split; reflexivity.
Qed.

End DemographicsFacts.

(** * Further properties of data_acquisition.py *)

Module AcquisitionLaws.
Import Py Acquisition AcquisitionFacts AcquisitionProps.

Section retry.
Context {Coord : Type}.
Variable get_zip_code : nat -> Z -> Coord -> Coord -> option zip_code.

(** What the inner loop leaves in the dictionary. *)
Lemma retry_loop_dict i lat lon attempts r0 d0 :
  (retry_loop get_zip_code i lat lon attempts r0 d0).2
  = match first_answer get_zip_code i lat lon attempts with
    | Some z => <[i := z]> d0
    | None => d0
    end.
Proof.
  revert r0. induction attempts as [|k attempts IH]; intros r0; [reflexivity|].
  cbn [retry_loop]. unfold first_answer in *. cbn [omap list_omap].
  destruct (get_zip_code i k lat lon) as [z|]; [reflexivity|]. apply IH.
Qed.

Lemma station_loop_dict retries (l : list (Coord * Coord)) n r0 d0 :
  0 < retries ->
  (forall i, (n <= i)%nat -> d0 !! i = None) ->
  exists d, station_loop get_zip_code retries (combine (seq n (length l)) l) r0 d0 = Ok d
    /\ forall i, d !! i
         = if decide (i < n)%nat then d0 !! i
           else l !! (i - n)%nat ≫= fun c => first_answer get_zip_code i c.1 c.2 (range retries).
Proof.
  intros Hpos. revert n r0 d0.
  induction l as [|[lat lon] l IH]; intros n r0 d0 Hd0.
  - exists d0. split; [reflexivity|]. intros i. destruct (decide (i < n)%nat); [reflexivity|].
    rewrite Hd0 by lia. reflexivity.
  - cbn [length seq combine station_loop].
    pose proof (retry_loop_dict n lat lon (range retries) r0 d0) as Hdict.
    destruct (retry_loop get_zip_code n lat lon (range retries) r0 d0) as [r d1] eqn:E.
    cbn [snd] in Hdict.
    apply retry_loop_binds in E as (k & -> & Hin).
    2:{ unfold range. destruct (Z.to_nat retries) eqn:En; [lia|discriminate]. }
    apply range_bound in Hin.
    destruct (Z.eqb_spec (k - 1) retries) as [Heq|_]; [lia|].
    destruct (IH (S n) (Some k) d1) as (d & Hd & Hlook).
    { intros i Hi. rewrite Hdict.
      destruct (first_answer _ _ _ _ _); [rewrite lookup_insert_ne by lia|]; apply Hd0; lia. }
    exists d. split; [exact Hd|]. intros i. rewrite Hlook.
    destruct (decide (i < S n)%nat) as [Hlt|Hge].
    + destruct (decide (i < n)%nat) as [Hlt'|Hge'].
      * rewrite Hdict. destruct (first_answer _ _ _ _ _); [rewrite lookup_insert_ne by lia|]; reflexivity.
      * assert (i = n) as -> by lia. replace (n - n)%nat with 0%nat by lia. cbn.
        rewrite Hdict. destruct (first_answer _ _ _ _ _).
        -- now rewrite lookup_insert_eq.
        -- apply Hd0. lia.
    + destruct (decide (i < n)%nat); [lia|].
      replace (i - n)%nat with (S (i - S n)) by lia. reflexivity.
Qed.

(** Without a single attempt the loop variable is never bound. *)
Lemma no_attempt_outcome (df : list (Coord * Coord)) (retries : Z) :
  retries <= 0 ->
  get_zip_code_by_coordenates get_zip_code df retries
  = match df with [] => Ok ∅ | _ => Raise UnboundLocalError end.
Proof.
  intros Hle. unfold get_zip_code_by_coordenates, enumerate.
  destruct df as [|[lat lon] df]; [reflexivity|].
  cbn [length seq combine station_loop]. unfold range.
  replace (Z.to_nat retries) with 0%nat by lia. reflexivity.
Qed.

(** X1.  With at least one attempt allowed, [get_zip_code_by_coordenates]
    returns a dictionary, whatever the lookups do; the entry of row [i] is
    the answer of the first attempt for that row that does not raise, and a
    row whose attempts all raise, like an index past the table, has no
    entry. *)
Theorem zip_dict_holds_first_answers (df : list (Coord * Coord)) (retries : Z) :
  0 < retries ->
  exists d, get_zip_code_by_coordenates get_zip_code df retries = Ok d
    /\ forall i, d !! i
         = df !! i ≫= fun c => first_answer get_zip_code i c.1 c.2 (range retries).
Proof.
  intros Hpos. unfold get_zip_code_by_coordenates, enumerate.
  destruct (station_loop_dict retries df 0 None ∅ Hpos) as (d & Hd & Hlook).
  { intros i _. apply lookup_empty. }
  exists d. split; [exact Hd|]. intros i. rewrite Hlook.
  destruct (decide (i < 0)%nat); [lia|]. now rewrite Nat.sub_0_r.
Qed.

(** X2.  With [retries] zero or negative no attempt is made: on a table
    with at least one row the test after the inner loop reads [retry_i]
    before anything was assigned to it, and the call raises
    [UnboundLocalError]; on an empty table it returns the empty
    dictionary. *)
Theorem no_attempt_leaves_retry_i_unbound (df : list (Coord * Coord)) (retries : Z) :
  retries <= 0 ->
  get_zip_code_by_coordenates get_zip_code df retries
  = match df with [] => Ok ∅ | _ => Raise UnboundLocalError end.
Proof. apply no_attempt_outcome. Qed.

(** X3.  The two outcomes of [get_zip_code_by_coordenates]: it returns a
    dictionary or it raises [UnboundLocalError].  The [RecursionError] of
    its docstring is not among them, for any table, any number of retries
    and any behaviour of the lookups. *)
Theorem get_zip_code_by_coordenates_outcomes (df : list (Coord * Coord)) (retries : Z) :
  (exists d, get_zip_code_by_coordenates get_zip_code df retries = Ok d)
  \/ get_zip_code_by_coordenates get_zip_code df retries = Raise UnboundLocalError.
Proof.
  destruct (Z.lt_ge_cases 0 retries) as [Hpos|Hle].
  - left. now apply station_loop_returns.
  - rewrite no_attempt_outcome by lia. destruct df; [left; now eexists|now right].
Qed.
End retry.

Lemma zip_dict_holds_first_answers_witness :
  exists d,
    Acquisition.get_zip_code_by_coordenates Samples.lookup_90012 two_places
      Acquisition.default_retries = Ok d
    /\ forall i, d !! i
         = two_places !! i ≫= fun c =>
             first_answer Samples.lookup_90012 i c.1 c.2
               (Acquisition.range Acquisition.default_retries).
Proof.
  apply (zip_dict_holds_first_answers Samples.lookup_90012 two_places
           Acquisition.default_retries).
  reflexivity.
Defined.

Lemma no_attempt_leaves_retry_i_unbound_witness :
  Acquisition.get_zip_code_by_coordenates Samples.lookup_90012 two_places 0
  = Raise UnboundLocalError.
Proof.
  apply (no_attempt_leaves_retry_i_unbound Samples.lookup_90012 two_places 0). lia.
Defined.

End AcquisitionLaws.

(** * Further properties of the bike registries *)

Module BikesLaws.
Import Frame FrameFacts Bikes BikeProps BikesFacts RegistryProps.

Lemma StronglySorted_filter {A} (R : relation A) (P : A -> Prop) `{!forall x, Decision (P x)}
    (l : list A) :
  StronglySorted R l -> StronglySorted R (filter P l).
Proof.
  induction 1 as [|x l Hl IH Hx]; [constructor|].
  rewrite filter_cons. destruct (decide (P x)); [|exact IH].
  constructor; [exact IH|].
  apply Forall_forall. intros y Hy. apply list_elem_of_filter in Hy as [_ Hy].
  rewrite Forall_forall in Hx. now apply Hx.
Qed.

Lemma set_bike_id_same (t : Raw.trip) : Raw.set_bike_id (Raw.bike_id t) t = t.
Proof. now destruct t. Qed.

Lemma fill_row_cases (t : Raw.trip) :
  fill_row t = t
  \/ (Raw.bike_id t = None /\ exists p, fill_row t = Raw.set_bike_id (Some p) t).
Proof.
  unfold fill_row. destruct (Raw.bike_id t) as [b|]; [now left|].
  destruct (Raw.bike_type t) as [kind|]; [|now left].
  destruct (placeholder_of kind) as [p|]; [|now left].
  right. split; [reflexivity|]. now exists p.
Qed.

Lemma fill_row_shape (t : Raw.trip) :
  fill_row t = Raw.set_bike_id (Raw.bike_id (fill_row t)) t
  /\ (is_Some (Raw.bike_id t) -> fill_row t = t)
  /\ fill_row (fill_row t) = fill_row t.
Proof.
  destruct (fill_row_cases t) as [E|(Hnone & p & E)]; rewrite E.
  - split; [now rewrite set_bike_id_same|]. split; [reflexivity|exact E].
  - split; [reflexivity|]. split; [rewrite Hnone; intros [? [=]]|].
    unfold fill_row. reflexivity.
Qed.

(** X4.  The last step of [homogenize_capital_dataset] keeps the number and
    the order of the rows, changes no column but [bike_id], leaves every row
    that has a bike identifier as it is, and has no effect when it is
    applied a second time. *)
Theorem add_missing_bike_ids_keeps_known_ids (df : list Raw.trip) :
  length (Raw.add_missing_bike_ids df) = length df
  /\ (forall i t, df !! i = Some t ->
        exists t', Raw.add_missing_bike_ids df !! i = Some t'
          /\ t' = Raw.set_bike_id (Raw.bike_id t') t
          /\ (is_Some (Raw.bike_id t) -> t' = t))
  /\ Raw.add_missing_bike_ids (Raw.add_missing_bike_ids df) = Raw.add_missing_bike_ids df.
Proof.
  rewrite !add_missing_bike_ids_map. split; [apply length_map|]. split.
  - intros i t Ht. exists (fill_row t). split.
    + change (map fill_row df) with (fill_row <$> df). now rewrite list_lookup_fmap, Ht.
    + destruct (fill_row_shape t) as (H1 & H2 & _). now split.
  - rewrite map_map. apply map_ext. intros t. apply fill_row_shape.
Qed.

Lemma elem_of_insert_uuids us l b :
  b ∈ insert_uuids us l -> (original_bike_id b, bike_type b) ∈ l.
Proof.
  unfold insert_uuids. intros Hb.
  apply elem_of_lookup_zip_with in Hb as (i & u & r & -> & _ & Hr).
  cbn. apply list_elem_of_lookup. exists i. now destruct r.
Qed.

Lemma capital_types_map (df : list (string * option string)) :
  replace_type "electric_bike" "electric"
    (replace_type "docked_bike" "standard"
       (replace_type "classic_bike" "standard" (fill_type "classic_bike" df)))
  = map (fun r => (r.1, Some (capital_label r.2))) df.
Proof.
  unfold replace_type, fill_type. rewrite !map_map. apply map_ext.
  intros [k [ty|]]; cbn.
  - destruct (decide (ty = "classic_bike"%string)) as [->|H1]; [reflexivity|].
    rewrite (bool_decide_eq_false_2 (Some ty = Some "classic_bike"%string)) by congruence.
    rewrite (bool_decide_eq_false_2 (ty = "classic_bike"%string)) by congruence. cbn.
    destruct (decide (ty = "docked_bike"%string)) as [->|H2]; [reflexivity|].
    rewrite (bool_decide_eq_false_2 (Some ty = Some "docked_bike"%string)) by congruence.
    rewrite (bool_decide_eq_false_2 (ty = "docked_bike"%string)) by congruence. cbn.
    destruct (decide (ty = "electric_bike"%string)) as [->|H3]; [reflexivity|].
    rewrite (bool_decide_eq_false_2 (Some ty = Some "electric_bike"%string)) by congruence.
    rewrite (bool_decide_eq_false_2 (ty = "electric_bike"%string)) by congruence.
    reflexivity.
  - reflexivity.
Qed.

Lemma capital_label_not_raw (m : option string) :
  capital_label m <> "classic_bike"%string
  /\ capital_label m <> "docked_bike"%string
  /\ capital_label m <> "electric_bike"%string.
Proof.
  destruct m as [ty|]; cbn; [|repeat split; discriminate].
  destruct (decide (ty = "classic_bike"%string)) as [->|H1];
    [repeat split; discriminate|].
  rewrite (bool_decide_eq_false_2 (ty = "classic_bike"%string)) by congruence.
  destruct (decide (ty = "docked_bike"%string)) as [->|H2];
    [repeat split; discriminate|].
  rewrite (bool_decide_eq_false_2 (ty = "docked_bike"%string)) by congruence.
  destruct (decide (ty = "electric_bike"%string)) as [->|H3];
    [repeat split; discriminate|].
  rewrite (bool_decide_eq_false_2 (ty = "electric_bike"%string)) by congruence.
  now repeat split.
Qed.

(** X5.  The type of a row of the Capital bike registry is the label of
    the most frequent type seen with that bike, the least one in the order
    of strings when several are: [standard] when no type was seen or that
    type is [classic_bike] or [docked_bike], [electric] when it is
    [electric_bike], and the type itself otherwise.  So no row has a null
    type or one of the three Capital labels. *)
Theorem capital_bike_types_homogenized rng (df_capital : list Raw.trip) (b : bike) :
  b ∈ generate_capital_bikes_dataframe rng df_capital ->
  (exists m,
     match m with
     | Some ty =>
         Props.least_most_frequent string_le ty
           (dropna (bike_types_seen df_capital (original_bike_id b)))
     | None => dropna (bike_types_seen df_capital (original_bike_id b)) = []
     end
     /\ bike_type b = Some (capital_label m))
  /\ exists ty, bike_type b = Some ty
       /\ ty <> "classic_bike"%string /\ ty <> "docked_bike"%string
       /\ ty <> "electric_bike"%string.
Proof.
  unfold generate_capital_bikes_dataframe. intros Hb.
  apply elem_of_insert_uuids in Hb.
  rewrite capital_types_map in Hb.
  apply list_elem_of_fmap in Hb as (r0 & E & Hr0). injection E as Ek Et.
  unfold valid_ids in Hr0. apply list_elem_of_filter in Hr0 as [_ Hr0].
  unfold bike_groups in Hr0.
  apply list_elem_of_fmap in Hr0 as (k & -> & _). cbn [fst snd] in Ek, Et.
  rewrite Ek, Et. fold (bike_types_seen df_capital k). split.
  - exists (safe_mode string_le (bike_types_seen df_capital k)).
    split; [|reflexivity].
    destruct (safe_mode string_le (bike_types_seen df_capital k)) as [ty|] eqn:Em.
    + apply safe_mode_Some in Em; [exact Em|apply _..].
    + apply safe_mode_None in Em; [exact Em|apply _..].
  - eexists. split; [reflexivity|]. apply capital_label_not_raw.
Qed.

Lemma metro_registry_ids rng (df : list Raw.trip) :
  map original_bike_id (generate_metro_bikes_dataframe rng df)
  = filter (fun k => (4 <= count_digits k)%nat)
      (group_keys string_le (map (fun t => Some (astype_str (Raw.bike_id t))) df)).
Proof.
  unfold generate_metro_bikes_dataframe.
  rewrite insert_uuids_ids by apply uuids_length.
  now rewrite valid_ids_ids, bike_groups_ids.
Qed.

Lemma registry_ids_spec (df : list Raw.trip) :
  let ids := filter (fun k => (4 <= count_digits k)%nat)
      (group_keys string_le (map (fun t => Some (astype_str (Raw.bike_id t))) df)) in
  NoDup ids
  /\ StronglySorted string_le ids
  /\ (forall k, k ∈ ids <->
        (4 <= count_digits k)%nat /\ exists t, t ∈ df /\ astype_str (Raw.bike_id t) = k).
Proof.
  cbn zeta. split; [|split].
  - apply NoDup_filter, NoDup_group_keys; apply _.
  - apply StronglySorted_filter. apply Sorted_StronglySorted; [apply _|].
    unfold group_keys. apply Sorted_merge_sort; apply _.
  - intros k. rewrite list_elem_of_filter, elem_of_group_keys by apply _.
    rewrite list_elem_of_fmap. split.
    + intros [Hd (t & [= ->] & Ht)]. split; [exact Hd|]. now exists t.
    + intros [Hd (t & Ht & <-)]. split; [exact Hd|]. now exists t.
Qed.

(** X6.  In both bike registries the identifiers are distinct and in
    ascending order of their text, and an identifier is in the registry
    exactly when it is the text of the bike identifier of some trip and
    holds at least four digits; the [nan] that stands for a missing
    identifier holds none and is never registered. *)
Theorem bike_registry_ids (rng : Z -> nat -> Z) (df_metro df_capital : list Raw.trip) :
  let metro := map original_bike_id (generate_metro_bikes_dataframe rng df_metro) in
  let capital := map original_bike_id (generate_capital_bikes_dataframe rng df_capital) in
  (NoDup metro /\ StronglySorted string_le metro
   /\ forall k, k ∈ metro <->
        (4 <= count_digits k)%nat
        /\ exists t, t ∈ df_metro /\ astype_str (Raw.bike_id t) = k)
  /\ (NoDup capital /\ StronglySorted string_le capital
      /\ forall k, k ∈ capital <->
           (4 <= count_digits k)%nat
           /\ exists t, t ∈ df_capital /\ astype_str (Raw.bike_id t) = k).
Proof.
  cbn zeta. rewrite metro_registry_ids, capital_registry_ids.
  split; apply registry_ids_spec.
Qed.

(** X7.  The bike type of a row of the Metro bike registry is the least, in
    the order of strings, of the types seen most often among the distinct
    rows (identifier, type) of that bike; it is null exactly when no type
    was seen with the bike. *)
Theorem metro_bike_type_resolved rng (df_metro : list Raw.trip) (b : bike) :
  b ∈ generate_metro_bikes_dataframe rng df_metro ->
  match bike_type b with
  | Some ty =>
      Props.least_most_frequent string_le ty
        (dropna (bike_types_seen df_metro (original_bike_id b)))
  | None => dropna (bike_types_seen df_metro (original_bike_id b)) = []
  end.
Proof.
  unfold generate_metro_bikes_dataframe. intros Hb.
  apply elem_of_insert_uuids in Hb. unfold valid_ids in Hb.
  apply list_elem_of_filter in Hb as [_ Hb]. unfold bike_groups in Hb.
  apply list_elem_of_fmap in Hb as (k & E & _). injection E as Ek Et.
  rewrite Ek, Et. fold (bike_types_seen df_metro k).
  destruct (safe_mode string_le (bike_types_seen df_metro k)) as [ty|] eqn:Em.
  - apply safe_mode_Some in Em; [exact Em|apply _..].
  - apply safe_mode_None in Em; [exact Em|apply _..].
Qed.

Lemma capital_bike_types_homogenized_witness :
  standard_bike 3000 "0000_classic"
    ∈ Bikes.generate_capital_bikes_dataframe Samples.counting_bits capital_sample
  /\ (exists m,
        match m with
        | Some ty =>
            Props.least_most_frequent string_le ty
              (dropna (bike_types_seen capital_sample
                         (original_bike_id (standard_bike 3000 "0000_classic"))))
        | None =>
            dropna (bike_types_seen capital_sample
                      (original_bike_id (standard_bike 3000 "0000_classic"))) = []
        end
        /\ bike_type (standard_bike 3000 "0000_classic") = Some (capital_label m))
  /\ exists ty, Bikes.bike_type (standard_bike 3000 "0000_classic") = Some ty
       /\ ty <> "classic_bike"%string /\ ty <> "docked_bike"%string
       /\ ty <> "electric_bike"%string.
Proof.
  assert (H : standard_bike 3000 "0000_classic"
                ∈ Bikes.generate_capital_bikes_dataframe Samples.counting_bits
                    capital_sample)
    by (vm_compute; left).
  split; [exact H|].
  exact (capital_bike_types_homogenized Samples.counting_bits capital_sample _ H).
Defined.

Lemma metro_bike_type_resolved_witness :
  standard_bike 2000 "12345"
    ∈ Bikes.generate_metro_bikes_dataframe Samples.counting_bits StationProps.rides_from_7
  /\ Props.least_most_frequent string_le "standard"%string
       (dropna (bike_types_seen StationProps.rides_from_7 "12345")).
Proof.
  assert (H : standard_bike 2000 "12345"
                ∈ Bikes.generate_metro_bikes_dataframe Samples.counting_bits
                    StationProps.rides_from_7)
    by (vm_compute; left).
  split; [exact H|].
  exact (metro_bike_type_resolved Samples.counting_bits StationProps.rides_from_7 _ H).
Defined.

End BikesLaws.

(** * Further properties of the station registries *)

Module StationsLaws.
Import Py Frame FrameFacts Stations StationProps StationsFacts.
Import AcquisitionProps AcquisitionLaws RegistryProps.

Section sign.
Local Open Scope Qc_scope.

Lemma Qcopp_neg_pos (v : Qc) : - v < 0 <-> 0 < v.
Proof.
  rewrite (Qclt_minus_iff (- v) 0). rewrite Qcopp_involutive, Qcplus_0_l. reflexivity.
Qed.

Lemma Qcopp_pos_neg (v : Qc) : 0 < - v <-> v < 0.
Proof.
  rewrite (Qclt_minus_iff v 0). rewrite Qcplus_0_l. reflexivity.
Qed.

Lemma sign_opp (v : Qc) : sign (- v) = - sign v.
Proof.
  unfold sign.
  destruct (decide (v < 0)) as [Hn|Hn], (decide (0 < v)) as [Hp|Hp].
  - exfalso. apply (Qclt_not_le _ _ Hn). now apply Qclt_le_weak.
  - rewrite (decide_False (P := - v < 0)) by now rewrite Qcopp_neg_pos.
    rewrite (decide_True (P := 0 < - v)) by now rewrite Qcopp_pos_neg. reflexivity.
  - rewrite (decide_True (P := - v < 0)) by now rewrite Qcopp_neg_pos. reflexivity.
  - rewrite (decide_False (P := - v < 0)) by now rewrite Qcopp_neg_pos.
    rewrite (decide_False (P := 0 < - v)) by now rewrite Qcopp_pos_neg. reflexivity.
Qed.

Lemma sign_values (v : Qc) :
  (v < 0 /\ sign v = -1) \/ (v = 0 /\ sign v = 0) \/ (0 < v /\ sign v = 1).
Proof.
  unfold sign.
  destruct (decide (v < 0)) as [Hn|Hn]; [now left|].
  destruct (decide (0 < v)) as [Hp|Hp]; [now right; right|].
  right; left. split; [|reflexivity].
  apply Qcle_antisym; [now apply Qcnot_lt_le|now apply Qcnot_lt_le].
Qed.

Lemma Qcmult_minus_one (v : Qc) : v * -1 = - v.
Proof. ring. Qed.

(** The sign of a flipped value is the city's, when that is not zero and
    the value is not zero. *)
Lemma sign_flip (v city : Qc) :
  city <> 0 -> v <> 0 -> sign v <> sign city -> sign (- v) = sign city.
Proof.
  intros Hc Hv Hs. rewrite sign_opp.
  destruct (sign_values v) as [[_ E]|[[E _]|[_ E]]]; [|contradiction|];
    destruct (sign_values city) as [[_ E']|[[E' _]|[_ E']]]; try contradiction;
    rewrite E, E' in *; try reflexivity; try contradiction.
Qed.

Lemma rectify_settles (city tolerance : Qc) (x : option Qc) :
  (x = None -> rectify city tolerance x = None)
  /\ (forall v, x = Some v ->
        exists v', rectify city tolerance x = Some v'
          /\ Qcabs v' = Qcabs v
          /\ (sign v = sign city -> v' = v)
          /\ (city <> 0 -> v' <> 0 ->
              Qcabs (Qcabs v' - Qcabs city) <= tolerance -> sign v' = sign city))
  /\ (city <> 0 ->
      rectify city tolerance (rectify city tolerance x) = rectify city tolerance x).
Proof.
  split; [now intros ->|]. split.
  - intros v ->. unfold rectify.
    destruct (bool_decide (Qcabs (Qcabs v - Qcabs city) <= tolerance)) eqn:Ein;
      destruct (bool_decide (sign v <> sign city)) eqn:Esg; cbn [andb].
    + apply bool_decide_eq_true in Esg. exists (v * -1). rewrite Qcmult_minus_one.
      split; [reflexivity|]. split; [apply Qcabs_opp|]. split; [contradiction|].
      intros Hc Hv _. apply sign_flip; [exact Hc| |exact Esg].
      intros ->. now apply Hv.
    + apply bool_decide_eq_false in Esg. exists v. repeat split.
      intros _ _ _. destruct (decide (sign v = sign city)); [assumption|contradiction].
    + apply bool_decide_eq_false in Ein. exists v. repeat split.
      intros _ _ Hin. contradiction.
    + apply bool_decide_eq_false in Ein. exists v. repeat split.
      intros _ _ Hin. contradiction.
  - intros Hc. destruct x as [v|]; [|reflexivity].
    assert (Hcase : rectify city tolerance (Some v) = Some v
                    \/ (rectify city tolerance (Some v) = Some (- v)
                        /\ bool_decide (Qcabs (Qcabs v - Qcabs city) <= tolerance) = true
                        /\ sign v <> sign city)).
    { unfold rectify.
      destruct (bool_decide (Qcabs (Qcabs v - Qcabs city) <= tolerance)) eqn:Ein;
        destruct (bool_decide (sign v <> sign city)) eqn:Esg; cbn [andb];
        try (now left).
      right. rewrite Qcmult_minus_one. apply bool_decide_eq_true in Esg. now repeat split. }
    destruct Hcase as [E|(E & Ein & Esg)]; rewrite E; [exact E|].
    destruct (decide (v = 0)) as [->|Hv].
    + replace (- 0) with 0 in * by ring. exact E.
    + unfold rectify. rewrite Qcabs_opp, Ein. cbn [andb].
      rewrite (bool_decide_eq_false_2 (sign (- v) <> sign city)); [reflexivity|].
      intros H. apply H. now apply sign_flip.
Qed.

Lemma rectify_cell (city tolerance : Qc) (x : option Qc) :
  city <> 0 ->
  rectify city tolerance (rectify city tolerance x) = rectify city tolerance x
  /\ Qcabs <$> rectify city tolerance x = Qcabs <$> x
  /\ (sign <$> x = Some (sign city) -> rectify city tolerance x = x)
  /\ (forall v, rectify city tolerance x = Some v -> v <> 0 ->
        Qcabs (Qcabs v - Qcabs city) <= tolerance -> sign v = sign city).
Proof.
  intros Hc. destruct (rectify_settles city tolerance x) as (Hnone & Hsome & Hidem).
  split; [now apply Hidem|].
  destruct x as [v|].
  - destruct (Hsome v eq_refl) as (v' & E & Habs & Hsame & Hsign). rewrite E. cbn.
    split; [now rewrite Habs|]. split.
    + intros [= Hs]. now rewrite (Hsame Hs).
    + intros w [= <-]. now apply Hsign.
  - rewrite (Hnone eq_refl). split; [reflexivity|]. split; [reflexivity|discriminate].
Qed.

(** X8.  Around a city whose two coordinates are not zero,
    [rectify_coordinates] applied twice gives what it gives applied once. It
    keeps the rows, their identifiers and names and the magnitude of every
    coordinate; a coordinate that has the sign of the city's is not touched,
    and afterwards every coordinate that is not zero and whose magnitude is
    within the tolerance of the city's has the sign of the city's. *)
Theorem rectify_coordinates_settles (df_stations : list mention)
    (city_latitude city_longitude tolerance : Qc) :
  city_latitude <> 0 -> city_longitude <> 0 ->
  rectify_coordinates
    (rectify_coordinates df_stations city_latitude city_longitude tolerance)
    city_latitude city_longitude tolerance
  = rectify_coordinates df_stations city_latitude city_longitude tolerance
  /\ forall i m, df_stations !! i = Some m ->
       exists m',
         rectify_coordinates df_stations city_latitude city_longitude tolerance !! i
         = Some m'
         /\ station_id m' = station_id m /\ station_name m' = station_name m
         /\ Qcabs <$> lat m' = Qcabs <$> lat m
         /\ Qcabs <$> lon m' = Qcabs <$> lon m
         /\ (sign <$> lat m = Some (sign city_latitude) -> lat m' = lat m)
         /\ (sign <$> lon m = Some (sign city_longitude) -> lon m' = lon m)
         /\ (forall v, lat m' = Some v -> v <> 0 ->
               Qcabs (Qcabs v - Qcabs city_latitude) <= tolerance ->
               sign v = sign city_latitude)
         /\ (forall v, lon m' = Some v -> v <> 0 ->
               Qcabs (Qcabs v - Qcabs city_longitude) <= tolerance ->
               sign v = sign city_longitude).
Proof.
  intros Ha Hb. split.
  - unfold rectify_coordinates. rewrite map_map. apply map_ext. intros m. cbn.
    destruct (rectify_cell city_latitude tolerance (lat m) Ha) as [-> _].
    destruct (rectify_cell city_longitude tolerance (lon m) Hb) as [-> _].
    reflexivity.
  - intros i m Hm. unfold rectify_coordinates.
    match goal with |- context [map ?f df_stations] =>
      change (map f df_stations) with (f <$> df_stations) end.
    rewrite list_lookup_fmap, Hm. cbn. eexists. split; [reflexivity|]. cbn.
    destruct (rectify_cell city_latitude tolerance (lat m) Ha) as (_ & H1 & H2 & H3).
    destruct (rectify_cell city_longitude tolerance (lon m) Hb) as (_ & H4 & H5 & H6).
    repeat split; assumption.
Qed.

End sign.

Lemma StronglySorted_lt (ids : list Z) :
  Sorted Z.le ids -> NoDup ids -> StronglySorted Z.lt ids.
Proof.
  intros Hs Hn. apply (Sorted_StronglySorted Z.le) in Hs.
  induction Hs as [|x l Hl IH Hx]; [constructor|].
  apply NoDup_cons in Hn as [Hx' Hn]. constructor; [now apply IH|].
  rewrite Forall_forall in *. intros y Hy. specialize (Hx y Hy).
  assert (x <> y) by (intros ->; contradiction). lia.
Qed.

Lemma group_keys_ascending (keys : list (option Z)) :
  StronglySorted Z.lt (group_keys Z.le keys).
Proof.
  apply StronglySorted_lt.
  - unfold group_keys. apply Sorted_merge_sort; apply _.
  - apply NoDup_group_keys; apply _.
Qed.

Lemma aggregate_coordinates (df : list mention) (r : mention) :
  (forall m, m ∈ df -> is_Some (lat m) /\ is_Some (lon m)) ->
  r ∈ aggregate df -> is_Some (lat r) /\ is_Some (lon r).
Proof.
  intros Hdf Hr. unfold aggregate in Hr.
  apply list_elem_of_fmap in Hr as (k & -> & Hk). cbn.
  apply elem_of_group_keys in Hk; [|apply _..].
  apply list_elem_of_fmap in Hk as (m & Hid & Hm).
  destruct (Hdf m Hm) as [[la Hla] [lo Hlo]].
  assert (Hg : m ∈ group station_id k df).
  { unfold group. apply list_elem_of_filter. now split. }
  split.
  - destruct (safe_mode Qcle (map lat (group station_id k df))) eqn:E; [now eexists|].
    apply safe_mode_None in E; [|apply _..].
    assert (Hin : la ∈ dropna (map lat (group station_id k df))).
    { apply elem_of_dropna. rewrite <- Hla. apply list_elem_of_fmap. now exists m. }
    rewrite E in Hin. now apply elem_of_nil in Hin.
  - destruct (safe_mode Qcle (map lon (group station_id k df))) eqn:E; [now eexists|].
    apply safe_mode_None in E; [|apply _..].
    assert (Hin : lo ∈ dropna (map lon (group station_id k df))).
    { apply elem_of_dropna. rewrite <- Hlo. apply list_elem_of_fmap. now exists m. }
    rewrite E in Hin. now apply elem_of_nil in Hin.
Qed.

Lemma rectify_is_Some city tol x : is_Some (rectify city tol x) <-> is_Some x.
Proof.
  unfold rectify. destruct x as [v|]; [|reflexivity].
  destruct (_ && _); split; intros _; eexists; reflexivity.
Qed.

(** The rows both station registries are built from: the joined trip ends
    with both coordinates, aggregated by identifier and rectified. *)
Lemma registry_rows_shape (joined : list mention) (a b tol : Qc) :
  let rows :=
    rectify_coordinates
      (aggregate (filter (fun m => is_Some (lat m) /\ is_Some (lon m))
                         (drop_duplicates joined))) a b tol in
  (exists ids, map station_id rows = map Some ids /\ StronglySorted Z.lt ids)
  /\ Forall (fun m => is_Some (lat m) /\ is_Some (lon m)) rows.
Proof.
  cbn zeta. split.
  - eexists. rewrite rectify_coordinates_ids, aggregate_ids. split; [reflexivity|].
    apply group_keys_ascending.
  - apply Forall_forall. intros m Hm. unfold rectify_coordinates in Hm.
    apply list_elem_of_fmap in Hm as (m0 & -> & Hm0). cbn.
    rewrite !rectify_is_Some. revert Hm0. apply aggregate_coordinates.
    intros m Hm. now apply list_elem_of_filter in Hm as [Hm _].
Qed.

Lemma enumerate_lookup {A} (l : list A) i :
  Acquisition.enumerate l !! i = (fun x => (i, x)) <$> l !! i.
Proof.
  unfold Acquisition.enumerate.
  change (combine (seq 0 (length l)) l) with (zip (seq 0 (length l)) l).
  destruct (l !! i) as [x|] eqn:E; cbn.
  - apply lookup_zip_with_Some. exists i, x. split; [reflexivity|]. split; [|exact E].
    apply lookup_seq. split; [reflexivity|]. now apply lookup_lt_Some in E.
  - apply lookup_zip_with_None. right. exact E.
Qed.

Lemma lookup_fmap_imap {A B} (G : nat -> A -> B) (reg : list B) (rows : list A) :
  (forall i, reg !! i = G i <$> rows !! i) -> reg = imap G rows.
Proof.
  intros H. apply list_eq. intros i. now rewrite H, list_lookup_imap.
Qed.

Lemma elem_of_group_keys_any {K} `{EqDecision K} (le : relation K) `{!RelDecision le}
    (keys : list (option K)) k :
  k ∈ group_keys le keys <-> Some k ∈ keys.
Proof.
  unfold group_keys. rewrite merge_sort_Permutation, elem_of_drop_duplicates.
  apply elem_of_dropna.
Qed.

Lemma forallb_false {A} (f : A -> bool) (l : list A) :
  forallb f l = false -> exists x, x ∈ l /\ f x = false.
Proof.
  induction l as [|x l IH]; [discriminate|]. cbn.
  destruct (f x) eqn:E; cbn.
  - intros H. destruct (IH H) as (y & Hy & Hf). exists y. split; [now right|exact Hf].
  - intros _. exists x. split; [now left|exact E].
Qed.

Lemma count_digits_nan : count_digits "nan" = 0%nat.
Proof. reflexivity. Qed.

Section registry.
Variable get_zip_code : nat -> Z -> option Qc -> option Qc -> option Acquisition.zip_code.
Variable getrandbits : Z -> nat -> Z.

Lemma registry_lookup (town : string) (seed : Z) (rows : list mention) :
  exists reg,
    bind (Acquisition.get_zip_code_by_coordenates get_zip_code
            (map (fun m => (lat m, lon m)) rows) Acquisition.default_retries)
      (fun zip_dict =>
         Ok (zip_with
               (fun u (im : nat * mention) =>
                  {| station_uuid := u;
                     original_station_id := station_id im.2;
                     latitude := lat im.2; longitude := lon im.2;
                     name := station_name im.2;
                     zip_code := zip_cell zip_dict im.1;
                     city := town |})
               (uuids getrandbits seed (length rows)) (Acquisition.enumerate rows)))
    = Ok reg
    /\ forall i, reg !! i
         = (fun m => {| station_uuid := getrandbits seed i;
                        original_station_id := station_id m;
                        latitude := lat m; longitude := lon m;
                        name := station_name m;
                        zip_code := zip_of get_zip_code i m;
                        city := town |}) <$> rows !! i.
Proof.
  destruct (station_loop_dict get_zip_code Acquisition.default_retries
              (map (fun m => (lat m, lon m)) rows) 0 None ∅) as (d & Hd & Hlook);
    [reflexivity|intros i _; apply lookup_empty|].
  unfold Acquisition.get_zip_code_by_coordenates, Acquisition.enumerate at 1.
  rewrite Hd. cbn [bind]. eexists. split; [reflexivity|]. intros i.
  destruct (rows !! i) as [m|] eqn:E; cbn.
  - apply lookup_zip_with_Some. exists (getrandbits seed i), (i, m).
    split; [|split].
    + cbn. f_equal. unfold zip_cell, zip_of. rewrite Hlook.
      destruct (decide (i < 0)%nat); [lia|]. rewrite Nat.sub_0_r.
      change (map (fun m => (lat m, lon m)) rows) with ((fun m => (lat m, lon m)) <$> rows).
      rewrite list_lookup_fmap, E. reflexivity.
    + unfold uuids. change (map (getrandbits seed) (seq 0 (length rows)))
        with (getrandbits seed <$> seq 0 (length rows)).
      rewrite list_lookup_fmap, lookup_seq_lt; [reflexivity|]. now apply lookup_lt_Some in E.
    + now rewrite enumerate_lookup, E.
  - apply lookup_zip_with_None. right. now rewrite enumerate_lookup, E.
Qed.

(** What the rows of a registry look like, from the lookup lemma. *)
Lemma registry_shape (town : string) (seed : Z) (rows : list mention) (reg : list station) :
  (forall i, reg !! i
     = (fun m => {| station_uuid := getrandbits seed i;
                    original_station_id := station_id m;
                    latitude := lat m; longitude := lon m;
                    name := station_name m;
                    zip_code := zip_of get_zip_code i m;
                    city := town |}) <$> rows !! i) ->
  (exists ids, map station_id rows = map Some ids /\ StronglySorted Z.lt ids) ->
  Forall (fun m => is_Some (lat m) /\ is_Some (lon m)) rows ->
  (exists ids, map original_station_id reg = map Some ids /\ StronglySorted Z.lt ids)
  /\ Forall (fun s => is_Some (latitude s) /\ is_Some (longitude s) /\ city s = town) reg
  /\ map station_uuid reg = uuids getrandbits seed (length reg)
  /\ forall i s, reg !! i = Some s ->
       zip_code s
       = match first_answer get_zip_code i (latitude s) (longitude s)
                 (Acquisition.range Acquisition.default_retries) with
         | Some (Acquisition.Zip z) => Some z
         | _ => None
         end.
Proof.
  intros Hlook (ids & Hids & Hsorted) Hcoords.
  split; [|split; [|split]].
  - exists ids. split; [|exact Hsorted]. rewrite <- Hids.
    apply list_eq. intros i.
    change (map original_station_id reg) with (original_station_id <$> reg).
    change (map station_id rows) with (station_id <$> rows).
    rewrite !list_lookup_fmap, Hlook. now destruct (rows !! i).
  - apply Forall_forall. intros s Hs. apply list_elem_of_lookup in Hs as [i Hs].
    rewrite Hlook in Hs. destruct (rows !! i) as [m|] eqn:E; [|discriminate].
    injection Hs as <-. cbn. rewrite Forall_forall in Hcoords.
    destruct (Hcoords m) as [? ?]; [now apply list_elem_of_lookup_2 in E|]. now repeat split.
  - apply list_eq. intros i. unfold uuids.
    change (map station_uuid reg) with (station_uuid <$> reg).
    change (map (getrandbits seed) (seq 0 (length reg)))
      with (getrandbits seed <$> seq 0 (length reg)).
    rewrite !list_lookup_fmap, Hlook.
    destruct (rows !! i) as [m|] eqn:E; cbn.
    + rewrite lookup_seq_lt; [reflexivity|].
      apply (lookup_lt_is_Some_1 reg). rewrite Hlook, E. now eexists.
    + rewrite lookup_seq_ge; [reflexivity|].
      apply (lookup_ge_None_1 reg). now rewrite Hlook, E.
  - intros i s Hs. rewrite Hlook in Hs. destruct (rows !! i) as [m|]; [|discriminate].
    injection Hs as <-. reflexivity.
Qed.

(** X9.  The Metro station registry is produced whatever the ZIP code
    lookups do. Its rows have distinct station identifiers in ascending
    order, none of them null, a latitude and a longitude, the city [Los
    Angeles] and the draws of seed 0 as surrogate identifiers, in order; the
    ZIP code of row [i] is the answer of the first lookup for the
    coordinates of that row that does not raise, and is null when that
    answer is NaN or every lookup raises. *)
Theorem metro_station_registry_shape (df_metro : list Raw.trip) :
  exists reg, generate_metro_stations_dataframe get_zip_code getrandbits df_metro = Ok reg
    /\ (exists ids, map original_station_id reg = map Some ids /\ StronglySorted Z.lt ids)
    /\ Forall (fun s => is_Some (latitude s) /\ is_Some (longitude s)
                        /\ city s = "Los Angeles"%string) reg
    /\ map station_uuid reg = uuids getrandbits 0 (length reg)
    /\ forall i s, reg !! i = Some s ->
         zip_code s
         = match first_answer get_zip_code i (latitude s) (longitude s)
                   (Acquisition.range Acquisition.default_retries) with
           | Some (Acquisition.Zip z) => Some z
           | _ => None
           end.
Proof.
  unfold generate_metro_stations_dataframe.
  destruct (registry_lookup "Los Angeles" 0
              (metro_station_rows df_metro)) as (reg & -> & Hlook).
  exists reg. split; [reflexivity|]. unfold metro_station_rows in Hlook.
  apply (registry_shape _ _ _ _ Hlook); apply registry_rows_shape.
Qed.

Variable float_str : Qc -> string.

Lemma get_capital_unique_stations_outcome (df : list mention) :
  get_capital_unique_stations float_str df = Raise ValueError
  \/ exists rows, get_capital_unique_stations float_str df = Ok rows.
Proof.
  unfold get_capital_unique_stations. destruct (forallb _ _); [right|left]; eauto.
Qed.

(** X10.  [generate_capital_stations_dataframe] either raises [ValueError]
    or returns a registry of the same make as the Metro one: distinct
    identifiers in ascending order, none null, both coordinates in every
    row, the city [Washington D.C.], the draws of seed 1, and the ZIP code
    of the first lookup that does not raise. *)
Theorem capital_station_registry_shape (df_capital : list Raw.trip) :
  generate_capital_stations_dataframe get_zip_code getrandbits float_str df_capital
  = Raise ValueError
  \/ exists reg,
       generate_capital_stations_dataframe get_zip_code getrandbits float_str df_capital
       = Ok reg
       /\ (exists ids, map original_station_id reg = map Some ids /\ StronglySorted Z.lt ids)
       /\ Forall (fun s => is_Some (latitude s) /\ is_Some (longitude s)
                           /\ city s = "Washington D.C."%string) reg
       /\ map station_uuid reg = uuids getrandbits 1 (length reg)
       /\ forall i s, reg !! i = Some s ->
            zip_code s
            = match first_answer get_zip_code i (latitude s) (longitude s)
                      (Acquisition.range Acquisition.default_retries) with
              | Some (Acquisition.Zip z) => Some z
              | _ => None
              end.
Proof.
  unfold generate_capital_stations_dataframe, capital_station_rows.
  destruct (get_capital_unique_stations_outcome
              (map fst (drop_duplicates
                 (map (fun t => (start_mention t, end_mention t)) df_capital))))
    as [-> | [starts ->]]; [now left|].
  destruct (get_capital_unique_stations_outcome
              (map snd (drop_duplicates
                 (map (fun t => (start_mention t, end_mention t)) df_capital))))
    as [-> | [ends ->]]; [now left|].
  right. cbn [bind].
  match goal with
  | |- context [Acquisition.get_zip_code_by_coordenates _ (map _ ?rows) _] =>
      destruct (registry_lookup "Washington D.C." 1 rows)
        as (reg & -> & Hlook)
  end.
  exists reg. split; [reflexivity|].
  apply (registry_shape _ _ _ _ Hlook); apply registry_rows_shape.
Qed.

(** X11.  [get_capital_unique_stations] raises [ValueError], at the
    conversion of the station identifiers to integers, exactly when some row
    whose two coordinates print with more than six digits is at coordinates
    where no row of the table has a station identifier. *)
Theorem get_capital_unique_stations_raises (df : list mention) :
  get_capital_unique_stations float_str df = Raise ValueError
  <-> exists m, m ∈ df
        /\ (6 < count_digits (float_cell_str float_str (lat m)))%nat
        /\ (6 < count_digits (float_cell_str float_str (lon m)))%nat
        /\ forall m', m' ∈ df -> coordinates m' = coordinates m -> station_id m' = None.
Proof.
  unfold get_capital_unique_stations.
  set (valid := fun m : mention =>
         (6 < count_digits (float_cell_str float_str (lat m)))%nat
         /\ (6 < count_digits (float_cell_str float_str (lon m)))%nat).
  assert (Hvalid_some : forall m, valid m ->
            exists la lo, lat m = Some la /\ lon m = Some lo
              /\ coordinates m = Some (la, lo)).
  { intros m [H1 H2]. unfold coordinates.
    destruct (lat m) as [la|];
      [|cbn [float_cell_str] in H1; rewrite count_digits_nan in H1; lia].
    destruct (lon m) as [lo|];
      [|cbn [float_cell_str] in H2; rewrite count_digits_nan in H2; lia].
    now exists la, lo. }
  split.
  - destruct (forallb _ _) eqn:E; [discriminate|]. intros _.
    apply forallb_false in E as (r & Hin & Hr).
    assert (Hnone : station_id r = None).
    { destruct (station_id r) eqn:Er; [|reflexivity].
      rewrite bool_decide_eq_true_2 in Hr; [discriminate|now eexists]. }
    clear Hr. unfold first_by_coordinates in Hin.
    apply list_elem_of_fmap in Hin as (c & -> & Hc). cbn in Hnone.
    apply elem_of_group_keys_any in Hc.
    apply list_elem_of_fmap in Hc as (m & Hcm & Hm).
    apply list_elem_of_filter in Hm as [Hv Hm].
    exists m. split; [exact Hm|]. split; [apply Hv|]. split; [apply Hv|].
    intros m' Hm' Hsame.
    assert (Hv' : valid m').
    { destruct (Hvalid_some m Hv) as (la & lo & Hla & Hlo & _).
      unfold coordinates in Hsame. rewrite Hla, Hlo in Hsame. cbn in Hsame.
      destruct (lat m') as [la'|] eqn:Hla'; [|discriminate].
      destruct (lon m') as [lo'|] eqn:Hlo'; [|discriminate].
      cbn in Hsame. injection Hsame as -> ->.
      unfold valid. rewrite Hla', Hlo'. rewrite <- Hla, <- Hlo. exact Hv. }
    unfold first in Hnone.
    destruct (station_id m') as [k|] eqn:Ek; [|reflexivity]. exfalso.
    assert (Hk : k ∈ dropna (map station_id (group coordinates c (filter valid df)))).
    { apply elem_of_dropna. rewrite <- Ek. apply list_elem_of_fmap. exists m'.
      split; [reflexivity|]. unfold group. apply list_elem_of_filter.
      split; [congruence|]. now apply list_elem_of_filter. }
    destruct (dropna _); [now apply elem_of_nil in Hk|discriminate].
  - intros (m & Hm & H1 & H2 & Hall).
    assert (Hv : valid m) by now split.
    destruct (Hvalid_some m Hv) as (la & lo & Hla & Hlo & Hc).
    destruct (forallb _ _) eqn:E; [|reflexivity]. exfalso.
    rewrite forallb_forall in E.
    specialize (E {| station_id := first (map station_id
                                     (group coordinates (la, lo) (filter valid df)));
                     lat := Some la; lon := Some lo;
                     station_name := first (map station_name
                                     (group coordinates (la, lo) (filter valid df))) |}).
    cbn in E.
    assert (Hfirst : first (map station_id (group coordinates (la, lo) (filter valid df)))
                     = None).
    { unfold first.
      destruct (dropna _) as [|k ks] eqn:Ed; [reflexivity|]. exfalso.
      assert (Hk : k ∈ dropna (map station_id (group coordinates (la, lo) (filter valid df))))
        by (rewrite Ed; apply elem_of_cons; now left).
      apply elem_of_dropna in Hk. apply list_elem_of_fmap in Hk as (m' & Hk & Hm').
      unfold group in Hm'. apply list_elem_of_filter in Hm' as [Hcm' Hm'].
      apply list_elem_of_filter in Hm' as [_ Hm'].
      rewrite (Hall m' Hm') in Hk by congruence. discriminate. }
    rewrite Hfirst in E.
    assert (Hfalse : bool_decide (is_Some (@None Z)) = true).
    { apply E. apply list_elem_of_In. unfold first_by_coordinates.
      apply list_elem_of_fmap. exists (la, lo). split; [now rewrite Hfirst|].
      apply elem_of_group_keys_any. apply list_elem_of_fmap. exists m.
      split; [now symmetry|]. now apply list_elem_of_filter. }
    apply bool_decide_eq_true in Hfalse. now destruct Hfalse.
Qed.

End registry.

Lemma los_angeles_not_zero :
  los_angeles_latitude <> Q2Qc 0 /\ los_angeles_longitude <> Q2Qc 0.
Proof. split; intros H; apply (f_equal this) in H; vm_compute in H; discriminate H. Qed.

Lemma rectify_coordinates_settles_witness :
  map (fun m => this <$> Stations.lon m)
    (Stations.rectify_coordinates [misplaced] los_angeles_latitude los_angeles_longitude
       (Q2Qc 3))
  = [Some (- (473 # 4))%Q]
  /\ Stations.rectify_coordinates
       (Stations.rectify_coordinates [misplaced] los_angeles_latitude
          los_angeles_longitude (Q2Qc 3))
       los_angeles_latitude los_angeles_longitude (Q2Qc 3)
     = Stations.rectify_coordinates [misplaced] los_angeles_latitude
         los_angeles_longitude (Q2Qc 3).
Proof.
  split; [vm_compute; reflexivity|].
  apply (rectify_coordinates_settles [misplaced] los_angeles_latitude
           los_angeles_longitude (Q2Qc 3));
    intros H; apply (f_equal this) in H; vm_compute in H; discriminate H.
Defined.

End StationsLaws.

(** * Further properties of the trip tables *)

Module TripsLaws.
Import Py Frame FrameFacts Trips TripProps TripsFacts TripTableProps.

Lemma to_dict_lookup_Some {K V} `{Countable K} (rows : list (K * V)) k v :
  to_dict rows !! k = Some v -> (k, v) ∈ rows.
Proof.
  unfold to_dict. intros Hl. apply elem_of_list_to_map_2 in Hl.
  rewrite elem_of_reverse in Hl. exact Hl.
Qed.

Lemma to_dict_lookup_is_Some {K V} `{Countable K} (rows : list (K * V)) k :
  k ∈ map fst rows -> is_Some (to_dict rows !! k).
Proof.
  intros Hk. unfold to_dict.
  destruct (list_to_map (reverse rows) !! k) as [v|] eqn:E; [now eexists|].
  apply not_elem_of_list_to_map_2 in E. exfalso. apply E.
  rewrite fmap_reverse, elem_of_reverse. exact Hk.
Qed.

(** Of two rows with one key, the dictionary keeps the later one. *)
Lemma to_dict_app_r {K V} `{Countable K} (rows1 rows2 : list (K * V)) k v :
  NoDup (map fst rows2) -> (k, v) ∈ rows2 -> to_dict (rows1 ++ rows2) !! k = Some v.
Proof.
  intros Hn Hin. unfold to_dict. rewrite reverse_app, list_to_map_app.
  apply lookup_union_Some_l. apply elem_of_list_to_map_1.
  - rewrite fmap_reverse, reverse_Permutation. exact Hn.
  - rewrite elem_of_reverse. exact Hin.
Qed.

Lemma replace_member_type_spec old new (t : trip) :
  replace_member_type old new t = set_member_type (relabel_step old new (member_type t)) t.
Proof.
  unfold replace_member_type, set_member_type, relabel_step.
  case_bool_decide; [reflexivity|now destruct t].
Qed.

Lemma replace_set_member_type old new v (t : trip) :
  replace_member_type old new (set_member_type v t)
  = set_member_type (relabel_step old new v) t.
Proof. now rewrite replace_member_type_spec. Qed.

Lemma relabel_step_other old new l :
  l <> old -> relabel_step old new (Some l) = Some l.
Proof. intros H. unfold relabel_step. rewrite bool_decide_eq_false_2; congruence. Qed.

Lemma relabel_steps (m : option string) :
  relabel_step "Testing" "casual"
    (relabel_step "Walk-up" "casual"
       (relabel_step "Casual" "casual"
          (relabel_step "One Day Pass" "member"
             (relabel_step "Monthly Pass" "member"
                (relabel_step "Annual Pass" "member"
                   (relabel_step "Flex Pass" "member"
                      (relabel_step "Member" "member" m)))))))
  = relabel <$> m.
Proof.
  destruct m as [l|]; [|reflexivity]. cbn [fmap option_fmap option_map].
  destruct (decide (l = "Member"%string)) as [->|H1]; [reflexivity|].
  destruct (decide (l = "Flex Pass"%string)) as [->|H2]; [reflexivity|].
  destruct (decide (l = "Annual Pass"%string)) as [->|H3]; [reflexivity|].
  destruct (decide (l = "Monthly Pass"%string)) as [->|H4]; [reflexivity|].
  destruct (decide (l = "One Day Pass"%string)) as [->|H5]; [reflexivity|].
  destruct (decide (l = "Casual"%string)) as [->|H6]; [reflexivity|].
  destruct (decide (l = "Walk-up"%string)) as [->|H7]; [reflexivity|].
  destruct (decide (l = "Testing"%string)) as [->|H8]; [reflexivity|].
  rewrite !relabel_step_other by assumption.
  unfold relabel. rewrite bool_decide_eq_false_2.
  - rewrite bool_decide_eq_false_2; [reflexivity|].
    intros Hin. repeat (apply elem_of_cons in Hin as [->|Hin]; [congruence|]).
    now apply elem_of_nil in Hin.
  - intros Hin. repeat (apply elem_of_cons in Hin as [->|Hin]; [congruence|]).
    now apply elem_of_nil in Hin.
Qed.

Lemma homogenize_member_type_spec (t : trip) :
  homogenize_member_type t = set_member_type (relabel <$> member_type t) t.
Proof.
  unfold homogenize_member_type.
  rewrite (replace_member_type_spec "Member" "member" t).
  rewrite !replace_set_member_type. now rewrite relabel_steps.
Qed.

Lemma relabel_cases (l : string) :
  relabel l = "member"%string \/ relabel l = "casual"%string
  \/ (relabel l = l /\ l ∉ raw_labels).
Proof.
  destruct (decide (l = "Member"%string)) as [->|H1]; [now left|].
  destruct (decide (l = "Flex Pass"%string)) as [->|H2]; [now left|].
  destruct (decide (l = "Annual Pass"%string)) as [->|H3]; [now left|].
  destruct (decide (l = "Monthly Pass"%string)) as [->|H4]; [now left|].
  destruct (decide (l = "One Day Pass"%string)) as [->|H5]; [now left|].
  destruct (decide (l = "Casual"%string)) as [->|H6]; [now right; left|].
  destruct (decide (l = "Walk-up"%string)) as [->|H7]; [now right; left|].
  destruct (decide (l = "Testing"%string)) as [->|H8]; [now right; left|].
  right; right. split.
  - unfold relabel. rewrite bool_decide_eq_false_2.
    + rewrite bool_decide_eq_false_2; [reflexivity|].
      intros Hin. repeat (apply elem_of_cons in Hin as [->|Hin]; [congruence|]).
      now apply elem_of_nil in Hin.
    + intros Hin. repeat (apply elem_of_cons in Hin as [->|Hin]; [congruence|]).
      now apply elem_of_nil in Hin.
  - intros Hin. unfold raw_labels in Hin.
    repeat (apply elem_of_cons in Hin as [->|Hin]; [congruence|]).
    now apply elem_of_nil in Hin.
Qed.

Lemma relabel_not_raw (l : string) : relabel l ∉ raw_labels.
Proof.
  destruct (relabel_cases l) as [->|[->|[-> H]]]; [| |exact H].
  - intros Hin. unfold raw_labels in Hin.
    repeat (apply elem_of_cons in Hin as [Hin|Hin]; [discriminate|]).
    now apply elem_of_nil in Hin.
  - intros Hin. unfold raw_labels in Hin.
    repeat (apply elem_of_cons in Hin as [Hin|Hin]; [discriminate|]).
    now apply elem_of_nil in Hin.
Qed.

(** The rows of the trip table, before they are sorted. *)
Lemma elem_of_trips rng df_metro df_capital st_m bk_m st_c bk_c df_trips (ut : Z * trip) :
  generate_trips_dataframe rng df_metro df_capital st_m bk_m st_c bk_c = Ok df_trips ->
  ut ∈ df_trips ->
  exists t0, ut.2 = homogenize_member_type t0
    /\ (t0 ∈ generate_metro_trips_dataframe df_metro st_m bk_m
        \/ generate_capital_trips_dataframe df_capital st_c bk_c ≠ Raise ValueError
           /\ exists df_c, generate_capital_trips_dataframe df_capital st_c bk_c = Ok df_c
                /\ t0 ∈ df_c).
Proof.
  unfold generate_trips_dataframe.
  destruct (generate_capital_trips_dataframe df_capital st_c bk_c)
    as [df_trips_capital|e] eqn:Ec; [|discriminate].
  cbn [bind]. intros [= <-] Hut.
  rewrite sort_values_Permutation in Hut.
  destruct ut as [u t]. apply elem_of_zip_r in Hut. cbn.
  apply list_elem_of_fmap in Hut as (t0 & -> & Ht0).
  exists t0. split; [reflexivity|].
  apply elem_of_app in Ht0 as [Hm|Hc]; [now left|right].
  split; [discriminate|]. now exists df_trips_capital.
Qed.

(** The rows of the trip table are those of the two trip tables, relabelled. *)
Lemma trips_rows rng df_metro df_capital st_m bk_m st_c bk_c df_trips :
  generate_trips_dataframe rng df_metro df_capital st_m bk_m st_c bk_c = Ok df_trips ->
  exists df_trips_capital,
    generate_capital_trips_dataframe df_capital st_c bk_c = Ok df_trips_capital
    /\ map snd df_trips
       ≡ₚ map homogenize_member_type
            (generate_metro_trips_dataframe df_metro st_m bk_m ++ df_trips_capital).
Proof.
  unfold generate_trips_dataframe.
  destruct (generate_capital_trips_dataframe df_capital st_c bk_c)
    as [df_trips_capital|e] eqn:Ec; [|discriminate].
  cbn [bind]. intros [= <-]. exists df_trips_capital. split; [reflexivity|].
  rewrite sort_values_Permutation. rewrite snd_zip; [reflexivity|].
  rewrite BikesFacts.uuids_length. lia.
Qed.

(** X12.  The rows of the trip table are, up to their order, the rows of
    the Metro and the Capital trip tables with the member type replaced:
    [Member], [Flex Pass], [Annual Pass], [Monthly Pass] and [One Day Pass]
    by [member], [Casual], [Walk-up] and [Testing] by [casual], any other
    member type and every other column as it was.  So no row of the trip
    table carries one of these eight labels. *)
Theorem member_types_homogenized rng df_metro df_capital st_m bk_m st_c bk_c df_trips :
  generate_trips_dataframe rng df_metro df_capital st_m bk_m st_c bk_c = Ok df_trips ->
  exists df_trips_capital,
    generate_capital_trips_dataframe df_capital st_c bk_c = Ok df_trips_capital
    /\ map snd df_trips
       ≡ₚ map (fun t0 => set_member_type (relabel <$> member_type t0) t0)
            (generate_metro_trips_dataframe df_metro st_m bk_m ++ df_trips_capital)
    /\ forall ut l, ut ∈ df_trips -> member_type ut.2 = Some l -> l ∉ raw_labels.
Proof.
  intros Htrips.
  destruct (trips_rows _ _ _ _ _ _ _ _ Htrips) as (df_c & Hc & Hp).
  rewrite (map_ext _ _ homogenize_member_type_spec) in Hp.
  exists df_c. split; [exact Hc|]. split; [exact Hp|].
  intros ut l Hut Hl.
  assert (Hin : ut.2 ∈ map snd df_trips)
    by (apply list_elem_of_fmap; now exists ut).
  rewrite Hp in Hin. apply list_elem_of_fmap in Hin as (t0 & E & _).
  rewrite E in Hl. cbn in Hl.
  destruct (member_type t0) as [l0|]; [|discriminate].
  injection Hl as <-. apply relabel_not_raw.
Qed.

Lemma time_le_refl (a : option Z) : time_le a a.
Proof. destruct a; cbn; [lia|exact I]. Qed.

Lemma time_le_total (a b : option Z) : time_le a b \/ time_le b a.
Proof. destruct a, b; cbn; try tauto. lia. Qed.

Lemma start_end_le_total (a b : Z * trip) : start_end_le a b \/ start_end_le b a.
Proof.
  unfold start_end_le.
  destruct (decide (start_time a.2 = start_time b.2)) as [E|E].
  - rewrite E. destruct (time_le_total (end_time a.2) (end_time b.2)).
    + left. split; [apply time_le_refl|auto].
    + right. split; [apply time_le_refl|auto].
  - destruct (time_le_total (start_time a.2) (start_time b.2)).
    + left. split; [assumption|]. intros; contradiction.
    + right. split; [assumption|]. intros E'. now symmetry in E'.
Qed.

(** X26.  The trip table is in ascending order of start time, then of end
    time, a missing time last.  Its rows are the relabelled rows of the
    Metro and the Capital trip tables, one table after the other, each with
    the draw of seed 4 of its place there: the identifiers are drawn before
    the rows are sorted.  Trips with the same start and the same end time
    are in the trip table in the order they had. *)
Theorem trip_table_sorted rng df_metro df_capital st_m bk_m st_c bk_c df_trips :
  generate_trips_dataframe rng df_metro df_capital st_m bk_m st_c bk_c = Ok df_trips ->
  exists df_trips_capital,
    generate_capital_trips_dataframe df_capital st_c bk_c = Ok df_trips_capital
    /\ Sorted start_end_le df_trips
    /\ df_trips
       ≡ₚ numbered_trips rng (generate_metro_trips_dataframe df_metro st_m bk_m)
            df_trips_capital
    /\ forall s e,
         filter (fun ut => start_time ut.2 = s /\ end_time ut.2 = e) df_trips
         = filter (fun ut => start_time ut.2 = s /\ end_time ut.2 = e)
             (numbered_trips rng (generate_metro_trips_dataframe df_metro st_m bk_m)
                df_trips_capital).
Proof.
  unfold generate_trips_dataframe.
  destruct (generate_capital_trips_dataframe df_capital st_c bk_c)
    as [df_trips_capital|e] eqn:Ec; [|discriminate].
  cbn [bind]. intros [= <-]. exists df_trips_capital. split; [reflexivity|].
  fold (numbered_trips rng (generate_metro_trips_dataframe df_metro st_m bk_m)
          df_trips_capital).
  split; [apply sort_values_Sorted, start_end_le_total|].
  split; [apply sort_values_Permutation|].
  intros s e. apply sort_values_stable.
  intros a b [Ha1 Ha2] [Hb1 Hb2]. unfold start_end_le.
  rewrite Ha1, Ha2, Hb1, Hb2. split; [apply time_le_refl|]. intros _. apply time_le_refl.
Qed.

Lemma trackable_ids st bk (t : Raw.trip) :
  Forall (fun s => is_Some (Stations.original_station_id s)) st ->
  trackable st bk t = true ->
  (exists s, s ∈ st /\ Stations.original_station_id s = Raw.start_station_id t
             /\ is_Some (Raw.start_station_id t))
  /\ (exists s, s ∈ st /\ Stations.original_station_id s = Raw.end_station_id t
                /\ is_Some (Raw.end_station_id t))
  /\ (exists b, b ∈ bk /\ Bikes.original_bike_id b = astype_str (Raw.bike_id t)).
Proof.
  intros Hst Ht. unfold trackable, isin in Ht.
  apply andb_true_iff in Ht as [Ht Hb]. apply andb_true_iff in Ht as [Hs He].
  apply bool_decide_eq_true in Hs, He, Hb.
  apply list_elem_of_fmap in Hs as (s & Hs & Hsin).
  apply list_elem_of_fmap in He as (e & He & Hein).
  apply list_elem_of_fmap in Hb as (b & Hb & Hbin).
  rewrite Forall_forall in Hst.
  split; [|split].
  - exists s. split; [exact Hsin|]. split; [now symmetry|]. rewrite Hs. now apply Hst.
  - exists e. split; [exact Hein|]. split; [now symmetry|]. rewrite He. now apply Hst.
  - exists b. split; [exact Hbin|]. now symmetry.
Qed.

Lemma metro_trips_linked df_metro st bk (t : trip) :
  Forall (fun s => is_Some (Stations.original_station_id s)) st ->
  t ∈ generate_metro_trips_dataframe df_metro st bk -> linked st bk t.
Proof.
  intros Hst Ht. unfold generate_metro_trips_dataframe in Ht.
  apply list_elem_of_filter in Ht as [_ Ht].
  apply list_elem_of_fmap in Ht as (t1 & -> & Ht).
  rewrite elem_of_drop_duplicates in Ht.
  apply list_elem_of_fmap in Ht as (t0 & -> & Ht).
  apply list_elem_of_filter in Ht as [Htr _]. apply Is_true_true in Htr.
  exact (trackable_ids st bk t0 Hst Htr).
Qed.

Lemma capital_rows_linked df_capital st bk (t : trip) :
  Forall (fun s => is_Some (Stations.original_station_id s)) st ->
  t ∈ filter (fun t => start_quality_condition (start_time t) (end_time t))
        (drop_duplicates (map capital_columns
           (filter (fun t => trackable st bk t) df_capital))) ->
  linked st bk t.
Proof.
  intros Hst Ht.
  apply list_elem_of_filter in Ht as [_ Ht].
  rewrite elem_of_drop_duplicates in Ht.
  apply list_elem_of_fmap in Ht as (t0 & -> & Ht).
  apply list_elem_of_filter in Ht as [Htr _]. apply Is_true_true in Htr.
  exact (trackable_ids st bk t0 Hst Htr).
Qed.

Lemma generate_capital_trips_dataframe_returns df_capital st bk :
  Forall (fun s => is_Some (Stations.original_station_id s)) st ->
  generate_capital_trips_dataframe df_capital st bk
  = Ok (filter (fun t => start_quality_condition (start_time t) (end_time t))
          (drop_duplicates (map capital_columns
             (filter (fun t => trackable st bk t) df_capital)))).
Proof.
  intros Hst. unfold generate_capital_trips_dataframe, astype_int.
  rewrite (proj2 (forallb_forall _ _)); [reflexivity|].
  intros t Ht. apply list_elem_of_In in Ht.
  destruct (capital_rows_linked _ _ _ _ Hst Ht) as ((_ & _ & _ & Hs) & (_ & _ & _ & He) & _).
  now rewrite !bool_decide_eq_true_2.
Qed.

(** X13.  When no row of the Capital station registry has a null identifier,
    [generate_trips_dataframe] returns: the conversion of the Capital
    station identifiers to integers cannot fail, since a trackable trip has
    both stations in the registry. The table has one row for every row of
    the two trip tables, and its surrogate identifiers are the draws of seed
    4, up to the order the sort leaves them in. *)
Theorem generate_trips_dataframe_returns rng df_metro df_capital st_m bk_m st_c bk_c :
  Forall (fun s => is_Some (Stations.original_station_id s)) st_c ->
  exists df_trips,
    generate_trips_dataframe rng df_metro df_capital st_m bk_m st_c bk_c = Ok df_trips
    /\ length df_trips
       = (length (generate_metro_trips_dataframe df_metro st_m bk_m)
          + length (filter (fun t => start_quality_condition (start_time t) (end_time t))
                      (drop_duplicates (map capital_columns
                         (filter (fun t => trackable st_c bk_c t) df_capital)))))%nat
    /\ map fst df_trips ≡ₚ uuids rng 4 (length df_trips).
Proof.
  intros Hst. unfold generate_trips_dataframe.
  rewrite (generate_capital_trips_dataframe_returns _ _ _ Hst). cbn [bind].
  eexists. split; [reflexivity|].
  assert (Hlen : forall (l : list trip),
            length (sort_values start_end_le (zip (uuids rng 4 (length (map homogenize_member_type l)))
                                                 (map homogenize_member_type l)))
            = length l).
  { intros l. rewrite sort_values_Permutation, length_zip_with, BikesFacts.uuids_length, length_map. lia. }
  split.
  - rewrite Hlen, length_app. reflexivity.
  - rewrite Hlen. rewrite sort_values_Permutation.
    rewrite length_map. rewrite fst_zip; [reflexivity|].
    rewrite BikesFacts.uuids_length, length_map. lia.
Qed.

Lemma elem_of_station_keys st k u :
  (k, u) ∈ station_keys st
  <-> exists s, s ∈ st /\ Stations.original_station_id s = Some k
                /\ Stations.station_uuid s = u.
Proof.
  unfold station_keys. rewrite list_elem_of_omap. split.
  - intros (s & Hs & E). destruct (Stations.original_station_id s) as [k'|] eqn:Ek;
      [|discriminate]. cbn in E. injection E as <- <-. now exists s.
  - intros (s & Hs & Ek & <-). exists s. split; [exact Hs|]. now rewrite Ek.
Qed.

Lemma station_keys_fst st :
  map Some (map fst (station_keys st))
  = filter (fun o => is_Some o) (map Stations.original_station_id st).
Proof.
  unfold station_keys. induction st as [|s st IH]; [reflexivity|].
  cbn [omap list_omap map]. rewrite filter_cons.
  destruct (Stations.original_station_id s) as [k|]; cbn.
  - destruct (decide (is_Some (Some k))) as [_|Hn]; [|exfalso; apply Hn; now eexists].
    now rewrite <- IH.
  - destruct (decide (is_Some (@None Z))) as [[? [=]]|_]. exact IH.
Qed.

Lemma station_keys_NoDup st :
  NoDup (map Stations.original_station_id st) -> NoDup (map fst (station_keys st)).
Proof.
  intros Hn. apply (NoDup_fmap_1 Some).
  change (Some <$> map fst (station_keys st)) with (map Some (map fst (station_keys st))).
  rewrite station_keys_fst. now apply NoDup_filter.
Qed.

Lemma station_keys_app st1 st2 :
  station_keys (st1 ++ st2) = station_keys st1 ++ station_keys st2.
Proof. unfold station_keys. apply omap_app. Qed.

Lemma mapped_lookup df_trips st bk i (ut : Z * trip) :
  df_trips !! i = Some ut ->
  map_trips_foreign_keys_to_uuids df_trips st bk !! i
  = Some {| trip_uuid := ut.1;
            original_trip_id := trip_id ut.2;
            m_start_time := start_time ut.2;
            m_end_time := end_time ut.2;
            m_member_type := member_type ut.2;
            m_duration := duration ut.2;
            m_plan_duration := plan_duration ut.2;
            m_trip_route_category := trip_route_category ut.2;
            start_station_uuid := k ← start_station_id ut.2; to_dict (station_keys st) !! k;
            end_station_uuid := k ← end_station_id ut.2; to_dict (station_keys st) !! k;
            bike_uuid :=
              to_dict (map (fun b => (Bikes.original_bike_id b, Bikes.bike_uuid b)) bk)
                !! bike_id ut.2 |}.
Proof.
  intros Hut. unfold map_trips_foreign_keys_to_uuids.
  match goal with |- map ?f _ !! _ = _ => change (map f df_trips) with (f <$> df_trips) end.
  now rewrite list_lookup_fmap, Hut.
Qed.

Lemma station_lookup st (id : option Z) :
  (exists s, s ∈ st /\ Stations.original_station_id s = id /\ is_Some id) ->
  exists s, s ∈ st /\ Stations.original_station_id s = id
    /\ (k ← id; to_dict (station_keys st) !! k) = Some (Stations.station_uuid s).
Proof.
  intros (s & Hs & Hid & [k Hk]). subst id. rewrite Hk. cbn.
  destruct (to_dict_lookup_is_Some (station_keys st) k) as [u Hu].
  { apply list_elem_of_fmap. exists (k, Stations.station_uuid s). split; [reflexivity|].
    apply elem_of_station_keys. now exists s. }
  rewrite Hu. apply to_dict_lookup_Some in Hu.
  apply elem_of_station_keys in Hu as (s' & Hs' & Hk' & <-).
  exists s'. split; [exact Hs'|]. split; [congruence|reflexivity].
Qed.

Lemma bike_lookup bk (id : string) :
  (exists b, b ∈ bk /\ Bikes.original_bike_id b = id) ->
  exists b, b ∈ bk /\ Bikes.original_bike_id b = id
    /\ to_dict (map (fun b => (Bikes.original_bike_id b, Bikes.bike_uuid b)) bk) !! id
       = Some (Bikes.bike_uuid b).
Proof.
  intros (b & Hb & <-).
  destruct (to_dict_lookup_is_Some
              (map (fun b => (Bikes.original_bike_id b, Bikes.bike_uuid b)) bk)
              (Bikes.original_bike_id b)) as [u Hu].
  { rewrite map_map. cbn. apply list_elem_of_fmap. now exists b. }
  rewrite Hu. apply to_dict_lookup_Some in Hu.
  apply list_elem_of_fmap in Hu as (b' & [= E ->] & Hb').
  exists b'. split; [exact Hb'|]. split; [now symmetry|reflexivity].
Qed.

Lemma linked_weaken st st' bk bk' t :
  (forall s, s ∈ st -> s ∈ st') -> (forall b, b ∈ bk -> b ∈ bk') ->
  linked st bk t -> linked st' bk' t.
Proof.
  intros Hst Hbk ((s & Hs & ?) & (e & He & ?) & (b & Hb & ?)).
  split; [|split]; [exists s|exists e|exists b]; split; auto.
Qed.

Lemma linked_homogenize st bk t :
  linked st bk t -> linked st bk (homogenize_member_type t).
Proof. rewrite homogenize_member_type_spec. exact id. Qed.

(** X14.  Every trip of the table is mapped to a row whose three foreign
    keys are present: each of the two station keys is the surrogate
    identifier of a registry station with the trip's station identifier, and
    the bike key is the surrogate identifier of a registry bike with the
    trip's bike identifier, when the trips are mapped with the registries
    they were selected with and no registry station has a null identifier. *)
Theorem trips_foreign_keys_resolved rng df_metro df_capital st_m bk_m st_c bk_c
    df_trips i (ut : Z * trip) :
  Forall (fun s => is_Some (Stations.original_station_id s)) (st_m ++ st_c) ->
  generate_trips_dataframe rng df_metro df_capital st_m bk_m st_c bk_c = Ok df_trips ->
  df_trips !! i = Some ut ->
  exists m,
    map_trips_foreign_keys_to_uuids df_trips (st_m ++ st_c) (bk_m ++ bk_c) !! i = Some m
    /\ trip_uuid m = ut.1
    /\ (exists s, s ∈ st_m ++ st_c
          /\ Stations.original_station_id s = start_station_id ut.2
          /\ start_station_uuid m = Some (Stations.station_uuid s))
    /\ (exists s, s ∈ st_m ++ st_c
          /\ Stations.original_station_id s = end_station_id ut.2
          /\ end_station_uuid m = Some (Stations.station_uuid s))
    /\ (exists b, b ∈ bk_m ++ bk_c
          /\ Bikes.original_bike_id b = bike_id ut.2
          /\ bike_uuid m = Some (Bikes.bike_uuid b)).
Proof.
  intros Hst Htrips Hut.
  apply Forall_app in Hst as [Hst_m Hst_c].
  assert (Hlinked : linked (st_m ++ st_c) (bk_m ++ bk_c) ut.2).
  { destruct (elem_of_trips _ _ _ _ _ _ _ _ ut Htrips) as (t0 & -> & Ht0);
      [now apply list_elem_of_lookup_2 in Hut|].
    apply linked_homogenize. destruct Ht0 as [Hm|(_ & df_c & Hc & Ht0)].
    - apply (linked_weaken st_m _ bk_m); [set_solver..|].
      now apply (metro_trips_linked df_metro).
    - rewrite (generate_capital_trips_dataframe_returns _ _ _ Hst_c) in Hc.
      injection Hc as <-.
      apply (linked_weaken st_c _ bk_c); [set_solver..|].
      now apply (capital_rows_linked df_capital). }
  rewrite (mapped_lookup _ _ _ _ _ Hut). eexists. split; [reflexivity|].
  cbn [trip_uuid start_station_uuid end_station_uuid bike_uuid].
  split; [reflexivity|].
  destruct Hlinked as (Hs & He & Hb).
  split; [now apply station_lookup|]. split; [now apply station_lookup|].
  now apply bike_lookup.
Qed.

(** X15.  When a station or bike identifier occurs in both registries, the
    foreign key of every trip with that identifier is the surrogate
    identifier of the row of the second registry, the Capital one, also for
    a Metro trip: the dictionary built from the joined registries keeps, of
    two rows with one key, the later. *)
Theorem later_registry_row_wins df_trips st1 st2 bk1 bk2 i (ut : Z * trip) :
  NoDup (map Stations.original_station_id st2) ->
  NoDup (map Bikes.original_bike_id bk2) ->
  df_trips !! i = Some ut ->
  exists m,
    map_trips_foreign_keys_to_uuids df_trips (st1 ++ st2) (bk1 ++ bk2) !! i = Some m
    /\ (forall s, s ∈ st2 -> is_Some (start_station_id ut.2) ->
          Stations.original_station_id s = start_station_id ut.2 ->
          start_station_uuid m = Some (Stations.station_uuid s))
    /\ (forall s, s ∈ st2 -> is_Some (end_station_id ut.2) ->
          Stations.original_station_id s = end_station_id ut.2 ->
          end_station_uuid m = Some (Stations.station_uuid s))
    /\ (forall b, b ∈ bk2 -> Bikes.original_bike_id b = bike_id ut.2 ->
          bike_uuid m = Some (Bikes.bike_uuid b)).
Proof.
  intros Hst Hbk Hut. rewrite (mapped_lookup _ _ _ _ _ Hut). eexists.
  split; [reflexivity|].
  cbn [start_station_uuid end_station_uuid bike_uuid].
  assert (Hstation : forall s id, s ∈ st2 -> is_Some id ->
            Stations.original_station_id s = id ->
            (k ← id; to_dict (station_keys (st1 ++ st2)) !! k)
            = Some (Stations.station_uuid s)).
  { intros s id Hs [k ->] Hk. cbn. rewrite station_keys_app.
    apply to_dict_app_r; [now apply station_keys_NoDup|].
    apply elem_of_station_keys. now exists s. }
  split; [intros s; apply Hstation|]. split; [intros s; apply Hstation|].
  intros b Hb <-. rewrite map_app. apply to_dict_app_r.
  - now rewrite map_map.
  - apply list_elem_of_fmap. now exists b.
Qed.

Lemma days_strftime_us (t : Z) : Calendar.days (Calendar.strftime_us t) = Calendar.days t.
Proof.
  unfold Calendar.days, Calendar.strftime_us.
  change Calendar.ns_per_day with (86400000000 * 1000).
  rewrite Z.div_mul_cancel_r by lia.
  rewrite Z.div_div by lia. reflexivity.
Qed.

Lemma year_month_strftime_us (t : Z) :
  Calendar.year (Calendar.strftime_us t) = Calendar.year t
  /\ Calendar.month (Calendar.strftime_us t) = Calendar.month t.
Proof. unfold Calendar.year, Calendar.month. now rewrite days_strftime_us. Qed.

(** X16.  The monthly files have distinct (year, month) keys and none is
    empty; the start time written in a row, cut to the microsecond, still
    falls in the year and month of the file; and every mapped trip with both
    instants is a row of the file of the year and month it starts in. *)
Theorem monthly_files_by_month (df_trips_mapped : list mapped) :
  NoDup (map fst (monthly_files df_trips_mapped))
  /\ (forall ym batch c, (ym, batch) ∈ monthly_files df_trips_mapped -> c ∈ batch ->
        (Calendar.year (c_start_time c), Calendar.month (c_start_time c)) = ym)
  /\ (forall t s e, t ∈ df_trips_mapped ->
        m_start_time t = Some s -> m_end_time t = Some e ->
        exists batch c,
          ((Calendar.year s, Calendar.month s), batch) ∈ monthly_files df_trips_mapped
          /\ to_curated t = Some c /\ c ∈ batch)
  /\ (forall ym batch, (ym, batch) ∈ monthly_files df_trips_mapped -> batch <> []).
Proof.
  unfold monthly_files.
  set (valid := filter (fun t => is_Some (m_start_time t) /\ is_Some (m_end_time t))
                       df_trips_mapped).
  assert (Hkeys : forall ym,
            ym ∈ merge_sort year_month_le (drop_duplicates (omap year_month valid))
            <-> exists t, t ∈ valid /\ year_month t = Some ym).
  { intros ym. rewrite merge_sort_Permutation, elem_of_drop_duplicates.
    apply list_elem_of_omap. }
  assert (Hcur : forall t, t ∈ valid -> is_Some (to_curated t)).
  { intros t Ht. apply list_elem_of_filter in Ht as [[[s Hs] [e He]] _].
    unfold to_curated. rewrite Hs, He. now eexists. }
  split; [|split; [|split]].
  - rewrite map_map. cbn. rewrite map_id.
    rewrite merge_sort_Permutation. apply NoDup_drop_duplicates.
  - intros ym batch c Hfile Hc.
    apply list_elem_of_fmap in Hfile as (ym' & [= -> ->] & _).
    apply list_elem_of_omap in Hc as (t & Ht & Hcur').
    unfold group in Ht. apply list_elem_of_filter in Ht as [Hym _].
    unfold year_month in Hym. unfold to_curated in Hcur'.
    destruct (m_start_time t) as [s|]; [|discriminate].
    destruct (m_end_time t) as [e|]; [|discriminate].
    cbn [mbind option_bind] in Hym, Hcur'. injection Hcur' as <-. injection Hym as <-.
    cbn [c_start_time]. now destruct (year_month_strftime_us s) as [-> ->].
  - intros t s e Ht Hs He.
    assert (Hv : t ∈ valid).
    { apply list_elem_of_filter. split; [|exact Ht]. rewrite Hs, He. split; now eexists. }
    assert (Hym : year_month t = Some (Calendar.year s, Calendar.month s)).
    { unfold year_month. now rewrite Hs. }
    destruct (Hcur t Hv) as [c Hc]. eexists. exists c. split; [|split; [exact Hc|]].
    + apply list_elem_of_fmap. exists (Calendar.year s, Calendar.month s).
      split; [reflexivity|]. apply Hkeys. now exists t.
    + apply list_elem_of_omap. exists t. split; [|exact Hc].
      unfold group. apply list_elem_of_filter. now split.
  - intros ym batch Hfile.
    apply list_elem_of_fmap in Hfile as (ym' & [= -> ->] & Hym).
    apply Hkeys in Hym as (t & Ht & Hym).
    destruct (Hcur t Ht) as [c Hc]. intros Hnil.
    assert (Hin : c ∈ omap to_curated (group year_month ym' valid)).
    { apply list_elem_of_omap. exists t. split; [|exact Hc].
      unfold group. apply list_elem_of_filter. now split. }
    rewrite Hnil in Hin. now apply elem_of_nil in Hin.
Qed.

Lemma trackable_bike st bk (t : Raw.trip) :
  trackable st bk t = true ->
  astype_str (Raw.bike_id t) ∈ map Bikes.original_bike_id bk.
Proof.
  unfold trackable, isin. intros Ht.
  apply andb_true_iff in Ht as [_ Hb]. now apply bool_decide_eq_true in Hb.
Qed.

Lemma metro_trips_bikes df_metro st bk (t : trip) :
  t ∈ generate_metro_trips_dataframe df_metro st bk ->
  bike_id t ∈ map Bikes.original_bike_id bk.
Proof.
  unfold generate_metro_trips_dataframe. intros Ht.
  apply list_elem_of_filter in Ht as [_ Ht].
  apply list_elem_of_fmap in Ht as (t1 & -> & Ht).
  rewrite elem_of_drop_duplicates in Ht.
  apply list_elem_of_fmap in Ht as (t0 & -> & Ht).
  apply list_elem_of_filter in Ht as [Htr _]. apply Is_true_true in Htr.
  exact (trackable_bike st bk t0 Htr).
Qed.

Lemma capital_trips_bikes df_capital st bk df (t : trip) :
  generate_capital_trips_dataframe df_capital st bk = Ok df ->
  t ∈ df -> bike_id t ∈ map Bikes.original_bike_id bk.
Proof.
  unfold generate_capital_trips_dataframe, astype_int.
  destruct (forallb _ _); [|discriminate]. intros [= <-] Ht.
  apply list_elem_of_filter in Ht as [_ Ht].
  rewrite elem_of_drop_duplicates in Ht.
  apply list_elem_of_fmap in Ht as (t0 & -> & Ht).
  apply list_elem_of_filter in Ht as [Htr _]. apply Is_true_true in Htr.
  exact (trackable_bike st bk t0 Htr).
Qed.

(** X23.  With the bike registries generated from the same two tables, every
    row of the trip table has a bike identifier of at least four digits that
    is the text of the bike identifier of some trip; a trip without bike
    identifier (its text is [nan]) and a trip on a test bike have no row. *)
Theorem trips_ride_registered_bikes rng df_metro df_capital st_m st_c df_trips
    (ut : Z * trip) :
  generate_trips_dataframe rng df_metro df_capital
    st_m (Bikes.generate_metro_bikes_dataframe rng df_metro)
    st_c (Bikes.generate_capital_bikes_dataframe rng df_capital) = Ok df_trips ->
  ut ∈ df_trips ->
  (4 <= count_digits (bike_id ut.2))%nat
  /\ bike_id ut.2 <> "nan"%string
  /\ exists t, (t ∈ df_metro \/ t ∈ df_capital)
       /\ astype_str (Raw.bike_id t) = bike_id ut.2.
Proof.
  intros Htrips Hut.
  destruct (elem_of_trips _ _ _ _ _ _ _ _ ut Htrips Hut) as (t0 & -> & Ht0).
  rewrite homogenize_member_type_spec. cbn [bike_id set_member_type].
  assert (Hreg : (4 <= count_digits (bike_id t0))%nat
                 /\ exists t, (t ∈ df_metro \/ t ∈ df_capital)
                      /\ astype_str (Raw.bike_id t) = bike_id t0).
  { destruct Ht0 as [Hm|(_ & df_c & Hc & Ht0)].
    - apply metro_trips_bikes in Hm.
      rewrite BikesLaws.metro_registry_ids in Hm.
      apply (BikesLaws.registry_ids_spec df_metro) in Hm as (Hd & t & Ht & E).
      split; [exact Hd|]. exists t. split; [now left|exact E].
    - apply (capital_trips_bikes _ _ _ _ _ Hc) in Ht0.
      rewrite BikesFacts.capital_registry_ids in Ht0.
      apply (BikesLaws.registry_ids_spec df_capital) in Ht0 as (Hd & t & Ht & E).
      split; [exact Hd|]. exists t. split; [now right|exact E]. }
  destruct Hreg as (Hd & Ht). split; [exact Hd|]. split; [|exact Ht].
  intros E. rewrite E in Hd. vm_compute in Hd. lia.
Qed.

Lemma sample_trips_generated :
  Trips.generate_trips_dataframe Samples.counting_bits
    StationProps.rides_from_7 [] TripProps.sample_stations TripProps.sample_bikes [] []
  = Ok sample_trips.
Proof. vm_compute. reflexivity. Qed.

Lemma member_types_homogenized_witness :
  Trips.generate_trips_dataframe Samples.counting_bits
    StationProps.rides_from_7 [] TripProps.sample_stations TripProps.sample_bikes [] []
  = Ok sample_trips
  /\ exists df_trips_capital,
    generate_capital_trips_dataframe [] [] [] = Ok df_trips_capital
    /\ map snd sample_trips
       ≡ₚ map (fun t0 => set_member_type (relabel <$> member_type t0) t0)
            (generate_metro_trips_dataframe StationProps.rides_from_7
               TripProps.sample_stations TripProps.sample_bikes ++ df_trips_capital)
    /\ forall ut l, ut ∈ sample_trips -> member_type ut.2 = Some l -> l ∉ raw_labels.
Proof.
  assert (H : Trips.generate_trips_dataframe Samples.counting_bits
                StationProps.rides_from_7 [] TripProps.sample_stations
                TripProps.sample_bikes [] [] = Ok sample_trips)
    by (vm_compute; reflexivity).
  split; [exact H|].
  exact (member_types_homogenized Samples.counting_bits
           StationProps.rides_from_7 [] TripProps.sample_stations TripProps.sample_bikes
           [] [] sample_trips H).
Defined.

Lemma trip_table_sorted_witness :
  Trips.generate_trips_dataframe Samples.counting_bits
    StationProps.rides_from_7 [] TripProps.sample_stations TripProps.sample_bikes [] []
  = Ok sample_trips
  /\ exists df_trips_capital,
    generate_capital_trips_dataframe [] [] [] = Ok df_trips_capital
    /\ Sorted start_end_le sample_trips
    /\ sample_trips
       ≡ₚ numbered_trips Samples.counting_bits
            (generate_metro_trips_dataframe StationProps.rides_from_7
               TripProps.sample_stations TripProps.sample_bikes)
            df_trips_capital
    /\ forall s e,
         filter (fun ut => start_time ut.2 = s /\ end_time ut.2 = e) sample_trips
         = filter (fun ut => start_time ut.2 = s /\ end_time ut.2 = e)
             (numbered_trips Samples.counting_bits
                (generate_metro_trips_dataframe StationProps.rides_from_7
                   TripProps.sample_stations TripProps.sample_bikes)
                df_trips_capital).
Proof.
  assert (H : Trips.generate_trips_dataframe Samples.counting_bits
                StationProps.rides_from_7 [] TripProps.sample_stations
                TripProps.sample_bikes [] [] = Ok sample_trips)
    by (vm_compute; reflexivity).
  split; [exact H|].
  exact (trip_table_sorted Samples.counting_bits
           StationProps.rides_from_7 [] TripProps.sample_stations TripProps.sample_bikes
           [] [] sample_trips H).
Defined.

Lemma generate_trips_dataframe_returns_witness :
  exists df_trips,
    Trips.generate_trips_dataframe Samples.counting_bits
      [] StationProps.rides_from_7 [] [] TripProps.sample_stations TripProps.sample_bikes
    = Ok df_trips
    /\ length df_trips
       = (length (Trips.generate_metro_trips_dataframe [] [] [])
          + length (filter (fun t => Trips.start_quality_condition
                                       (Trips.start_time t) (Trips.end_time t))
                      (drop_duplicates (map Trips.capital_columns
                         (filter (fun t => Trips.trackable TripProps.sample_stations
                                             TripProps.sample_bikes t)
                                 StationProps.rides_from_7)))))%nat
    /\ map fst df_trips ≡ₚ uuids Samples.counting_bits 4 (length df_trips).
Proof.
  apply (generate_trips_dataframe_returns Samples.counting_bits
           [] StationProps.rides_from_7 [] [] TripProps.sample_stations
           TripProps.sample_bikes).
  repeat constructor; eexists; reflexivity.
Defined.

Lemma trips_foreign_keys_resolved_witness :
  exists ut m,
    sample_trips !! 0%nat = Some ut
    /\ Trips.map_trips_foreign_keys_to_uuids sample_trips
         (TripProps.sample_stations ++ []) (TripProps.sample_bikes ++ []) !! 0%nat
       = Some m
    /\ Trips.trip_uuid m = ut.1
    /\ (exists s, s ∈ TripProps.sample_stations ++ []
          /\ Stations.original_station_id s = Trips.start_station_id ut.2
          /\ Trips.start_station_uuid m = Some (Stations.station_uuid s))
    /\ (exists s, s ∈ TripProps.sample_stations ++ []
          /\ Stations.original_station_id s = Trips.end_station_id ut.2
          /\ Trips.end_station_uuid m = Some (Stations.station_uuid s))
    /\ (exists b, b ∈ TripProps.sample_bikes ++ []
          /\ Bikes.original_bike_id b = Trips.bike_id ut.2
          /\ Trips.bike_uuid m = Some (Bikes.bike_uuid b)).
Proof.
  eexists.
  destruct (trips_foreign_keys_resolved Samples.counting_bits
              StationProps.rides_from_7 [] TripProps.sample_stations TripProps.sample_bikes
              [] [] sample_trips 0%nat _
              ltac:(repeat constructor; eexists; reflexivity)
              sample_trips_generated eq_refl) as (m & H).
  exists m. split; [reflexivity|]. exact H.
Defined.

Lemma later_registry_row_wins_witness :
  exists ut m,
    sample_trips !! 0%nat = Some ut
    /\ Trips.start_station_id ut.2 = Some 7
    /\ map_trips_foreign_keys_to_uuids sample_trips
         (sample_stations ++ [capital_station_7]) (sample_bikes ++ [capital_bike_12345])
         !! 0%nat = Some m
    /\ start_station_uuid m = Some 900
    /\ bike_uuid m = Some 999.
Proof.
  eexists.
  destruct (later_registry_row_wins sample_trips sample_stations [capital_station_7]
              sample_bikes [capital_bike_12345] 0%nat _
              ltac:(apply NoDup_singleton) ltac:(apply NoDup_singleton) eq_refl)
    as (m & Hm & Hstart & _ & Hbike).
  exists m. split; [reflexivity|]. split; [reflexivity|]. split; [exact Hm|]. split.
  - apply (Hstart capital_station_7); [left|now eexists|reflexivity].
  - apply (Hbike capital_bike_12345); [left|reflexivity].
Defined.

Lemma trips_ride_registered_bikes_witness :
  exists ut, sample_trips !! 0%nat = Some ut
    /\ (4 <= count_digits (bike_id ut.2))%nat
    /\ bike_id ut.2 <> "nan"%string
    /\ exists t, (t ∈ StationProps.rides_from_7 \/ t ∈ [])
         /\ astype_str (Raw.bike_id t) = bike_id ut.2.
Proof.
  eexists. split; [reflexivity|].
  apply (trips_ride_registered_bikes Samples.counting_bits StationProps.rides_from_7 []
           sample_stations [] sample_trips).
  - vm_compute. reflexivity.
  - vm_compute. left.
Defined.

End TripsLaws.

(** * Further properties of the feature stage *)

Module FeaturesLaws.
Import Py Float64 Features FeatureProps Float64Facts FeaturesFacts SpeedProps.

Lemma hour_range (t : Z) : 0 <= Calendar.hour t <= 23.
Proof.
  unfold Calendar.hour.
  pose proof (Z.mod_pos_bound t Calendar.ns_per_day eq_refl) as Hm.
  change Calendar.ns_per_day with (24 * Calendar.ns_per_hour) in *.
  assert (Hh : 0 < Calendar.ns_per_hour) by reflexivity.
  split.
  - apply Z.div_pos; lia.
  - apply Z.lt_succ_r. apply Z.div_lt_upper_bound; lia.
Qed.

Lemma dayofweek_range (t : Z) : 0 <= Calendar.dayofweek t <= 6.
Proof.
  unfold Calendar.dayofweek.
  pose proof (Z.mod_pos_bound (Calendar.days t + 3) 7 eq_refl). lia.
Qed.

Lemma filter_key_length {S} (f : S -> Z) (k : option Z) (l : list S) :
  NoDup (map f l) -> (length (filter (fun s => k = Some (f s)) l) <= 1)%nat.
Proof.
  induction l as [|s l IH]; cbn [map]; intros Hn; [cbn; lia|].
  apply NoDup_cons in Hn as [Hs Hn]. rewrite filter_cons.
  destruct (decide (k = Some (f s))) as [->|]; [|now apply IH].
  cbn [length]. assert (Hnil : filter (fun s0 => Some (f s) = Some (f s0)) l = []).
  { clear IH Hn. induction l as [|s' l IH]; [reflexivity|]. rewrite filter_cons.
    cbn [map] in Hs. apply not_elem_of_cons in Hs as [Hne Hs].
    destruct (decide (Some (f s) = Some (f s'))) as [[= E]|_]; [contradiction|].
    now apply IH. }
  rewrite Hnil. cbn. lia.
Qed.

Lemma shr_1_nonneg (mrs : shr_record) : 0 <= shr_m mrs -> 0 <= shr_m (shr_1 mrs).
Proof.
  destruct mrs as [m r s]. cbn. destruct m as [|[p|p|]|[p|p|]]; cbn; lia.
Qed.

Lemma iter_pos_shr_1_nonneg (p : positive) (mrs : shr_record) :
  0 <= shr_m mrs -> 0 <= shr_m (SpecFloat.iter_pos shr_1 p mrs).
Proof.
  revert mrs. induction p as [p IH|p IH|]; intros mrs H; cbn.
  - apply IH, IH. now apply shr_1_nonneg.
  - now apply IH, IH.
  - now apply shr_1_nonneg.
Qed.

Lemma shr_fexp_nonneg (m e : Z) (l : location) :
  0 <= m -> 0 <= shr_m (shr_fexp prec emax m e l).1.
Proof.
  intros Hm. unfold shr_fexp, shr.
  assert (H0 : 0 <= shr_m (shr_record_of_loc m l)) by (destruct l as [|[| |]]; exact Hm).
  destruct (fexp prec emax (Zdigits2 m + e) - e); cbn [fst]; try exact H0.
  now apply iter_pos_shr_1_nonneg.
Qed.

Lemma round_nearest_even_nonneg (m : Z) (l : location) :
  0 <= m -> 0 <= round_nearest_even m l.
Proof.
  intros Hm. unfold round_nearest_even. destruct l as [|[| |]]; try lia.
  destruct (IntDef.Z.even m); lia.
Qed.

(** Rounding a magnitude with the sign bit set gives a value with the
    sign bit set. *)
Lemma binary_round_aux_sign_set (m e : Z) (l : location) :
  0 <= m -> sign_set (binary_round_aux prec emax true m e l).
Proof.
  intros Hm. unfold binary_round_aux.
  pose proof (shr_fexp_nonneg m e l Hm) as H1.
  destruct (shr_fexp prec emax m e l) as [mrs e']. cbn [fst] in H1.
  pose proof (shr_fexp_nonneg
                (round_nearest_even (shr_m mrs) (loc_of_shr_record mrs)) e' loc_Exact
                (round_nearest_even_nonneg _ _ H1)) as H2.
  destruct (shr_fexp prec emax _ e' loc_Exact) as [mrs' e'']. cbn [fst] in H2.
  destruct (shr_m mrs'); [exact I| |lia].
  destruct (e'' <=? emax - prec); exact I.
Qed.

Lemma of_Z_sign_set (n : Z) : n < 0 -> sign_set (of_Z n).
Proof.
  intros Hn. unfold of_Z, binary_normalize. destruct n as [|p|p]; [lia|lia|].
  unfold binary_round.
  destruct (shl_align p 0 _) as [mz ez]. now apply binary_round_aux_sign_set.
Qed.

Lemma SFdiv_core_binary_nonneg (m1 m2 : positive) (e1 e2 : Z) :
  0 <= (SFdiv_core_binary prec emax (Z.pos m1) e1 (Z.pos m2) e2).1.1.
Proof.
  unfold SFdiv_core_binary.
  set (s := e1 - e2 - _).
  set (m' := match s with 0 => Z.pos m1 | Z.pos _ => IntDef.Z.shiftl (Z.pos m1) s
             | Z.neg _ => 0 end).
  assert (Hm' : 0 <= m').
  { subst m'. destruct s; try lia. change IntDef.Z.shiftl with Z.shiftl.
    apply Z.shiftl_nonneg. lia. }
  change IntDef.Z.div_eucl with Z.div_eucl.
  pose proof (Z.div_eucl_eq m' (Z.pos m2) ltac:(lia)) as Heq.
  pose proof (Z.mod_pos_bound m' (Z.pos m2) ltac:(lia)) as Hmod.
  unfold Z.modulo in Hmod.
  destruct (Z.div_eucl m' (Z.pos m2)) as [q r]. cbn [fst snd] in *. nia.
Qed.

Lemma div_sign_set_l (x : float) (m : positive) (e : Z) :
  sign_set x -> sign_set (div x (S754_finite false m e)).
Proof.
  destruct x as [[|]|[|]| |[|] mx ex]; cbn; try tauto. intros _.
  pose proof (SFdiv_core_binary_nonneg mx m ex e) as H.
  destruct (SFdiv_core_binary prec emax (Z.pos mx) ex (Z.pos m) e) as [[mz ez] lz].
  now apply binary_round_aux_sign_set.
Qed.

Lemma div_sign_set_r (y : float) (m : positive) (e : Z) :
  sign_set y -> sign_set (div (S754_finite false m e) y).
Proof.
  destruct y as [[|]|[|]| |[|] my ey]; cbn; try tauto. intros _.
  pose proof (SFdiv_core_binary_nonneg m my e ey) as H.
  destruct (SFdiv_core_binary prec emax (Z.pos m) e (Z.pos my) ey) as [[mz ez] lz].
  now apply binary_round_aux_sign_set.
Qed.

Lemma mul_sign_set (x : float) (m : positive) (e : Z) :
  sign_set x -> sign_set (mul x (S754_finite false m e)).
Proof.
  destruct x as [[|]|[|]| |[|] mx ex]; cbn; try tauto. intros _.
  apply binary_round_aux_sign_set. lia.
Qed.

Lemma leb_sign_set (x : float) (m : positive) (e : Z) :
  sign_set x -> leb x (S754_finite false m e) = true.
Proof. destruct x as [[|]|[|]| |[|] mx ex]; cbn; try tauto; reflexivity. Qed.

Lemma of_Z_finite_values :
  of_Z Calendar.ns_per_second = S754_finite false 8388608000000000 (-23)
  /\ of_Z 3600 = S754_finite false 7916483719987200 (-41)
  /\ of_Z 50 = S754_finite false 7036874417766400 (-47).
Proof. vm_compute. repeat split. Qed.

Lemma merge_stations_length {L R} (key : L -> option Z) (pair : L -> station -> R)
    (left : list L) (df_stations : list station) :
  NoDup (map station_uuid df_stations) ->
  (length (merge_stations key pair left df_stations) <= length left)%nat.
Proof.
  intros Hn. unfold merge_stations. induction left as [|l left IH]; [cbn; lia|].
  cbn [flat_map]. rewrite length_app, length_map. cbn [length].
  pose proof (filter_key_length station_uuid (key l) df_stations Hn). lia.
Qed.

Lemma merge_stations_elem {L R} (key : L -> option Z) (pair : L -> station -> R)
    (left : list L) (df_stations : list station) (r : R) :
  r ∈ merge_stations key pair left df_stations ->
  exists l s, r = pair l s /\ l ∈ left /\ s ∈ df_stations
    /\ key l = Some (station_uuid s).
Proof.
  unfold merge_stations. intros Hr. apply list_elem_of_In, in_flat_map in Hr as (l & Hl & Hr).
  apply list_elem_of_In, list_elem_of_fmap in Hr as (s & -> & Hs).
  apply list_elem_of_filter in Hs as [Hk Hs].
  exists l, s. split; [reflexivity|]. split; [now apply list_elem_of_In|]. now split.
Qed.

Lemma merge_stations_sublist {L R T} (key : L -> option Z) (pair : L -> station -> R)
    (proj : R -> T) (g : L -> T) (left : list L) (df_stations : list station) :
  (forall l s, proj (pair l s) = g l) ->
  NoDup (map station_uuid df_stations) ->
  map proj (merge_stations key pair left df_stations) `sublist_of` map g left.
Proof.
  intros Hproj Hn. unfold merge_stations.
  induction left as [|l left IH]; [constructor|].
  cbn [flat_map map]. rewrite map_app, map_map.
  pose proof (filter_key_length station_uuid (key l) df_stations Hn) as Hlen.
  destruct (filter (fun s => key l = Some (station_uuid s)) df_stations) as [|s [|s' rest]].
  - cbn. now apply sublist_cons.
  - cbn. rewrite Hproj. now apply sublist_skip.
  - cbn in Hlen. lia.
Qed.

Lemma merge_stations_intro {L R} (key : L -> option Z) (pair : L -> station -> R)
    (left : list L) (df_stations : list station) (l : L) (s : station) :
  l ∈ left -> s ∈ df_stations -> key l = Some (station_uuid s) ->
  pair l s ∈ merge_stations key pair left df_stations.
Proof.
  intros Hl Hs Hk. unfold merge_stations.
  apply list_elem_of_In, in_flat_map. exists l. split; [now apply list_elem_of_In|].
  apply list_elem_of_In, list_elem_of_fmap. exists s. split; [reflexivity|].
  apply list_elem_of_filter. now split.
Qed.

Section features.
Variables (radians sin cos arcsin : float -> float).

(** X17.  Every row of the feature table has an hour of day from 0 to 23, a
    trip hour category equal to that hour divided by 4, from 0 to 5, and a
    day of week from 0 to 6; it is marked as weekend exactly on days 5 and
    6. *)
Theorem calendar_features_in_range (df_trip_month : list trip)
    (df_stations : list station) (f : feature) :
  f ∈ generate_trips_feature_engineering radians sin cos arcsin df_trip_month df_stations ->
  exists h d,
    hour_of_day f = Some h /\ 0 <= h <= 23
    /\ trip_hour_category f = Some (h / 4) /\ 0 <= h / 4 <= 5
    /\ day_of_week f = Some d /\ 0 <= d <= 6
    /\ (is_weekend f = true <-> d = 5 \/ d = 6).
Proof.
  intros Hf. destruct (feature_has_times _ _ _ _ _ _ _ Hf) as (s & e & Hs & _).
  apply elem_of_features in Hf as (_ & r & -> & _).
  rewrite f_row_add_features in Hs.
  exists (Calendar.hour s), (Calendar.dayofweek s).
  unfold add_features. cbn [hour_of_day trip_hour_category day_of_week is_weekend].
  rewrite Hs. cbn [fmap option_fmap option_map].
  pose proof (hour_range s) as Hh. pose proof (dayofweek_range s) as Hd.
  split; [reflexivity|]. split; [exact Hh|]. split; [reflexivity|].
  split.
  { split; [apply Z.div_pos; lia|].
    apply Z.lt_succ_r, Z.div_lt_upper_bound; lia. }
  split; [reflexivity|]. split; [exact Hd|].
  rewrite Z.leb_le. lia.
Qed.

(** X18.  The two merges are inner joins.  Every row of the feature table
    belongs to a trip of the monthly file whose start and end station keys
    are station identifiers of the station table, and carries these two
    stations, so a trip with a null or unknown station key has no row.
    Conversely a trip joined with any two stations that carry its keys has
    a row when its speed passes the filter.  When the station identifiers of
    the station table are distinct, no trip has more rows in the feature
    table than in the monthly file: the trips of the feature rows are, up
    to their order, part of the trips of the file. *)
Theorem features_join_stations (df_trip_month : list trip)
    (df_stations : list station) :
  (forall f,
     f ∈ generate_trips_feature_engineering radians sin cos arcsin df_trip_month df_stations ->
     m_trip (f_row f) ∈ df_trip_month
     /\ station_start (f_row f) ∈ df_stations
     /\ start_station_uuid (m_trip (f_row f)) = Some (station_uuid (station_start (f_row f)))
     /\ station_end (f_row f) ∈ df_stations
     /\ end_station_uuid (m_trip (f_row f)) = Some (station_uuid (station_end (f_row f))))
  /\ (forall t s1 s2,
        t ∈ df_trip_month -> s1 ∈ df_stations -> s2 ∈ df_stations ->
        start_station_uuid t = Some (station_uuid s1) ->
        end_station_uuid t = Some (station_uuid s2) ->
        let f := add_features radians sin cos arcsin
                   {| m_trip := t; station_start := s1; station_end := s2 |} in
        speed_limit_condition f = true ->
        f ∈ generate_trips_feature_engineering radians sin cos arcsin
              df_trip_month df_stations)
  /\ (NoDup (map station_uuid df_stations) ->
      map (fun f => m_trip (f_row f))
          (generate_trips_feature_engineering radians sin cos arcsin
             df_trip_month df_stations)
      ⊆+ df_trip_month).
Proof.
  split; [|split].
  - intros f Hf. apply elem_of_features in Hf as (_ & r & -> & Hr).
    rewrite f_row_add_features. unfold add_coordinates in Hr.
    apply merge_stations_elem in Hr as ([t s1] & s2 & -> & Hts & Hs2 & Hk2).
    apply merge_stations_elem in Hts as (t' & s1' & [= -> ->] & Ht & Hs1 & Hk1).
    cbn in *. now repeat split.
  - intros t s1 s2 Ht Hs1 Hs2 Hk1 Hk2 f Hspeed.
    apply elem_of_features. split; [exact Hspeed|].
    exists {| m_trip := t; station_start := s1; station_end := s2 |}.
    split; [reflexivity|]. unfold add_coordinates.
    apply (merge_stations_intro (fun ts : trip * station => end_station_uuid ts.1)
             (fun ts s => {| m_trip := ts.1; station_start := ts.2; station_end := s |})
             _ df_stations (t, s1) s2); [|exact Hs2|exact Hk2].
    now apply (merge_stations_intro start_station_uuid (fun t s => (t, s))).
  - intros Hn. apply sublist_submseteq.
    unfold generate_trips_feature_engineering.
    transitivity (map (fun f => m_trip (f_row f))
                    (map (add_features radians sin cos arcsin)
                       (add_coordinates df_trip_month df_stations))).
    { apply (fmap_sublist (fun f => m_trip (f_row f))), sublist_filter. }
    rewrite map_map.
    rewrite (map_ext _ m_trip) by (intros r; now rewrite f_row_add_features).
    unfold add_coordinates.
    etransitivity.
    { apply (merge_stations_sublist _ _ m_trip (fun ts : trip * station => ts.1));
        [reflexivity|exact Hn]. }
    rewrite <- (map_id df_trip_month) at 2.
    apply (merge_stations_sublist start_station_uuid (fun t s => (t, s)) fst id);
      [reflexivity|exact Hn].
Qed.
(** X24.  The feature stage on its own keeps a trip that ends before it
    starts: when the distance between its stations is a positive number, the
    duration and the average speed come out with the sign bit set, the speed
    is at most 50, and the row is in the feature table. *)
Theorem backwards_trip_kept (df_trip_month : list trip) (df_stations : list station)
    (r : merged) (s e : Z) (m : positive) (ex : Z) :
  r ∈ add_coordinates df_trip_month df_stations ->
  start_time (m_trip r) = Some s -> end_time (m_trip r) = Some e -> e < s ->
  haversine radians sin cos arcsin r = S754_finite false m ex ->
  add_features radians sin cos arcsin r
    ∈ generate_trips_feature_engineering radians sin cos arcsin df_trip_month df_stations
  /\ sign_set (duration (add_features radians sin cos arcsin r))
  /\ sign_set (average_speed_kmh (add_features radians sin cos arcsin r)).
Proof.
  intros Hr Hs He Hlt Hd.
  destruct of_Z_finite_values as (Hsec & H3600 & H50).
  assert (Hdur : sign_set (total_seconds (start_time (m_trip r)) (end_time (m_trip r)))).
  { rewrite Hs, He. unfold total_seconds. rewrite Hsec.
    apply div_sign_set_l, of_Z_sign_set. lia. }
  assert (Hspeed : sign_set (average_speed_kmh (add_features radians sin cos arcsin r))).
  { rewrite average_speed_add_features, Hd, H3600.
    now apply mul_sign_set, div_sign_set_r. }
  split; [|split; [exact Hdur|exact Hspeed]].
  apply elem_of_features. split; [|now exists r].
  unfold speed_limit_condition. rewrite H50. now apply leb_sign_set.
Qed.

(** [arcsin] of a value that is not negative is not negative. *)
Hypothesis arcsin_not_negative :
  forall x, not_negative x -> not_negative (arcsin x).

(** X25.  Every row of the feature table has a start time and an end time,
    and the two differ: a trip with a missing instant has a NaN speed, a
    trip that takes no time an infinite or NaN speed, and neither passes the
    speed filter. *)
Theorem feature_rows_take_time (df_trip_month : list trip) (df_stations : list station)
    (f : feature) :
  f ∈ generate_trips_feature_engineering radians sin cos arcsin df_trip_month df_stations ->
  exists s e, start_time (m_trip (f_row f)) = Some s
    /\ end_time (m_trip (f_row f)) = Some e
    /\ s <> e.
Proof.
  intros Hf. destruct (feature_has_times _ _ _ _ _ _ _ Hf) as (s & e & Hs & He).
  exists s, e. split; [exact Hs|]. split; [exact He|]. intros ->.
  apply elem_of_features in Hf as (Hspeed & r & -> & _).
  rewrite f_row_add_features in Hs, He.
  rewrite (PipelineFacts.instant_trip_dropped radians sin cos arcsin
             arcsin_not_negative r e Hs He) in Hspeed.
  discriminate.
Qed.

End features.

Lemma calendar_features_in_range_witness :
  exists h d,
    hour_of_day (add_features flat_radians flat_sin flat_cos flat_arcsin
                   (sample_row trip_at_50)) = Some h
    /\ 0 <= h <= 23
    /\ trip_hour_category (add_features flat_radians flat_sin flat_cos flat_arcsin
                             (sample_row trip_at_50)) = Some (h / 4)
    /\ 0 <= h / 4 <= 5
    /\ day_of_week (add_features flat_radians flat_sin flat_cos flat_arcsin
                      (sample_row trip_at_50)) = Some d
    /\ 0 <= d <= 6
    /\ (is_weekend (add_features flat_radians flat_sin flat_cos flat_arcsin
                      (sample_row trip_at_50)) = true <-> d = 5 \/ d = 6).
Proof.
  apply (calendar_features_in_range flat_radians flat_sin flat_cos flat_arcsin
           sample_month [station_a; station_b]).
  apply FeaturesFacts.elem_of_features. split; [reflexivity|].
  exists (sample_row trip_at_50). split; [reflexivity|].
  apply list_elem_of_In. vm_compute. left. reflexivity.
Defined.

Lemma backwards_trip_kept_witness :
  add_features flat_radians flat_sin flat_cos flat_arcsin (sample_row trip_backwards)
    ∈ generate_trips_feature_engineering flat_radians flat_sin flat_cos flat_arcsin
        [trip_backwards] [station_a; station_b]
  /\ sign_set (duration (add_features flat_radians flat_sin flat_cos flat_arcsin
                           (sample_row trip_backwards)))
  /\ sign_set (average_speed_kmh (add_features flat_radians flat_sin flat_cos flat_arcsin
                                    (sample_row trip_backwards))).
Proof.
  apply (backwards_trip_kept flat_radians flat_sin flat_cos flat_arcsin
           [trip_backwards] [station_a; station_b] (sample_row trip_backwards)
           (mid_december + 900000000000) mid_december 7004988580560896 (-50)).
  - apply list_elem_of_In. vm_compute. left. reflexivity.
  - reflexivity.
  - reflexivity.
  - reflexivity.
  - vm_compute. reflexivity.
Defined.

Lemma feature_rows_take_time_witness :
  exists s e,
    start_time (m_trip (f_row (add_features flat_radians flat_sin flat_cos flat_arcsin
                                 (sample_row trip_at_50)))) = Some s
    /\ end_time (m_trip (f_row (add_features flat_radians flat_sin flat_cos flat_arcsin
                                  (sample_row trip_at_50)))) = Some e
    /\ s <> e.
Proof.
  apply (feature_rows_take_time flat_radians flat_sin flat_cos flat_arcsin
           (fun x _ => eq_refl) sample_month [station_a; station_b]).
  apply elem_of_features. split; [reflexivity|].
  exists (sample_row trip_at_50). split; [reflexivity|].
  apply list_elem_of_In. vm_compute. left. reflexivity.
Defined.

End FeaturesLaws.

(** * Further properties of the demographics table *)

Module DemographicsLaws.
Import Py Frame FrameFacts Demographics DemoProps DemographicsFacts CensusProps.
Local Open Scope Qc_scope.

Lemma answered_failed_length {A B} (f : A -> option B) (l : list A) :
  (length (omap f l) + length (filter (fun z => f z = None) l))%nat = length l.
Proof.
  induction l as [|x l IH]; [reflexivity|]. cbn [omap list_omap]. rewrite filter_cons.
  destruct (f x) eqn:E; cbn [length].
  - destruct (decide (Some b = None)); [discriminate|]. lia.
  - destruct (decide (@None B = None)); [|contradiction]. cbn [length]. lia.
Qed.

Lemma prepare_uuids (df : list urow) :
  map zip_code_uuid (prepare df) = map zip_code_uuid df.
Proof.
  unfold prepare, fill_zero_rows. rewrite hide_negative_values_rows, !map_map.
  apply map_ext. intros r. now case_bool_decide.
Qed.

Lemma imputed_uuids (df : list urow) (Xt : list (list Qc)) :
  length Xt = length df ->
  map zip_code_uuid
    (zip_with (fun r xs => {| zip_code_uuid := zip_code_uuid r;
                              u_zip_code := u_zip_code r;
                              u_indicators := map Some xs |}) df Xt)
  = map zip_code_uuid df.
Proof.
  revert Xt. induction df as [|r df IH]; intros [|xs Xt] Hlen;
    try discriminate; [reflexivity|].
  cbn. f_equal. apply IH. now injection Hlen.
Qed.

Lemma mask_clean (c : option Qc) :
  (exists v, c = Some v /\ 0 <= v) -> mask c = c /\ Some (default 0 c) = c.
Proof.
  intros (v & -> & Hv). unfold mask. cbn.
  rewrite bool_decide_eq_false_2; [now split|]. now apply Qcle_not_lt.
Qed.

Lemma prepare_clean (df : list urow) :
  Forall (fun r => Forall (fun c => exists v, c = Some v /\ 0 <= v) (u_indicators r)) df ->
  map u_indicators (prepare df) = map u_indicators df.
Proof.
  intros Hclean. unfold prepare, fill_zero_rows.
  rewrite hide_negative_values_rows, !map_map.
  apply map_ext_in. intros r Hr. rewrite Forall_forall in Hclean.
  specialize (Hclean r (proj2 (list_elem_of_In _ _) Hr)).
  assert (Hmask : map mask (u_indicators r) = u_indicators r).
  { rewrite <- (map_id (u_indicators r)) at 2. apply map_ext_in. intros c Hc.
    rewrite Forall_forall in Hclean. apply mask_clean, Hclean. now apply list_elem_of_In. }
  case_bool_decide; cbn [u_indicators without_negatives]; rewrite Hmask; [|reflexivity].
  rewrite <- (map_id (u_indicators r)) at 2. apply map_ext_in. intros c Hc.
  rewrite Forall_forall in Hclean. apply mask_clean, Hclean. now apply list_elem_of_In.
Qed.

Section imputer.
Variable fit_transform : list (list (option Qc)) -> list (list Qc).
Variable request_census_data : option string -> option row.
Variable median_raises : list (option zip) -> bool.
Variable getrandbits : Z -> nat -> Z.

Lemma impute_hidden_values_uuids (df out : list urow) :
  impute_hidden_values fit_transform df = Ok out ->
  map zip_code_uuid out = map zip_code_uuid df.
Proof.
  unfold impute_hidden_values. case_bool_decide as Hshape; [|discriminate].
  intros [= <-]. rewrite imputed_uuids; [apply prepare_uuids|].
  apply (f_equal length) in Hshape. now rewrite !length_map in Hshape.
Qed.

(** X19.  When the census answers for none of the postal areas of the
    stations, or there is no station, [generate_demographics_dataframe]
    raises [KeyError]: the table is empty and has none of the columns the
    conversion to numbers selects. *)
Theorem no_census_answer_raises (station_zip_codes : list (option string)) :
  (forall z, z ∈ station_zip_codes -> request_census_data z = None) ->
  generate_demographics_dataframe fit_transform request_census_data median_raises
    getrandbits station_zip_codes
  = Raise KeyError.
Proof.
  intros Hfail. unfold generate_demographics_dataframe, demographics_before_imputation.
  rewrite query_spec.
  assert (E : omap request_census_data (drop_duplicates station_zip_codes) = []).
  { destruct (omap _ _) as [|r l] eqn:E; [reflexivity|]. exfalso.
    assert (Hr : r ∈ omap request_census_data (drop_duplicates station_zip_codes))
      by (rewrite E; apply elem_of_cons; now left).
    apply list_elem_of_omap in Hr as (z & Hz & Hreq).
    rewrite elem_of_drop_duplicates in Hz. rewrite (Hfail z Hz) in Hreq. discriminate. }
  now rewrite E.
Qed.

(** X20.  When the census answers for at least one postal area, no
    [median()] of the insertion loop raises on its [zip_code] column, and
    the imputer returns, for the matrix this call hands to it, a matrix of
    the same shape, [generate_demographics_dataframe] returns a table with
    one row for every distinct ZIP code cell of the station table, the null
    cell included, and with the draws of seed 5 as surrogate identifiers, in
    order. *)
Theorem demographics_one_row_per_zip_code (station_zip_codes : list (option string))
    (z : option string) :
  z ∈ station_zip_codes -> is_Some (request_census_data z) ->
  existsb median_raises
    (zip_code_columns (answered request_census_data station_zip_codes)
                      (unanswered request_census_data station_zip_codes)) = false ->
  (forall df,
     demographics_before_imputation request_census_data median_raises
       station_zip_codes = Ok df ->
     same_shape (imputer_matrix (numbered (uuids getrandbits 5 (length df)) df))
                (fit_transform
                   (imputer_matrix (numbered (uuids getrandbits 5 (length df)) df)))) ->
  exists out,
    generate_demographics_dataframe fit_transform request_census_data median_raises
      getrandbits station_zip_codes = Ok out
    /\ length out = length (drop_duplicates station_zip_codes)
    /\ map zip_code_uuid out = uuids getrandbits 5 (length out).
Proof.
  intros Hz [r0 Hr0] Hmedian Hshape.
  assert (Hne : answered request_census_data station_zip_codes <> []).
  { intros E.
    assert (Hin : r0 ∈ answered request_census_data station_zip_codes).
    { apply list_elem_of_omap. exists z. split; [|exact Hr0].
      now apply elem_of_drop_duplicates. }
    rewrite E in Hin. now apply elem_of_nil in Hin. }
  pose proof (demographics_before_imputation_outcome median_raises
                request_census_data station_zip_codes Hne) as Hbefore.
  rewrite Hmedian in Hbefore.
  set (df := answered request_census_data station_zip_codes
             ++ map (fun z => median_row z
                                 (answered request_census_data station_zip_codes))
                    (unanswered request_census_data station_zip_codes)) in *.
  unfold generate_demographics_dataframe. rewrite Hbefore. cbn [bind].
  fold (numbered (uuids getrandbits 5 (length df)) df).
  destruct (impute_hidden_values_returns fit_transform
              (numbered (uuids getrandbits 5 (length df)) df) (Hshape df Hbefore))
    as (out & Hout & _).
  exists out. split; [exact Hout|].
  assert (Hlen : length df = length (drop_duplicates station_zip_codes)).
  { unfold df, answered, unanswered. rewrite length_app, !length_map.
    apply answered_failed_length. }
  apply impute_hidden_values_uuids in Hout.
  assert (Hu : forall (us : list Z) (rows : list row), length us = length rows ->
            map zip_code_uuid (numbered us rows) = us).
  { induction us as [|u us IH]; intros [|r' rows] Hl; try discriminate; [reflexivity|].
    cbn. f_equal. apply IH. now injection Hl. }
  rewrite Hu in Hout by apply BikesFacts.uuids_length.
  assert (Hlen' : length out = length (drop_duplicates station_zip_codes)).
  { rewrite <- (length_map zip_code_uuid out), Hout, BikesFacts.uuids_length. exact Hlen. }
  split; [exact Hlen'|]. now rewrite Hout, Hlen', Hlen.
Qed.

(** X21.  On a table in which no indicator is missing or negative,
    [impute_hidden_values] changes no indicator and no surrogate identifier,
    for every imputer that returns a matrix of the shape of the one it is
    given and keeps the cells that are not missing. *)
Theorem clean_table_unchanged (df : list urow) :
  Forall (fun r => Forall (fun c => exists v, c = Some v /\ 0 <= v) (u_indicators r)) df ->
  same_shape (map u_indicators df) (fit_transform (map u_indicators df)) ->
  observed_kept (map u_indicators df) (fit_transform (map u_indicators df)) ->
  exists out, impute_hidden_values fit_transform df = Ok out
    /\ map u_indicators out = map u_indicators df
    /\ map zip_code_uuid out = map zip_code_uuid df.
Proof.
  intros Hclean Hshape Hkept.
  pose proof (prepare_clean df Hclean) as Hprep.
  destruct (impute_hidden_values_returns fit_transform df) as (out & Hout & Hind);
    [now rewrite Hprep|].
  exists out. split; [exact Hout|]. split; [|now apply impute_hidden_values_uuids].
  rewrite Hind, Hprep.
  apply list_eq. intros i.
  change (map (map Some) (fit_transform (map u_indicators df)))
    with (map Some <$> fit_transform (map u_indicators df)).
  rewrite list_lookup_fmap.
  pose proof Hshape as Hlen. unfold same_shape in Hlen.
  apply (f_equal (fun l => l !! i)) in Hlen.
  change (map length (fit_transform (map u_indicators df)))
    with (length <$> fit_transform (map u_indicators df)) in Hlen.
  change (map length (map u_indicators df)) with (length <$> map u_indicators df) in Hlen.
  rewrite (list_lookup_fmap length (fit_transform (map u_indicators df)) i) in Hlen.
  rewrite (list_lookup_fmap length (map u_indicators df) i) in Hlen.
  destruct (map u_indicators df !! i) as [row|] eqn:Erow;
    destruct (fit_transform (map u_indicators df) !! i) as [xs|] eqn:Exs;
    try discriminate; [|reflexivity].
  cbn in Hlen. injection Hlen as Hlen. cbn. f_equal.
  apply list_eq. intros j. rewrite list_lookup_fmap.
  destruct (row !! j) as [c|] eqn:Ec.
  - assert (Hc : exists v, c = Some v /\ 0 <= v).
    { rewrite Forall_forall in Hclean.
      apply list_elem_of_lookup_2 in Erow.
      apply list_elem_of_fmap in Erow as (r & -> & Hr).
      specialize (Hclean r Hr). rewrite Forall_forall in Hclean.
      apply Hclean. now apply list_elem_of_lookup_2 in Ec. }
    destruct Hc as (v & -> & _).
    assert (Hx : at_ (fit_transform (map u_indicators df)) i j = Some v).
    { apply Hkept. unfold at_. rewrite Erow. cbn. exact Ec. }
    unfold at_ in Hx. rewrite Exs in Hx. cbn in Hx. now rewrite Hx.
  - apply lookup_ge_None in Ec. rewrite (lookup_ge_None_2 xs j) by lia. reflexivity.
Qed.

End imputer.

Lemma no_census_answer_raises_witness :
  generate_demographics_dataframe least_squares_imputer census_down
    (text_after_nan false) Samples.counting_bits sample_zip_codes
  = Raise KeyError.
Proof.
  apply (no_census_answer_raises least_squares_imputer census_down
           (text_after_nan false) Samples.counting_bits sample_zip_codes).
  intros z _. reflexivity.
Defined.

Lemma demographics_one_row_per_zip_code_witness :
  exists out,
    generate_demographics_dataframe least_squares_imputer sample_census
      (text_after_nan false) Samples.counting_bits sample_zip_codes = Ok out
    /\ length out = length (drop_duplicates sample_zip_codes)
    /\ map zip_code_uuid out = uuids Samples.counting_bits 5 (length out).
Proof.
  apply (demographics_one_row_per_zip_code least_squares_imputer sample_census
           (text_after_nan false) Samples.counting_bits sample_zip_codes
           (Some "90012"%string)).
  - vm_compute. left.
  - eexists. reflexivity.
  - vm_compute. reflexivity.
  - intros df _. apply DemographicsFacts.fill_with_same_shape.
Defined.

Lemma clean_table_unchanged_witness :
  exists out, impute_hidden_values least_squares_imputer published_table = Ok out
    /\ map u_indicators out = map u_indicators published_table
    /\ map zip_code_uuid out = map zip_code_uuid published_table.
Proof.
  apply (clean_table_unchanged least_squares_imputer published_table).
  - repeat constructor; eexists; (split; [reflexivity|]);
      vm_compute; intros H; discriminate H.
  - apply DemographicsFacts.fill_with_same_shape.
  - apply DemographicsFacts.fill_with_observed_kept.
Defined.

End DemographicsLaws.

(** * Properties of the weather table *)

Module WeatherLaws.
Import Frame Weather WeatherProps.

Lemma remove_utc_offset_cons (c : ascii) (s : string) :
  offset_at (String c s) = false ->
  remove_utc_offset (String c s) = String c (remove_utc_offset s).
Proof.
  destruct s as [|c1 [|c2 [|c3 [|c4 [|c5 rest]]]]]; try reflexivity.
  cbn [remove_utc_offset offset_at]. now intros ->.
Qed.

Lemma remove_utc_offset_no_offset (s : string) :
  no_offset s = true -> remove_utc_offset s = s.
Proof.
  induction s as [|c s IH]; [reflexivity|]. intros H.
  cbn [no_offset] in H. apply andb_true_iff in H as [Hc Hs].
  apply negb_true_iff in Hc. rewrite remove_utc_offset_cons by exact Hc.
  now rewrite IH.
Qed.

Lemma append_cons (c : ascii) (s t : string) :
  append (String c s) t = String c (append s t).
Proof. reflexivity. Qed.

Lemma append_nil (t : string) : append EmptyString t = t.
Proof. reflexivity. Qed.

Lemma sign_not_digit (c : ascii) : is_sign c = true -> is_digit c = false.
Proof.
  unfold is_sign. intros H. apply orb_true_iff in H as [H|H];
    apply Ascii.eqb_eq in H; subst c; reflexivity.
Qed.

Lemma sign_not_colon (c : ascii) : is_sign c = true -> (c =? ":")%char = false.
Proof.
  unfold is_sign. intros H. apply orb_true_iff in H as [H|H];
    apply Ascii.eqb_eq in H; subst c; reflexivity.
Qed.

(** A match that starts in [s] does not reach into a text that follows
    [s] and starts with a sign. *)
Lemma offset_at_app (c : ascii) (s : string) (c' : ascii) (tail : string) :
  is_sign c' = true ->
  offset_at (append (String c s) (String c' tail)) = offset_at (String c s).
Proof.
  intros Hsign.
  pose proof (sign_not_digit c' Hsign) as Hd.
  pose proof (sign_not_colon c' Hsign) as Hc.
  destruct s as [|c1 [|c2 [|c3 [|c4 [|c5 rest]]]]];
    destruct tail as [|? [|? [|? [|? ?]]]];
    rewrite ?append_cons, ?append_nil; cbn [offset_at]; rewrite ?Hd, ?Hc;
    repeat (rewrite ?andb_false_r; cbn [andb]); reflexivity.
Qed.

(** X22.  The rewriting of the [date] column removes a UTC offset (a sign,
    two digits, a colon, two digits) at the end of a text in which no such
    group starts earlier, and gives back that text; a text without such a
    group is left as it is. Two timestamps of one local time under two
    offsets, as on the night the clocks go back, are given the same text. *)
Theorem trailing_utc_offset_removed (s : string) (c d1 d2 d3 d4 : ascii) :
  no_offset s = true ->
  is_sign c = true ->
  is_digit d1 = true -> is_digit d2 = true ->
  is_digit d3 = true -> is_digit d4 = true ->
  remove_utc_offset (append s (utc_offset c d1 d2 d3 d4)) = s
  /\ remove_utc_offset s = s.
Proof.
  intros Hs Hc H1 H2 H3 H4. split; [|now apply remove_utc_offset_no_offset].
  induction s as [|c0 s IH].
  - rewrite append_nil. unfold utc_offset. cbn [remove_utc_offset].
    rewrite Hc, H1, H2, H3, H4. reflexivity.
  - cbn [no_offset] in Hs. apply andb_true_iff in Hs as [Hc0 Hs].
    apply negb_true_iff in Hc0.
    change (append (String c0 s) (utc_offset c d1 d2 d3 d4))
      with (String c0 (append s (utc_offset c d1 d2 d3 d4))).
    rewrite remove_utc_offset_cons; [now rewrite IH|].
    change (String c0 (append s (utc_offset c d1 d2 d3 d4)))
      with (append (String c0 s) (utc_offset c d1 d2 d3 d4)).
    unfold utc_offset. now rewrite offset_at_app by exact Hc.
Qed.

Lemma trailing_utc_offset_removed_witness :
  remove_utc_offset "2016-11-06 01:00:00-07:00" = "2016-11-06 01:00:00"%string
  /\ remove_utc_offset "2016-11-06 01:00:00-08:00" = "2016-11-06 01:00:00"%string.
Proof.
  split.
  - apply (trailing_utc_offset_removed "2016-11-06 01:00:00" "-" "0" "7" "0" "0");
      reflexivity.
  - apply (trailing_utc_offset_removed "2016-11-06 01:00:00" "-" "0" "8" "0" "0");
      reflexivity.
Defined.

End WeatherLaws.
